(** * NimbusMCP: the weather tool service and the advice cascade

    A shallow embedding of [weather_mcp_server.py] (tool dispatch, report
    formatting, forecast reduction) and of [llm_weather_client.py] (the
    provider cascade and the rule-based analysis), followed by the
    properties of the specification that were checked against them.

    Modelling conventions.
    - A Python [str] is a [string] holding the UTF-8 bytes of the text, the
      encoding of the source files.  Substring search, [split] on a fixed
      separator, [endswith] and the ordering used by [sorted] agree on bytes
      and on code points for UTF-8 text.  Character classes (whitespace,
      digits, letter case) are those of the ASCII range; bytes above 127 are
      carried unchanged and belong to no class.  The exception is
      [PyUnicode.ustrip], the [strip] of the environment values of the
      cascade and of the answers of the providers, which removes every
      character that [str.isspace] accepts.
    - A Python [float] is an IEEE-754 binary64 value, [spec_float] with
      precision 53 and maximal exponent 1024; [float(str)] rounds the
      decimal to the nearest value, ties to even.
    - A Python [int] is a [Z].
    - A raised exception is the [Raise] branch of [result]; [try ... except
      Exception: pass] is [attempt].
    - The upstream HTTP services are functions received as arguments.
    - A payload of the upstream is a record with the fields that the
      handlers read; a payload that lacks one of them is not a value of the
      record type. *)

From Stdlib Require Import String Ascii ZArith List Bool Lia.
From Stdlib Require Import Floats.SpecFloat.
From Stdlib Require Import DecimalString DecimalZ.
From Stdlib Require Import Sorting.Sorted Sorting.Permutation.
Import ListNotations.
Open Scope string_scope.

(** ** Exceptions *)

Inductive pyexc : Type :=
| ValueError (msg : string)
| IndexError (msg : string)
| KeyError (key : string).

Inductive result (A : Type) : Type :=
| Return (a : A)
| Raise (e : pyexc).
Arguments Return {A} a.
Arguments Raise {A} e.

Definition bind {A B : Type} (c : result A) (k : A -> result B) : result B :=
  match c with
  | Return a => k a
  | Raise e => Raise e
  end.

Declare Scope py_scope.
Delimit Scope py_scope with py.
Notation "x <- c ;; k" := (bind c (fun x => k))
  (at level 61, c at next level, right associativity) : py_scope.

(** [try: v = body  except Exception: pass], with [v = None] before it. *)
Definition attempt {A : Type} (body : result (option A)) : option A :=
  match body with
  | Return v => v
  | Raise _ => None
  end.

(** ** Python string operations *)

Module PyStr.

Definition nl : string := String (ascii_of_nat 10) EmptyString.

Definition truthy (s : string) : bool :=
  match s with
  | EmptyString => false
  | String _ _ => true
  end.

Definition in_range (lo hi : nat) (c : ascii) : bool :=
  let n := nat_of_ascii c in (lo <=? n)%nat && (n <=? hi)%nat.

(** [str.isspace] on the ASCII range: TAB..CR, FS..US and the blank. *)
Definition isspace (c : ascii) : bool :=
  in_range 9 13 c || in_range 28 32 c.

(** The C-locale whitespace that [float] and [int] skip: TAB..CR and the
    blank. *)
Definition c_isspace (c : ascii) : bool :=
  in_range 9 13 c || in_range 32 32 c.

Definition isdigit (c : ascii) : bool := in_range 48 57 c.
Definition isupper (c : ascii) : bool := in_range 65 90 c.
Definition islower (c : ascii) : bool := in_range 97 122 c.
Definition isalpha (c : ascii) : bool := isupper c || islower c.

Definition to_lower (c : ascii) : ascii :=
  if isupper c then ascii_of_nat (nat_of_ascii c + 32) else c.
Definition to_upper (c : ascii) : ascii :=
  if islower c then ascii_of_nat (nat_of_ascii c - 32) else c.

Fixpoint map_chars (f : ascii -> ascii) (s : string) : string :=
  match s with
  | EmptyString => EmptyString
  | String c r => String (f c) (map_chars f r)
  end.

Definition lower (s : string) : string := map_chars to_lower s.

(** [str.capitalize]: first character upper-cased, the rest lower-cased. *)
Definition capitalize (s : string) : string :=
  match s with
  | EmptyString => EmptyString
  | String c r => String (to_upper c) (lower r)
  end.

(** [str.title]: a letter is upper-cased when the previous character is not
    a letter and lower-cased otherwise. *)
Fixpoint title_from (prev_cased : bool) (s : string) : string :=
  match s with
  | EmptyString => EmptyString
  | String c r =>
      String (if prev_cased then to_lower c else to_upper c)
             (title_from (isalpha c) r)
  end.
Definition title (s : string) : string := title_from false s.

Fixpoint rev_onto (s acc : string) : string :=
  match s with
  | EmptyString => acc
  | String c r => rev_onto r (String c acc)
  end.
Definition rev (s : string) : string := rev_onto s EmptyString.

(** [key in s] *)
Fixpoint contains (key s : string) : bool :=
  prefix key s ||
  match s with
  | EmptyString => false
  | String _ r => contains key r
  end.

Definition endswith (suffix s : string) : bool :=
  prefix (rev suffix) (rev s).

Fixpoint mem_char (c : ascii) (chars : string) : bool :=
  match chars with
  | EmptyString => false
  | String d r => Ascii.eqb c d || mem_char c r
  end.

Fixpoint lstrip_by (p : ascii -> bool) (s : string) : string :=
  match s with
  | EmptyString => EmptyString
  | String c r => if p c then lstrip_by p r else s
  end.
Definition rstrip_by (p : ascii -> bool) (s : string) : string :=
  rev (lstrip_by p (rev s)).
Definition strip_by (p : ascii -> bool) (s : string) : string :=
  rstrip_by p (lstrip_by p s).

(** [s.strip()], [s.strip(chars)], [s.rstrip(chars)] *)
Definition strip (s : string) : string := strip_by isspace s.
Definition strip_chars (chars s : string) : string :=
  strip_by (fun c => mem_char c chars) s.
Definition rstrip_chars (chars s : string) : string :=
  rstrip_by (fun c => mem_char c chars) s.

(** [s.split(sep)] and [s.split(sep, maxsplit)] for a non-empty separator.
    [skip] counts the characters of a matched separator still to be passed
    over, [cur] is the current piece in reverse, [budget] the number of
    splits still allowed ([None]: unbounded). *)
Fixpoint split_go (sep : string) (budget : option nat) (skip : nat)
         (cur : string) (s : string) : list string :=
  match s with
  | EmptyString => [rev cur]
  | String c r =>
      match skip with
      | S k => split_go sep budget k cur r
      | O =>
          match budget with
          | Some O => [rev_onto cur s]
          | _ =>
              if prefix sep s
              then rev cur ::
                   split_go sep (option_map Nat.pred budget)
                            (String.length sep - 1) EmptyString r
              else split_go sep budget O (String c cur) r
          end
      end
  end.
Definition split (sep s : string) : list string :=
  split_go sep None O EmptyString s.
Definition split_max (sep : string) (maxsplit : nat) (s : string)
  : list string :=
  split_go sep (Some maxsplit) O EmptyString s.

(** [s.split()]: the maximal runs of non-whitespace characters. *)
Fixpoint split_ws_go (cur : string) (s : string) : list string :=
  match s with
  | EmptyString => if truthy cur then [rev cur] else []
  | String c r =>
      if isspace c
      then (if truthy cur then rev cur :: split_ws_go EmptyString r
            else split_ws_go EmptyString r)
      else split_ws_go (String c cur) r
  end.
Definition split_ws (s : string) : list string := split_ws_go EmptyString s.

(** [sep.join(parts)] *)
Fixpoint join (sep : string) (parts : list string) : string :=
  match parts with
  | [] => EmptyString
  | [p] => p
  | p :: rest => p ++ sep ++ join sep rest
  end.

(** [''.join(ch for ch in s if p(ch))] *)
Fixpoint filter_chars (p : ascii -> bool) (s : string) : string :=
  match s with
  | EmptyString => EmptyString
  | String c r => if p c then String c (filter_chars p r) else filter_chars p r
  end.

(** [parts[i]] for [i >= 0], and [parts[-1]]. *)
Definition index {A : Type} (l : list A) (i : nat) : result A :=
  match nth_error l i with
  | Some a => Return a
  | None => Raise (IndexError "list index out of range")
  end.
Definition index_last {A : Type} (l : list A) : result A :=
  match l with
  | [] => Raise (IndexError "list index out of range")
  | a :: r => Return (last r a)
  end.

(** [list(dict.fromkeys(l))]: first occurrences, in order. *)
Fixpoint fromkeys_go (seen : list string) (l : list string) : list string :=
  match l with
  | [] => []
  | x :: r =>
      if existsb (String.eqb x) seen then fromkeys_go seen r
      else x :: fromkeys_go (x :: seen) r
  end.
Definition fromkeys (l : list string) : list string := fromkeys_go [] l.

End PyStr.

(** ** Python numbers *)

Module PyNum.
Import PyStr.

Definition prec : Z := 53.
Definition emax : Z := 1024.

(** The binary64 value of an integer. *)
Definition of_Z (z : Z) : spec_float := binary_normalize prec emax z 0 false.

(** The binary64 value nearest to [m * 10^e], for [0 <= m]. *)
Definition float_of_decimal (neg : bool) (m e : Z) : spec_float :=
  match m with
  | Zpos p =>
      match e with
      | Zneg k => SFdiv prec emax (S754_finite neg p 0)
                        (S754_finite false (10 ^ k) 0)
      | _ => binary_round prec emax neg (Z.to_pos (m * 10 ^ e)) 0
      end
  | _ => S754_zero neg
  end.

Definition fle (x y : spec_float) : bool := SFleb x y.
Definition fge (x y : spec_float) : bool := SFleb y x.
Definition fsub (x y : spec_float) : spec_float := SFsub prec emax x y.

(** *** Reading numbers *)

Fixpoint span_digits (s : string) : string * string :=
  match s with
  | EmptyString => (EmptyString, EmptyString)
  | String c r =>
      if isdigit c
      then let (d, rest) := span_digits r in (String c d, rest)
      else (EmptyString, s)
  end.

Fixpoint digits_value_from (acc : Z) (s : string) : Z :=
  match s with
  | EmptyString => acc
  | String c r => digits_value_from (10 * acc + Z.of_nat (nat_of_ascii c - 48)) r
  end.
Definition digits_value (s : string) : Z := digits_value_from 0 s.

(** Underscores may separate digits: each must follow a digit and precede
    one.  [prev] is the previous character, NUL at the start. *)
Fixpoint drop_underscores (prev : ascii) (s : string) : option string :=
  match s with
  | EmptyString => if Ascii.eqb prev "_" then None else Some EmptyString
  | String c r =>
      if Ascii.eqb c "_"
      then (if isdigit prev then drop_underscores c r else None)
      else if Ascii.eqb prev "_" && negb (isdigit c) then None
           else option_map (String c) (drop_underscores c r)
  end.

Definition split_sign (s : string) : bool * string :=
  match s with
  | String "-" r => (true, r)
  | String "+" r => (false, r)
  | _ => (false, s)
  end.

(** [digits [. digits] [(e|E) [sign] digits]] with a digit in the mantissa;
    the result is the mantissa and the power of ten. *)
Definition parse_decimal (t : string) : option (Z * Z) :=
  let (ip, r1) := span_digits t in
  let (fp, r2) :=
    match r1 with
    | String "." r => span_digits r
    | _ => (EmptyString, r1)
    end in
  let m := digits_value (ip ++ fp) in
  let k := Z.of_nat (String.length fp) in
  if truthy (ip ++ fp) then
    match r2 with
    | EmptyString => Some (m, - k)%Z
    | String c r3 =>
        if Ascii.eqb c "e" || Ascii.eqb c "E" then
          let (eneg, r4) := split_sign r3 in
          let (ed, r5) := span_digits r4 in
          if truthy ed && negb (truthy r5)
          then Some (m, (if eneg then - digits_value ed else digits_value ed) - k)%Z
          else None
        else None
    end
  else None.

Definition float_error (s : string) : pyexc :=
  ValueError ("could not convert string to float: " ++ s).

(** [float(s)] *)
Definition float (s : string) : result spec_float :=
  match drop_underscores zero s with
  | None => Raise (float_error s)
  | Some u =>
      let t := strip_by c_isspace u in
      let (neg, body) := split_sign t in
      let lb := lower body in
      if String.eqb lb "inf" || String.eqb lb "infinity"
      then Return (S754_infinity neg)
      else if String.eqb lb "nan" then Return S754_nan
      else match parse_decimal body with
           | Some (m, e) => Return (float_of_decimal neg m e)
           | None => Raise (float_error s)
           end
  end.

Definition int_max_str_digits : nat := 4300.

Definition int_error (s : string) : pyexc :=
  ValueError ("invalid literal for int() with base 10: " ++ s).

(** The error of a text with more digits than the limit of the
    interpreter. *)
Definition digits_error (digits : nat) : pyexc :=
  ValueError ("Exceeds the limit (4300 digits) for integer string conversion: " ++
              "value has " ++ NilZero.string_of_uint (Nat.to_uint digits) ++
              " digits; use sys.set_int_max_str_digits() to increase the limit").

(** [int(s)] *)
Definition int (s : string) : result Z :=
  let t := strip_by c_isspace s in
  let (neg, body) := split_sign t in
  match drop_underscores zero body with
  | None => Raise (int_error s)
  | Some d =>
      let (ds, rest) := span_digits d in
      if truthy ds && negb (truthy rest) then
        if (String.length ds <=? int_max_str_digits)%nat
        then Return (if neg then - digits_value ds else digits_value ds)%Z
        else Raise (digits_error (String.length ds))
      else Raise (int_error s)
  end.

(** *** Printing numbers *)

(** [str(z)] *)
Definition str_int (z : Z) : string := NilZero.string_of_int (Z.to_int z).

Fixpoint zeros (n : nat) : string :=
  match n with
  | O => EmptyString
  | S k => String "0" (zeros k)
  end.

(** Comparison of [num / den] with [10^p]. *)
Definition cmp_pow10 (num den p : Z) : comparison :=
  match p with
  | Zneg k => (num * 10 ^ (Zpos k) ?= den)%Z
  | _ => (num ?= den * 10 ^ p)%Z
  end.

(** The [p] with [10^(p-1) <= num/den < 10^p], searched upwards. *)
Fixpoint decpt_from (fuel : nat) (num den p : Z) : Z :=
  match fuel with
  | O => p
  | S f =>
      match cmp_pow10 num den p with
      | Lt => p
      | _ => decpt_from f num den (p + 1)
      end
  end.

Fixpoint strip_zeros (fuel : nat) (c k : Z) : Z * Z :=
  match fuel with
  | O => (c, k)
  | S f => if (0 <? c)%Z && (c mod 10 =? 0)%Z then strip_zeros f (c / 10) (k + 1)
           else (c, k)
  end.

(** The shortest decimal [c * 10^k] that [float] reads back as the given
    finite value, with [n] .. 17 significant digits. *)
Fixpoint shortest_from (fuel : nat) (n : Z) (neg : bool) (m : positive) (e : Z)
         (num den p : Z) : Z * Z :=
  let k := (p - n)%Z in
  let sn := match k with Zneg j => (num * 10 ^ (Zpos j))%Z | _ => num end in
  let sd := match k with Zneg _ => den | _ => (den * 10 ^ k)%Z end in
  let q := (sn / sd)%Z in
  let back c := SFeqb (float_of_decimal neg c k) (S754_finite neg m e) in
  let near_up := match (2 * sn ?= (2 * q + 1) * sd)%Z with
                 | Gt => true
                 | Eq => Z.odd q
                 | Lt => false
                 end in
  match fuel with
  | O => (q, k)
  | S f =>
      if back q && back (q + 1)%Z then (if near_up then (q + 1, k)%Z else (q, k))
      else if back q then (q, k)
      else if back (q + 1)%Z then ((q + 1)%Z, k)
      else shortest_from f (n + 1) neg m e num den p
  end.

Definition shortest_digits (neg : bool) (m : positive) (e : Z) : Z * Z :=
  let num := match e with Zneg _ => Zpos m | _ => (Zpos m * 2 ^ e)%Z end in
  let den := match e with Zneg j => (2 ^ (Zpos j))%Z | _ => 1%Z end in
  let est := ((Z.log2 (Zpos m) + e) * 30103 / 100000 - 1)%Z in
  let p := decpt_from 4 num den est in
  let (c, k) := shortest_from 17 1 neg m e num den p in
  strip_zeros 17 c k.

(** [repr(x)] of a float: positional notation when the decimal point falls
    within [-4 < decpt <= 16], scientific otherwise. *)
Definition float_repr (x : spec_float) : string :=
  match x with
  | S754_nan => "nan"
  | S754_infinity s => if s then "-inf" else "inf"
  | S754_zero s => if s then "-0.0" else "0.0"
  | S754_finite s m e =>
      let (c, k) := shortest_digits s m e in
      let ds := str_int c in
      let nd := Z.of_nat (String.length ds) in
      let decpt := (nd + k)%Z in
      let body :=
        if (decpt <=? -4)%Z || (16 <? decpt)%Z then
          let x10 := (decpt - 1)%Z in
          let ex := str_int (Z.abs x10) in
          substring 0 1 ds ++
          (if (1 <? nd)%Z then "." ++ substring 1 (String.length ds - 1) ds
           else EmptyString) ++
          "e" ++ (if (x10 <? 0)%Z then "-" else "+") ++
          (if (String.length ex <? 2)%nat then "0" ++ ex else ex)
        else if (decpt <=? 0)%Z then
          "0." ++ zeros (Z.to_nat (- decpt)) ++ ds
        else if (nd <=? decpt)%Z then
          ds ++ zeros (Z.to_nat (decpt - nd)) ++ ".0"
        else
          substring 0 (Z.to_nat decpt) ds ++ "." ++
          substring (Z.to_nat decpt) (String.length ds - Z.to_nat decpt) ds
      in (if s then "-" else EmptyString) ++ body
  end.

(** A JSON number as Python reads it: an [int] or a [float]. *)
Inductive pynum : Type :=
| PyInt (z : Z)
| PyFloat (x : spec_float).

(** [str(n)], the text an f-string inserts for a number. *)
Definition str_num (n : pynum) : string :=
  match n with
  | PyInt z => str_int z
  | PyFloat x => float_repr x
  end.

(** The value [float] is expected to read back from [str_num n]. *)
Definition to_float (n : pynum) : spec_float :=
  match n with
  | PyInt z => of_Z z
  | PyFloat x => x
  end.

End PyNum.

(** ** Whitespace beyond ASCII *)

Module PyUnicode.
Import PyStr.

Definition byte_is (c : ascii) (n : nat) : bool := (nat_of_ascii c =? n)%nat.

(** The two-byte whitespace characters in UTF-8: U+0085 and U+00A0. *)
Definition space2 (b1 b2 : ascii) : bool :=
  byte_is b1 194 && (byte_is b2 133 || byte_is b2 160).

(** The three-byte whitespace characters in UTF-8: U+1680, U+2000 to
    U+200A, U+2028, U+2029, U+202F, U+205F and U+3000. *)
Definition space3 (b1 b2 b3 : ascii) : bool :=
  (byte_is b1 225 && byte_is b2 154 && byte_is b3 128) ||
  (byte_is b1 226 && byte_is b2 128 &&
   (in_range 128 138 b3 || byte_is b3 168 || byte_is b3 169 || byte_is b3 175)) ||
  (byte_is b1 226 && byte_is b2 129 && byte_is b3 159) ||
  (byte_is b1 227 && byte_is b2 128 && byte_is b3 128).

(** The text after one whitespace character at the start of [s], for the
    characters that [str.isspace] accepts: those of [isspace] and the ones
    above. *)
Definition after_space (s : string) : option string :=
  match s with
  | EmptyString => None
  | String b1 r1 =>
      if isspace b1 then Some r1
      else
        match r1 with
        | EmptyString => None
        | String b2 r2 =>
            if space2 b1 b2 then Some r2
            else
              match r2 with
              | EmptyString => None
              | String b3 r3 => if space3 b1 b2 b3 then Some r3 else None
              end
        end
  end.

(** The same at the end of a text, on the text reversed. *)
Definition before_space (reversed : string) : option string :=
  match reversed with
  | EmptyString => None
  | String b1 r1 =>
      if isspace b1 then Some r1
      else
        match r1 with
        | EmptyString => None
        | String b2 r2 =>
            if space2 b2 b1 then Some r2
            else
              match r2 with
              | EmptyString => None
              | String b3 r3 => if space3 b3 b2 b1 then Some r3 else None
              end
        end
  end.

(** [step] applied as long as it applies, at most [fuel] times. *)
Fixpoint strip_with (step : string -> option string) (fuel : nat) (s : string)
  : string :=
  match fuel with
  | O => s
  | S f =>
      match step s with
      | Some r => strip_with step f r
      | None => s
      end
  end.

Definition ulstrip (s : string) : string :=
  strip_with after_space (String.length s) s.
Definition urstrip (s : string) : string :=
  let reversed := rev s in
  rev (strip_with before_space (String.length reversed) reversed).

(** [s.strip()] on a text in UTF-8. *)
Definition ustrip (s : string) : string := urstrip (ulstrip s).

End PyUnicode.

(** ** The tool service ([weather_mcp_server.py]) *)

Module WeatherServer.
Import PyStr PyNum.

Record TextContent : Type := { type : string; text : string }.

(** The [arguments] dictionary of a tool call. *)
Definition dict (V : Type) : Type := list (string * V).

Fixpoint dict_get {V : Type} (d : dict V) (key : string) : option V :=
  match d with
  | [] => None
  | (k, v) :: r => if String.eqb k key then Some v else dict_get r key
  end.

(** [d[key]] *)
Definition dict_index {V : Type} (d : dict V) (key : string) : result V :=
  match dict_get d key with
  | Some v => Return v
  | None => Raise (KeyError key)
  end.

(** The outcome of [client.get] followed by [raise_for_status] and
    [response.json()]. *)
Inductive http_outcome (A : Type) : Type :=
| HttpOk (data : A)
| HTTPStatusError (status_code : Z) (body : string)
| OtherException (message : string).
Arguments HttpOk {A} data.
Arguments HTTPStatusError {A} status_code body.
Arguments OtherException {A} message.

(** The fields of the current-weather payload that the handler reads. *)
Record weather_payload : Type := {
  wd_name : string;
  wd_country : string;
  wd_temp : pynum;
  wd_feels_like : pynum;
  wd_description : string;
  wd_humidity : Z;
  wd_wind_speed : pynum;
  wd_pressure : Z;
  wd_visibility : option Z
}.

(** One entry of the forecast payload's [list], and the payload. *)
Record forecast_item : Type := {
  fi_dt_txt : option string;
  fi_temp : pynum;
  fi_description : string;
  fi_humidity : Z
}.

Record forecast_payload : Type := {
  fc_city_name : string;
  fc_city_country : string;
  fc_list : option (list forecast_item)
}.

Definition base_url : string := "https://api.openweathermap.org/data/2.5".

Definition unit_symbol (units : string) : string :=
  if String.eqb units "metric" then "°C"
  else if String.eqb units "imperial" then "°F"
  else "K".

Definition wind_unit (units : string) : string :=
  if String.eqb units "metric" || String.eqb units "kelvin" then "m/s"
  else "mph".

(** [None if units == "kelvin" else units] *)
Definition api_units (units : string) : option string :=
  if String.eqb units "kelvin" then None else Some units.

(** The query parameters sent upstream; a value [None] is Python's [None]. *)
Definition request_params (location : option string) (api_key units : string)
  : dict (option string) :=
  let params := [("q", location); ("appid", Some api_key)] in
  match api_units units with
  | Some u => if truthy u then (params ++ [("units", Some u)])%list else params
  | None => params
  end.

Definition str_opt (s : option string) : string :=
  match s with
  | Some v => v
  | None => "None"
  end.

Definition text_content (s : string) : list TextContent :=
  [{| type := "text"; text := s |}].

Definition missing_key_text : string :=
  "Error: OPENWEATHER_API_KEY environment variable not set".

Definition not_found_text (location : option string) : string :=
  "Error: Location '" ++ str_opt location ++
  "' not found. Please check the spelling and try again.".

(** The formatted response of [_get_current_weather]. *)
Definition formatted_response (data : weather_payload) (units : string) : string :=
  let location := wd_name data ++ ", " ++ wd_country data in
  let description := title (wd_description data) in
  let visibility :=
    match wd_visibility data with
    | Some v => str_int v
    | None => "N/A"
    end in
  "Current Weather for " ++ location ++ ":" ++ nl ++
  "🌡️ Temperature: " ++ str_num (wd_temp data) ++ unit_symbol units ++
    " (feels like " ++ str_num (wd_feels_like data) ++ unit_symbol units ++ ")" ++ nl ++
  "🌤️ Conditions: " ++ description ++ nl ++
  "💧 Humidity: " ++ str_int (wd_humidity data) ++ "%" ++ nl ++
  "💨 Wind Speed: " ++ str_num (wd_wind_speed data) ++ " " ++ wind_unit units ++ nl ++
  "🔽 Pressure: " ++ str_int (wd_pressure data) ++ " hPa" ++ nl ++
  "👁️ Visibility: " ++ visibility ++ " meters".

Definition dt_txt_of (item : forecast_item) : string :=
  match fi_dt_txt item with
  | Some s => s
  | None => EmptyString
  end.

(** [dt_txt.split(' ')[0] if ' ' in dt_txt else dt_txt] *)
Definition date_of (item : forecast_item) : result string :=
  let dt_txt := dt_txt_of item in
  if contains " " dt_txt then index (split " " dt_txt) 0 else Return dt_txt.

(** [by_date.setdefault(date, []).append(item)] on an insertion-ordered
    dictionary. *)
Fixpoint setdefault_append (date : string) (item : forecast_item)
         (by_date : dict (list forecast_item)) : dict (list forecast_item) :=
  match by_date with
  | [] => [(date, [item])]
  | (k, v) :: r =>
      if String.eqb k date then (k, (v ++ [item])%list) :: r
      else (k, v) :: setdefault_append date item r
  end.

Fixpoint group_by_date (items : list forecast_item)
         (by_date : dict (list forecast_item))
  : result (dict (list forecast_item)) :=
  match items with
  | [] => Return by_date
  | item :: rest =>
      (date <- date_of item ;;
       group_by_date rest (setdefault_append date item by_date))%py
  end.

(** [sorted(keys)]: ascending in the order of [str], which compares code
    points; on UTF-8 text that is the bytewise order [String.leb]. *)
Fixpoint insert_sorted (k : string) (l : list string) : list string :=
  match l with
  | [] => [k]
  | x :: r => if String.leb k x then k :: l else x :: insert_sorted k r
  end.

Fixpoint sorted (keys : list string) : list string :=
  match keys with
  | [] => []
  | k :: r => insert_sorted k (sorted r)
  end.

Definition is_noon (e : forecast_item) : bool :=
  endswith "12:00:00" (dt_txt_of e).

Definition pick_representative (entries : list forecast_item)
  : result forecast_item :=
  let noon := filter is_noon entries in
  match noon with
  | n :: _ => Return n
  | [] => index entries (List.length entries / 2)
  end.

Definition forecast_line (unit_symbol date : string) (forecast : forecast_item)
  : string :=
  let temp := fi_temp forecast in
  let desc := title (fi_description forecast) in
  let humidity := fi_humidity forecast in
  "📅 " ++ date ++ ": " ++ str_num temp ++ unit_symbol ++ ", " ++ desc ++
  ", Humidity: " ++ str_int humidity ++ "%" ++ nl.

(** The loop [for date in dates], threading [forecast_text]. *)
Fixpoint append_days (by_date : dict (list forecast_item)) (unit_symbol : string)
         (dates : list string) (forecast_text : string) : result string :=
  match dates with
  | [] => Return forecast_text
  | date :: rest =>
      (entries <- dict_index by_date date ;;
       forecast <- pick_representative entries ;;
       append_days by_date unit_symbol rest
                   (forecast_text ++ forecast_line unit_symbol date forecast))%py
  end.

Definition forecast_title (data : forecast_payload) : string :=
  "5-Day Weather Forecast for " ++ fc_city_name data ++ ", " ++
  fc_city_country data ++ ":" ++ nl ++ nl.

(** The body of the [try] block of [_get_weather_forecast] after the payload
    has been received. *)
Definition forecast_text (data : forecast_payload) (units : string)
  : result string :=
  let items := match fc_list data with Some l => l | None => [] end in
  (by_date <- group_by_date items [] ;;
   let dates := firstn 5 (sorted (map fst by_date)) in
   append_days by_date (unit_symbol units) dates (forecast_title data))%py.

(** [str(e)] of an exception caught by [except Exception]. *)
Definition str_exc (e : pyexc) : string :=
  match e with
  | ValueError msg => msg
  | IndexError msg => msg
  | KeyError key => "'" ++ key ++ "'"
  end.

Section Handlers.

(** [self.api_key] and the upstream provider. *)
Variable api_key : option string.
Variable get_weather_json :
  string -> dict (option string) -> http_outcome weather_payload.
Variable get_forecast_json :
  string -> dict (option string) -> http_outcome forecast_payload.

Definition arg_units (arguments : dict string) : string :=
  match dict_get arguments "units" with
  | Some u => u
  | None => "metric"
  end.

Definition _get_current_weather (arguments : dict string)
  : list TextContent :=
  let location := dict_get arguments "location" in
  let units := arg_units arguments in
  match api_key with
  | None => text_content missing_key_text
  | Some key =>
      if negb (truthy key) then text_content missing_key_text
      else
        match get_weather_json (base_url ++ "/weather")
                               (request_params location key units) with
        | HttpOk data => text_content (formatted_response data units)
        | HTTPStatusError code body =>
            if (code =? 404)%Z then text_content (not_found_text location)
            else text_content ("Error fetching weather data: " ++
                               str_int code ++ " - " ++ body)
        | OtherException message => text_content ("Error: " ++ message)
        end
  end.

Definition _get_weather_forecast (arguments : dict string)
  : list TextContent :=
  let location := dict_get arguments "location" in
  let units := arg_units arguments in
  match api_key with
  | None => text_content missing_key_text
  | Some key =>
      if negb (truthy key) then text_content missing_key_text
      else
        match get_forecast_json (base_url ++ "/forecast")
                                (request_params location key units) with
        | HttpOk data =>
            match forecast_text data units with
            | Return t => text_content t
            | Raise e => text_content ("Error: " ++ str_exc e)
            end
        | HTTPStatusError code body =>
            if (code =? 404)%Z then text_content (not_found_text location)
            else text_content ("Error fetching forecast data: " ++
                               str_int code ++ " - " ++ body)
        | OtherException message => text_content ("Error: " ++ message)
        end
  end.

Definition handle_call_tool (name : string) (arguments : dict string)
  : result (list TextContent) :=
  if String.eqb name "get_weather"
  then Return (_get_current_weather arguments)
  else if String.eqb name "get_forecast"
  then Return (_get_weather_forecast arguments)
  else Raise (ValueError ("Unknown tool: " ++ name)).

End Handlers.

End WeatherServer.

(** ** The analysis client ([llm_weather_client.py]) *)

Module LLMClient.
Import PyStr PyNum PyUnicode.

(** The values that [_rule_based_analysis] reads off the report. *)
Record fields : Type := {
  temp : option spec_float;
  feels : option spec_float;
  desc : string;
  hum : option Z;
  wind : option spec_float;
  vis : option Z
}.

(** [next((l for l in lines if key in l), default)] with the empty string
    as default. *)
Definition get (lines : list string) (key : string) : string :=
  match find (contains key) lines with
  | Some l => l
  | None => EmptyString
  end.

Definition parse_temp (tline : string) : option spec_float :=
  attempt
    (if truthy tline then
       (p1 <- index (split "Temperature:" tline) 1 ;;
        p2 <- index (split "(" p1) 0 ;;
        let tpart := strip p2 in
        p3 <- index (split "°" tpart) 0 ;;
        t <- float p3 ;;
        Return (Some t))%py
     else Return None).

Definition parse_feels (tline : string) : option spec_float :=
  attempt
    (if truthy tline && contains "(" tline then
       (p1 <- index_last (split "feels like" tline) ;;
        let fpart := strip (rstrip_chars ")" p1) in
        p2 <- index (split "°" fpart) 0 ;;
        f <- float p2 ;;
        Return (Some f))%py
     else Return None).

Definition parse_desc (cline : string) : result string :=
  (d <- index_last (split_max ":" 1 cline) ;;
   Return (lower (strip d)))%py.

Definition parse_hum (hline : string) : option Z :=
  attempt
    (if truthy hline then
       (p <- index (split ":" hline) 1 ;;
        h <- int (strip_chars "% " p) ;;
        Return (Some h))%py
     else Return None).

Definition parse_wind (wline : string) : option spec_float :=
  attempt
    (if truthy wline then
       (p1 <- index (split ":" wline) 1 ;;
        p2 <- index (split_ws p1) 0 ;;
        w <- float p2 ;;
        Return (Some w))%py
     else Return None).

Definition parse_vis (vline : string) : option Z :=
  attempt
    (if truthy vline then
       (v <- int (filter_chars isdigit vline) ;;
        Return (Some v))%py
     else Return None).

(** The parsing half of [_rule_based_analysis]. *)
Definition parse_report (weather_data : string) : result fields :=
  let lines := split nl weather_data in
  let tline := get lines "Temperature:" in
  let temp := parse_temp tline in
  let feels := parse_feels tline in
  (desc <- parse_desc (get lines "Conditions:") ;;
   let hum := parse_hum (get lines "Humidity:") in
   let wind := parse_wind (get lines "Wind Speed:") in
   let vis := parse_vis (get lines "Visibility:") in
   Return {| temp := temp; feels := feels; desc := desc;
             hum := hum; wind := wind; vis := vis |})%py.

Definition tip_very_cold : string := "🥶 Very cold. Wear a heavy coat, gloves, and a hat.".
Definition tip_chilly : string := "🧥 Chilly. A warm jacket and layers are recommended.".
Definition tip_hot : string := "🔥 Hot. Stay hydrated, wear light clothing, and limit midday sun.".
Definition tip_warm : string := "🌞 Warm and comfortable. T‑shirt or light layers are fine.".
Definition tip_mild : string := "🌤️ Mild. A light layer should be enough.".
Definition tip_feels_colder : string := "↘️ It feels colder than the actual temperature—add an extra layer.".
Definition tip_feels_warmer : string := "↗️ It feels warmer than the actual temperature—dress lightly.".
Definition tip_rain : string := "☔ Rain expected. Carry an umbrella or waterproof layer.".
Definition tip_snow : string := "❄️ Snowy conditions. Wear insulated boots with good traction.".
Definition tip_humid : string := "💧 Very humid—expect it to feel muggy. Stay hydrated.".
Definition tip_dry : string := "💨 Dry air—consider moisturizer and stay hydrated.".
Definition tip_breezy : string := "💨 Breezy to windy—secure hats/light items and consider a windbreaker.".
Definition tip_strong_wind : string := "🌬️ Strong winds—extra caution for outdoor activities.".
Definition tip_low_visibility : string := "👁️ Low visibility—take care if driving.".
Definition tip_summary (desc : string) : string :=
  "ℹ️ Conditions: " ++ capitalize desc ++ ".".

Definition clothing_tips (temp : option spec_float) : list string :=
  match temp with
  | Some t =>
      if fle t (of_Z 0) then [tip_very_cold]
      else if fle t (of_Z 10) then [tip_chilly]
      else if fge t (of_Z 30) then [tip_hot]
      else if fge t (of_Z 22) then [tip_warm]
      else [tip_mild]
  | None => []
  end.

Definition feels_tips (temp feels : option spec_float) : list string :=
  match temp, feels with
  | Some t, Some f =>
      let delta := fsub f t in
      if fle delta (of_Z (-3)) then [tip_feels_colder]
      else if fge delta (of_Z 3) then [tip_feels_warmer]
      else []
  | _, _ => []
  end.

Definition precipitation_tips (desc : string) : list string :=
  if existsb (fun k => contains k desc) ["rain"; "drizzle"; "thunder"; "shower"]
  then [tip_rain]
  else if contains "snow" desc then [tip_snow]
  else [].

Definition humidity_tips (hum : option Z) : list string :=
  match hum with
  | Some h =>
      if (80 <=? h)%Z then [tip_humid]
      else if (h <=? 30)%Z then [tip_dry]
      else []
  | None => []
  end.

Definition wind_tips (wind : option spec_float) : list string :=
  match wind with
  | Some w =>
      ((if fge w (of_Z 10) then [tip_breezy] else []) ++
       (if fge w (of_Z 17) then [tip_strong_wind] else []))%list
  | None => []
  end.

Definition visibility_tips (vis : option Z) : list string :=
  match vis with
  | Some v => if (v <? 3000)%Z then [tip_low_visibility] else []
  | None => []
  end.

Definition summary_tips (desc : string) : list string :=
  if truthy desc then [tip_summary desc] else [].

(** The list [tips] at the end of [_rule_based_analysis], before the
    duplicates are dropped. *)
Definition tips_of (f : fields) : list string :=
  (clothing_tips (temp f) ++
   feels_tips (temp f) (feels f) ++
   precipitation_tips (desc f) ++
   humidity_tips (hum f) ++
   wind_tips (wind f) ++
   visibility_tips (vis f) ++
   summary_tips (desc f))%list.

Definition _rule_based_analysis (weather_data user_query : string)
  : result string :=
  (f <- parse_report weather_data ;;
   Return (join nl (fromkeys (tips_of f))))%py.

Section Cascade.

(** [os.environ], and the three remote providers: each takes its
    credential or host, the model name, the report and the question, and
    yields [None] on any failure. *)
Variable environ : string -> option string.
Variable _analyze_with_openai : string -> string -> string -> string -> option string.
Variable _analyze_with_hf : string -> string -> string -> string -> option string.
Variable _analyze_with_ollama : string -> string -> string -> string -> option string.

(** [os.getenv(name, default)] *)
Definition getenv (name default : string) : string :=
  match environ name with
  | Some v => v
  | None => default
  end.

(** [if analysis: return analysis], else carry on with [next]. *)
Definition or_else (analysis : option string) (next : result string)
  : result string :=
  match analysis with
  | Some a => if truthy a then Return a else next
  | None => next
  end.

Definition analyze_weather_with_llm_async (weather_data user_query : string)
  : result string :=
  let openai_key := ustrip (getenv "OPENAI_API_KEY" EmptyString) in
  let openai_model := ustrip (getenv "OPENAI_MODEL" "gpt-4o-mini") in
  let hf_token := ustrip (getenv "HF_API_TOKEN" EmptyString) in
  let hf_model := ustrip (getenv "HF_MODEL" "HuggingFaceH4/zephyr-7b-beta") in
  let ollama_host := rstrip_chars "/" (getenv "OLLAMA_HOST" "http://localhost:11434") in
  let ollama_model := getenv "OLLAMA_MODEL" "llama3.1:8b" in
  let rules := _rule_based_analysis weather_data user_query in
  let tier3 :=
    if truthy ollama_host
    then or_else (_analyze_with_ollama ollama_host ollama_model weather_data user_query) rules
    else rules in
  let tier2 :=
    if truthy hf_token
    then or_else (_analyze_with_hf hf_token hf_model weather_data user_query) tier3
    else tier3 in
  if truthy openai_key
  then or_else (_analyze_with_openai openai_key openai_model weather_data user_query) tier2
  else tier2.

End Cascade.

End LLMClient.

Import PyStr PyNum PyUnicode WeatherServer LLMClient.

(** * Inputs and notions used in the statements *)

(** ** Sample inputs *)

(** The payload of the example: 5 degrees, feels like 2, light rain, 85 %
    humidity, wind 12, visibility 2500 m. *)
Definition sample_weather : weather_payload :=
  {| wd_name := "London"; wd_country := "GB";
     wd_temp := PyInt 5; wd_feels_like := PyInt 2;
     wd_description := "light rain"; wd_humidity := 85;
     wd_wind_speed := PyInt 12; wd_pressure := 1013;
     wd_visibility := Some 2500%Z |}.

Definition sample_report : string :=
  "Current Weather for London, GB:" ++ nl ++
  "🌡️ Temperature: 5°C (feels like 2°C)" ++ nl ++
  "🌤️ Conditions: Light Rain" ++ nl ++
  "💧 Humidity: 85%" ++ nl ++
  "💨 Wind Speed: 12 m/s" ++ nl ++
  "🔽 Pressure: 1013 hPa" ++ nl ++
  "👁️ Visibility: 2500 meters".

(** A reading in kelvin as the provider sends it: 278.15 K, feels like
    275.02 K, wind 3.6 m/s. *)
Definition kelvin_weather : weather_payload :=
  {| wd_name := "Oslo"; wd_country := "NO";
     wd_temp := PyFloat (float_of_decimal false 27815 (-2));
     wd_feels_like := PyFloat (float_of_decimal false 27502 (-2));
     wd_description := "overcast clouds"; wd_humidity := 60;
     wd_wind_speed := PyFloat (float_of_decimal false 36 (-1));
     wd_pressure := 1008;
     wd_visibility := Some 10000%Z |}.

(** What a faithful reading of a report recovers from its payload. *)
Definition recovers (data : weather_payload) (f : fields) : Prop :=
  temp f = Some (to_float (wd_temp data)) /\
  feels f = Some (to_float (wd_feels_like data)) /\
  hum f = Some (wd_humidity data) /\
  wind f = Some (to_float (wd_wind_speed data)) /\
  vis f = wd_visibility data.

(** An upstream that cannot be reached. *)
Definition unreachable {A : Type} (url : string) (params : dict (option string))
  : http_outcome A :=
  OtherException "connection refused".

(** An environment with no provider configured and the local host disabled. *)
Definition bare_environ (name : string) : option string :=
  if String.eqb name "OLLAMA_HOST" then Some EmptyString else None.

(** A provider that would always answer. *)
Definition chatty (credential model weather_data user_query : string)
  : option string :=
  Some "Take a coat.".

Definition noon_item : forecast_item :=
  {| fi_dt_txt := Some "2024-05-02 12:00:00"; fi_temp := PyInt 14;
     fi_description := "few clouds"; fi_humidity := 55 |}.

Definition evening_item : forecast_item :=
  {| fi_dt_txt := Some "2024-05-02 21:00:00"; fi_temp := PyInt 9;
     fi_description := "clear sky"; fi_humidity := 70 |}.

Definition morning_item : forecast_item :=
  {| fi_dt_txt := Some "2024-05-02 06:00:00"; fi_temp := PyInt 7;
     fi_description := "mist"; fi_humidity := 90 |}.

Definition night_item : forecast_item :=
  {| fi_dt_txt := Some "2024-05-02 03:00:00"; fi_temp := PyInt 6;
     fi_description := "mist"; fi_humidity := 92 |}.

(** The tips that depend on a field, by field. *)
Definition temperature_tip_texts : list string :=
  [tip_very_cold; tip_chilly; tip_hot; tip_warm; tip_mild;
   tip_feels_colder; tip_feels_warmer].

Definition feels_tip_texts : list string := [tip_feels_colder; tip_feels_warmer].

Definition humidity_tip_texts : list string := [tip_humid; tip_dry].

Definition wind_tip_texts : list string := [tip_breezy; tip_strong_wind].

Definition visibility_tip_texts : list string := [tip_low_visibility].

Definition fixed_tip_texts : list string :=
  [tip_very_cold; tip_chilly; tip_hot; tip_warm; tip_mild;
   tip_feels_colder; tip_feels_warmer; tip_rain; tip_snow;
   tip_humid; tip_dry; tip_breezy; tip_strong_wind; tip_low_visibility].

(** ** Forecast reduction: what the statements refer to *)

(** The date component of a timestamp: the text before its first blank. *)
Fixpoint before_blank (s : string) : string :=
  match s with
  | EmptyString => EmptyString
  | String c r => if Ascii.eqb c " " then EmptyString else String c (before_blank r)
  end.

Definition date_str (item : forecast_item) : string :=
  before_blank (dt_txt_of item).

Definition has_date (date : string) (item : forecast_item) : bool :=
  String.eqb (date_str item) date.

(** The entries of one date, in payload order. *)
Definition entries_of (date : string) (items : list forecast_item)
  : list forecast_item :=
  filter (has_date date) items.

Definition distinct_dates (items : list forecast_item) : list string :=
  nodup string_dec (map date_str items).

Definition str_lt (a b : string) : Prop := String.ltb a b = true.
Definition str_le (a b : string) : Prop := String.leb a b = true.

(** The text of the day lines for a list of dates with their
    representatives. *)
Fixpoint day_lines (unit_symbol : string) (days : list (string * forecast_item))
  : string :=
  match days with
  | [] => EmptyString
  | (date, forecast) :: rest =>
      forecast_line unit_symbol date forecast ++ day_lines unit_symbol rest
  end.

(** [r] stands for [date] in [items]: it is what [pick_representative]
    returns on that date's entries, and a noon entry whenever the date has
    one. *)
Definition represents (items : list forecast_item) (date : string)
           (r : forecast_item) : Prop :=
  In r items /\ date_str r = date /\
  pick_representative (entries_of date items) = Return r /\
  (forall e, In e items -> date_str e = date -> is_noon e = true ->
             is_noon r = true /\ find is_noon (entries_of date items) = Some r).

Definition item_at (dt_txt : string) (t : Z) : forecast_item :=
  {| fi_dt_txt := Some dt_txt; fi_temp := PyInt t;
     fi_description := "scattered clouds"; fi_humidity := 60 |}.

(** Entries for seven dates, received out of order; four of the first five
    dates have a noon entry. *)
Definition week_items : list forecast_item :=
  [ item_at "2024-05-03 09:00:00" 11; item_at "2024-05-03 12:00:00" 15;
    item_at "2024-05-01 21:00:00" 8;
    item_at "2024-05-02 06:00:00" 7; item_at "2024-05-02 12:00:00" 14;
    item_at "2024-05-02 18:00:00" 12;
    item_at "2024-05-07 12:00:00" 20;
    item_at "2024-05-05 00:00:00" 9; item_at "2024-05-05 12:00:00" 16;
    item_at "2024-05-04 12:00:00" 17; item_at "2024-05-04 15:00:00" 18;
    item_at "2024-05-06 12:00:00" 19 ].

Definition week_forecast : forecast_payload :=
  {| fc_city_name := "London"; fc_city_country := "GB";
     fc_list := Some week_items |}.

(** ** Reports that are not canonical *)

(** A report whose temperature does not parse and that has no wind or
    visibility line. *)
Definition partial_report : string :=
  "Temperature: n/a" ++ nl ++ "Conditions: Snow" ++ nl ++ "Humidity: 20%".

(** Text with the labels but no usable value. *)
Definition garbled_report : string :=
  "Temperature: (" ++ nl ++ "Humidity: lots" ++ nl ++ "Wind Speed:" ++ nl ++
  "Visibility: N/A meters".

(** Every tip other than the summary starts with one of the bytes of this
    classification; the summary starts with the information sign. *)
Definition is_summary (t : string) : bool := prefix "ℹ️ Conditions: " t.

Definition clothing_tip_texts : list string :=
  [tip_very_cold; tip_chilly; tip_hot; tip_warm; tip_mild].
Definition precipitation_tip_texts : list string := [tip_rain; tip_snow].

(** The rule a fixed tip text belongs to: 1 clothing, 2 feels-like,
    3 precipitation, 4 humidity, 5 wind, 6 visibility; 0 for other text. *)
Definition tip_rule (t : string) : nat :=
  if existsb (String.eqb t) clothing_tip_texts then 1
  else if existsb (String.eqb t) feels_tip_texts then 2
  else if existsb (String.eqb t) precipitation_tip_texts then 3
  else if existsb (String.eqb t) humidity_tip_texts then 4
  else if existsb (String.eqb t) wind_tip_texts then 5
  else if existsb (String.eqb t) visibility_tip_texts then 6
  else 0.

(** [l] when it is non-empty: the value a date has in [by_date]. *)
Definition nonempty {A : Type} (l : list A) : option (list A) :=
  match l with
  | [] => None
  | _ :: _ => Some l
  end.

(** [by_date] after the entries [seen] have been grouped: distinct keys,
    and under each date exactly the entries of that date, in order. *)
Definition grouped (seen : list forecast_item)
           (by_date : dict (list forecast_item)) : Prop :=
  NoDup (map fst by_date) /\
  forall k, dict_get by_date k = nonempty (entries_of k seen).

(** ** Text classes used in the statements *)

Fixpoint all_chars (p : ascii -> bool) (s : string) : bool :=
  match s with
  | EmptyString => true
  | String c r => p c && all_chars p r
  end.

(** [s] begins, respectively ends, with a character outside [p]. *)
Definition starts_outside (p : ascii -> bool) (s : string) : bool :=
  match s with
  | EmptyString => false
  | String c _ => negb (p c)
  end.
Definition ends_outside (p : ascii -> bool) (s : string) : bool :=
  starts_outside p (rev s).

Definition newline : ascii := ascii_of_nat 10.

(** The characters of a finite number as [str] prints it. *)
Definition numeral_char (c : ascii) : bool := mem_char c "0123456789.+-e".
Definition numeral_text (s : string) : bool :=
  truthy s && all_chars numeral_char s.

(** The number prints as a finite numeral that [float] reads back as the
    same value. *)
Definition reads_back (n : pynum) : Prop :=
  numeral_text (str_num n) = true /\
  float (str_num n) = Return (to_float n).

(** The line has no line break and contains none of [keys]. *)
Definition free_of (keys : list string) (l : string) : bool :=
  negb (mem_char newline l) && forallb (fun k => negb (contains k l)) keys.

Definition all_labels : list string :=
  ["Temperature:"; "Conditions:"; "Humidity:"; "Wind Speed:"; "Visibility:"].
Definition later_labels : list string :=
  ["Humidity:"; "Wind Speed:"; "Visibility:"].

(** The seven lines of the current-weather report. *)
Definition title_line (data : weather_payload) : string :=
  "Current Weather for " ++ wd_name data ++ ", " ++ wd_country data ++ ":".
Definition temperature_line (data : weather_payload) (units : string) : string :=
  "🌡️ Temperature: " ++ str_num (wd_temp data) ++ unit_symbol units ++
  " (feels like " ++ str_num (wd_feels_like data) ++ unit_symbol units ++ ")".
Definition conditions_line (data : weather_payload) : string :=
  "🌤️ Conditions: " ++ title (wd_description data).
Definition humidity_line (data : weather_payload) : string :=
  "💧 Humidity: " ++ str_int (wd_humidity data) ++ "%".
Definition wind_line (data : weather_payload) (units : string) : string :=
  "💨 Wind Speed: " ++ str_num (wd_wind_speed data) ++ " " ++ wind_unit units.
Definition pressure_line (data : weather_payload) : string :=
  "🔽 Pressure: " ++ str_int (wd_pressure data) ++ " hPa".
Definition visibility_text (data : weather_payload) : string :=
  match wd_visibility data with
  | Some v => str_int v
  | None => "N/A"
  end.
Definition visibility_line (data : weather_payload) : string :=
  "👁️ Visibility: " ++ visibility_text data ++ " meters".

Definition report_lines (data : weather_payload) (units : string) : list string :=
  [title_line data; temperature_line data units; conditions_line data;
   humidity_line data; wind_line data units; pressure_line data;
   visibility_line data].

(** The payload's free text does not collide with the report's layout: the
    title line holds no label and no line break, the conditions line none
    of the labels looked up after it. *)
Definition plain_texts (data : weather_payload) : Prop :=
  free_of all_labels (title_line data) = true /\
  free_of later_labels (conditions_line data) = true.

(** The integers print within the length [int] accepts, and a visibility in
    the payload is not negative. *)
Definition plain_integers (data : weather_payload) : Prop :=
  (String.length (str_int (wd_humidity data)) <= int_max_str_digits)%nat /\
  match wd_visibility data with
  | Some v => (0 <= v)%Z /\
              (String.length (str_int v) <= int_max_str_digits)%nat
  | None => True
  end.

(** The text of the report labels before the separator the parser splits
    on. *)
Definition temperature_mark : string := "🌡️ ".
Definition conditions_label : string := "🌤️ Conditions".
Definition humidity_label : string := "💧 Humidity".
Definition wind_label : string := "💨 Wind Speed".

(** ** The order of the tips *)

Fixpoint position_in (l : list string) (t : string) : nat :=
  match l with
  | [] => 0
  | x :: r => if String.eqb t x then 0 else S (position_in r t)
  end.

(** The place of a tip in the fixed order of the rules: the fourteen fixed
    texts in the order of the source, then the summary. *)
Definition tip_position (t : string) : nat :=
  if is_summary t then 14 else position_in fixed_tip_texts t.

Definition before_tip (a b : string) : Prop := (tip_position a < tip_position b)%nat.

(** All tips of [l] have their place in [lo, hi). *)
Definition placed (lo hi : nat) (l : list string) : Prop :=
  Forall (fun t => (lo <= tip_position t < hi)%nat) l.

(** * The rest of the client: the synchronous entry point *)

Module ClientSession.
Import PyStr PyNum LLMClient.

Section Wrapper.

Variable environ : string -> option string.
Variable _analyze_with_openai : string -> string -> string -> string -> option string.
Variable _analyze_with_hf : string -> string -> string -> string -> option string.
Variable _analyze_with_ollama : string -> string -> string -> string -> option string.

(** [analyze_weather_with_llm]: [loop_running] says whether
    [asyncio.get_running_loop()] finds a running loop; [asyncio.run] hands
    back what the coroutine returns or raises. *)
Definition analyze_weather_with_llm (loop_running : bool)
           (weather_data user_query : string) : result string :=
  if loop_running then _rule_based_analysis weather_data user_query
  else
    match analyze_weather_with_llm_async environ _analyze_with_openai
            _analyze_with_hf _analyze_with_ollama weather_data user_query with
    | Return a => Return a
    | Raise _ => _rule_based_analysis weather_data user_query
    end.

End Wrapper.

End ClientSession.

Import ClientSession.

(** ** The cascade as an ordered list of tiers *)

(** A tier of the cascade: whether its credential or host is set, and what
    the provider answers when asked. *)
Record tier : Type := { configured : bool; answer : option string }.

(** The first non-empty answer of a configured tier. *)
Fixpoint first_answer (tiers : list tier) : option string :=
  match tiers with
  | [] => None
  | t :: rest =>
      if configured t then
        match answer t with
        | Some a => if truthy a then Some a else first_answer rest
        | None => first_answer rest
        end
      else first_answer rest
  end.

Section Tiers.

Variable environ : string -> option string.
Variables openai hf ollama : string -> string -> string -> string -> option string.
Variables weather_data user_query : string.

Definition openai_tier : tier :=
  let key := ustrip (getenv environ "OPENAI_API_KEY" EmptyString) in
  {| configured := truthy key;
     answer := openai key (ustrip (getenv environ "OPENAI_MODEL" "gpt-4o-mini"))
                      weather_data user_query |}.

Definition hf_tier : tier :=
  let token := ustrip (getenv environ "HF_API_TOKEN" EmptyString) in
  {| configured := truthy token;
     answer := hf token
                  (ustrip (getenv environ "HF_MODEL" "HuggingFaceH4/zephyr-7b-beta"))
                  weather_data user_query |}.

Definition ollama_tier : tier :=
  let host := rstrip_chars "/" (getenv environ "OLLAMA_HOST" "http://localhost:11434") in
  {| configured := truthy host;
     answer := ollama host (getenv environ "OLLAMA_MODEL" "llama3.1:8b")
                      weather_data user_query |}.

Definition tiers : list tier := [openai_tier; hf_tier; ollama_tier].

End Tiers.

(** * The remote providers *)

(** ** Parsed JSON *)

Module Json.
Import PyNum.

(** What [resp.json()] returns. An object keeps its members in the order of
    the document. *)
#[warnings="-register-all"]
Inductive json : Type :=
| JNull
| JBool (b : bool)
| JNumber (n : pynum)
| JString (s : string)
| JArray (items : list json)
| JObject (members : list (string * json)).

(** The value a parsed object holds for [key]: of several members with the
    same name the last one wins. *)
Fixpoint member (key : string) (members : list (string * json)) : option json :=
  match members with
  | [] => None
  | (k, v) :: rest =>
      match member key rest with
      | Some w => Some w
      | None => if String.eqb k key then Some v else None
      end
  end.

End Json.

(** ** The three providers *)

Module Providers.
Import PyStr PyNum PyUnicode Json.

(** The response of the HTTP library: the status code, whether
    [raise_for_status()] raises for it, and the parsed body when the body is
    JSON. *)
Record response : Type := {
  status_code : Z;
  raises_for_status : bool;
  json_body : option json
}.

(** Every provider runs inside [try: ... except Exception: return None], so
    a step that raises ends the provider with [None]: the steps below yield
    [None] where the code raises. *)
Notation "x <-? c ;; k" :=
  (match c with Some x => k | None => None end)
  (at level 61, c at next level, right associativity).

(** [v.get(key, default)]: only an object has [get]. *)
Definition get_or (v : json) (key : string) (default : json) : option json :=
  match v with
  | JObject members =>
      Some (match member key members with
            | Some x => x
            | None => default
            end)
  | _ => None
  end.

(** The truth value of a parsed value. *)
Definition is_true (v : json) : bool :=
  match v with
  | JNull => false
  | JBool b => b
  | JNumber (PyInt z) => negb (z =? 0)%Z
  | JNumber (PyFloat (S754_zero _)) => false
  | JNumber (PyFloat _) => true
  | JString s => truthy s
  | JArray items => match items with [] => false | _ :: _ => true end
  | JObject members => match members with [] => false | _ :: _ => true end
  end.

(** [v[0]]: the first item of an array, the first character of a text; an
    object has no key [0] and the other values cannot be indexed. *)
Definition item0 (v : json) : option json :=
  match v with
  | JArray (x :: _) => Some x
  | JString (String c _) => Some (JString (String c EmptyString))
  | _ => None
  end.

(** [if isinstance(msg, str) and msg.strip(): return msg.strip()] and
    [return None] otherwise. *)
Definition text_answer (msg : json) : option string :=
  match msg with
  | JString s => if truthy (ustrip s) then Some (ustrip s) else None
  | _ => None
  end.

Definition ollama_system_prompt : string :=
  "You are a helpful weather expert assistant. Based on the provided weather report, answer the user's question with concise, actionable advice. If clothing is relevant, give practical recommendations. Keep it to 2-4 short sentences.".
Definition openai_system_prompt : string :=
  "You are a helpful weather expert assistant. Based on the provided weather report, answer the user's question with concise, actionable advice. If clothing is relevant, give practical recommendations. Keep it to 2-4 short sentences. Vary your wording naturally.".
Definition hf_instruction : string :=
  "You are a helpful weather expert assistant. Based on the provided weather report, answer the user's question with concise, actionable advice in 2-4 short sentences. Vary your wording naturally, and include clothing or safety tips when relevant.".

Definition user_message (weather_data user_query : string) : string :=
  "Weather report:" ++ nl ++ weather_data ++ nl ++ nl ++
  "User question: " ++ user_query.

Definition chat_messages (system_prompt weather_data user_query : string) : json :=
  JArray [JObject [("role", JString "system"); ("content", JString system_prompt)];
          JObject [("role", JString "user");
                   ("content", JString (user_message weather_data user_query))]].

Definition ollama_payload (model weather_data user_query : string) : json :=
  JObject [("model", JString model);
           ("messages", chat_messages ollama_system_prompt weather_data user_query);
           ("stream", JBool false)].

Definition hf_prompt (weather_data user_query : string) : string :=
  hf_instruction ++ nl ++ nl ++ user_message weather_data user_query ++
  nl ++ nl ++ "Answer:".

Definition hf_payload (weather_data user_query : string) : json :=
  JObject [("inputs", JString (hf_prompt weather_data user_query));
           ("parameters",
            JObject [("max_new_tokens", JNumber (PyInt 180));
                     ("temperature", JNumber (PyFloat (float_of_decimal false 7 (-1))));
                     ("return_full_text", JBool false)]);
           ("options", JObject [("wait_for_model", JBool true)])].

Definition hf_url (model : string) : string :=
  "https://api-inference.huggingface.co/models/" ++ model.

Definition openai_payload (model weather_data user_query : string) : json :=
  JObject [("model", JString model);
           ("messages", chat_messages openai_system_prompt weather_data user_query);
           ("temperature", JNumber (PyFloat (float_of_decimal false 7 (-1))))].

Definition openai_url : string := "https://api.openai.com/v1/chat/completions".

Definition auth_headers (credential : string) : list (string * string) :=
  [("Authorization", "Bearer " ++ credential);
   ("Content-Type", "application/json")].

Section Http.

(** [client.get(url)] and [client.post(url, json=payload, headers=headers)]:
    [None] when the request raises. *)
Variable http_get : string -> option response.
Variable http_post : string -> json -> list (string * string) -> option response.

Definition _analyze_with_ollama (host model weather_data user_query : string)
  : option string :=
  _ <-? http_get (host ++ "/api/tags") ;;
  resp <-? http_post (host ++ "/api/chat")
                     (ollama_payload model weather_data user_query) [] ;;
  if raises_for_status resp then None
  else
    data <-? json_body resp ;;
    message <-? get_or data "message" (JObject []) ;;
    msg <-? get_or message "content" JNull ;;
    text_answer msg.

Definition _analyze_with_hf (api_token model weather_data user_query : string)
  : option string :=
  resp <-? http_post (hf_url model) (hf_payload weather_data user_query)
                     (auth_headers api_token) ;;
  if (400 <=? status_code resp)%Z then None
  else
    data <-? json_body resp ;;
    match data with
    | JArray (_ :: _) =>
        first <-? item0 data ;;
        gen <-? get_or first "generated_text" JNull ;;
        text_answer gen
    | _ => None
    end.

Definition _analyze_with_openai (api_key model weather_data user_query : string)
  : option string :=
  resp <-? http_post openai_url (openai_payload model weather_data user_query)
                     (auth_headers api_key) ;;
  if (400 <=? status_code resp)%Z then None
  else
    data <-? json_body resp ;;
    choices <-? get_or data "choices" (JArray []) ;;
    if negb (is_true choices) then None
    else
      first <-? item0 choices ;;
      message <-? get_or first "message" (JObject []) ;;
      msg <-? get_or message "content" JNull ;;
      text_answer msg.

End Http.

End Providers.

Import PyUnicode Json Providers.

(** ** Responses used in the statements *)

Definition ok_response (body : json) : response :=
  {| status_code := 200; raises_for_status := false; json_body := Some body |}.

Definition openai_reply : json :=
  JObject [("id", JString "chatcmpl-1");
           ("choices",
            JArray [JObject [("index", JNumber (PyInt 0));
                             ("message",
                              JObject [("role", JString "assistant");
                                       ("content", JString " Take a coat. ")])]])].

(** The answer is not empty and has no blank at either end. *)
Definition clean (s : string) : Prop := truthy s = true /\ strip s = s.

(** * The client's menu and its helpers *)

Module ClientMenu.
Import PyStr PyNum LLMClient.

(** [w in words] for a list of texts. *)
Definition in_words (w : string) (words : list string) : bool :=
  existsb (String.eqb w) words.

(** [s.isdigit()] *)
Definition str_isdigit (s : string) : bool := truthy s && all_chars isdigit s.

Definition prepositions : list string := ["in"; "for"; "at"].
Definition stop_words : list string := ["weather"; "forecast"; "temperature"].

(** The inner loop of [_extract_location]: the words up to the first stop
    word. *)
Fixpoint location_parts (words : list string) : list string :=
  match words with
  | [] => []
  | w :: rest =>
      if in_words (lower w) stop_words then [] else w :: location_parts rest
  end.

(** The outer loop, on the words from position [i] on. *)
Fixpoint scan_words (words : list string) : option string :=
  match words with
  | [] => None
  | word :: rest =>
      if in_words (lower word) prepositions &&
         match rest with [] => false | _ :: _ => true end
      then
        match location_parts rest with
        | [] => scan_words rest
        | parts => Some (rstrip_chars "?.,!" (join " " parts))
        end
      else scan_words rest
  end.

Definition _extract_location (text : string) : option string :=
  scan_words (split_ws text).

Definition _get_favorite_locations (environ : string -> option string)
  : list string :=
  let raw := strip (getenv environ "FAVORITE_LOCATIONS" EmptyString) in
  if truthy raw
  then map strip (filter (fun item => truthy (strip item)) (split "," raw))
  else [].

Definition default_favorites : list string :=
  ["London, UK"; "New York, US"; "Tokyo, JP"; "Sydney, AU"].

(** The favourites as [chat_about_weather] sets them up. *)
Definition chat_favorites (environ : string -> option string) : list string :=
  match _get_favorite_locations environ with
  | [] => default_favorites
  | favorites => favorites
  end.

(** How a run of the menu ends: with a location, with [None] after a word
    of farewell, with an exception of [int] or of the list of favourites, or
    with the [EOFError] that [input] raises when no line is left. *)
Inductive menu_outcome : Type :=
| Chosen (location : string)
| Farewell
| MenuError (e : pyexc)
| RaisedEOFError.

(** [_choose_location_from_menu], given the lines that [input] will
    return. What the menu prints is left out. *)
Fixpoint _choose_location_from_menu (favorites : list string)
         (inputs : list string) : menu_outcome :=
  match inputs with
  | [] => RaisedEOFError
  | line :: rest =>
      let choice := strip line in
      if in_words (lower choice) ["quit"; "exit"; "bye"] then Farewell
      else if str_isdigit choice then
        match int choice with
        | Raise e => MenuError e
        | Return num =>
            if (num =? 0)%Z then
              match rest with
              | [] => RaisedEOFError
              | line2 :: rest2 =>
                  let custom := strip line2 in
                  if truthy custom then Chosen custom
                  else _choose_location_from_menu favorites rest2
              end
            else if (1 <=? num)%Z && (num <=? Z.of_nat (List.length favorites))%Z
            then match index favorites (Z.to_nat (num - 1)) with
                 | Return location => Chosen location
                 | Raise e => MenuError e
                 end
            else _choose_location_from_menu favorites rest
        end
      else if truthy choice then Chosen choice
      else _choose_location_from_menu favorites rest
  end.

End ClientMenu.

Import ClientMenu.

(** ** Notions for the menu *)

Definition comma : ascii := ","%char.

Definition closing_mark (c : ascii) : bool := mem_char c "?.,!".

(** An environment that lists favourites, with blanks and an empty item. *)
Definition favorites_environ (name : string) : option string :=
  if String.eqb name "FAVORITE_LOCATIONS" then Some " Oslo , Lima,, " else None.

(** A number of 4301 digits, and what [int] says to it. *)
Definition huge_number : string := String "1" (zeros 4300).
Definition huge_number_error : pyexc := digits_error 4301.

(** * The client's tool calls *)

Module ClientTools.
Import PyStr WeatherServer.

(** What [session.call_tool] gives back: the content of the result, or an
    exception with its text. *)
Inductive call_outcome : Type :=
| Delivered (content : list TextContent)
| CallError (message : string).

(** What [get_weather] and [get_forecast] give back: a text, or the
    [RuntimeError] of a client that is not connected. *)
Inductive reply : Type :=
| Text (s : string)
| NotConnected.

Definition tool_arguments (location units : string) : dict string :=
  [("location", location); ("units", units)].

Section Session.

Variable session : option (string -> dict string -> call_outcome).

Definition get_weather (location units : string) : reply :=
  match session with
  | None => NotConnected
  | Some call_tool =>
      match call_tool "get_weather" (tool_arguments location units) with
      | Delivered (first :: _) => Text (text first)
      | Delivered [] => Text "No weather data received"
      | CallError e => Text ("Error getting weather: " ++ e)
      end
  end.

Definition get_forecast (location units : string) : reply :=
  match session with
  | None => NotConnected
  | Some call_tool =>
      match call_tool "get_forecast" (tool_arguments location units) with
      | Delivered (first :: _) => Text (text first)
      | Delivered [] => Text "No forecast data received"
      | CallError e => Text ("Error getting forecast: " ++ e)
      end
  end.

End Session.

End ClientTools.

Import ClientTools.

(** The session hands over what the server's handlers return. *)
Definition delivers (call_tool : string -> dict string -> call_outcome)
           (api_key : option string)
           (gw : string -> dict (option string) -> http_outcome weather_payload)
           (gf : string -> dict (option string) -> http_outcome forecast_payload)
  : Prop :=
  forall name arguments content,
    handle_call_tool api_key gw gf name arguments = Return content ->
    call_tool name arguments = Delivered content.

(** A session that calls the handlers directly. *)
Definition in_process (api_key : option string)
           (gw : string -> dict (option string) -> http_outcome weather_payload)
           (gf : string -> dict (option string) -> http_outcome forecast_payload)
           (name : string) (arguments : dict string) : call_outcome :=
  match handle_call_tool api_key gw gf name arguments with
  | Return content => Delivered content
  | Raise e => CallError (str_exc e)
  end.

(** An upstream that knows one place. *)
Definition one_place {A : Type} (data : A) (url : string)
           (params : dict (option string)) : http_outcome A :=
  HttpOk data.

(** The entries of a forecast payload, none when the list is missing. *)
Definition items_of (data : forecast_payload) : list forecast_item :=
  match fc_list data with
  | Some l => l
  | None => []
  end.

(** * The server's catalogue *)

Module ServerCatalog.
Import PyStr PyNum Json WeatherServer.

Record Resource : Type := {
  uri : string;
  resource_name : string;
  resource_description : string;
  mimeType : string
}.

Record Tool : Type := {
  tool_name : string;
  tool_description : string;
  inputSchema : json
}.

Definition current_uri : string := "weather://current".

Definition handle_list_resources : list Resource :=
  [{| uri := current_uri;
      resource_name := "Current Weather";
      resource_description := "Get current weather for any location";
      mimeType := "application/json" |}].

Definition double_quote : string := String (ascii_of_nat 34) EmptyString.

Definition quoted (s : string) : string := double_quote ++ s ++ double_quote.

(** [json.dumps] of a dictionary of texts, for texts that need no escaping:
    ASCII, without double quote, backslash or control character. *)
Definition json_dumps (members : list (string * string)) : string :=
  "{" ++ join ", " (map (fun m => quoted (fst m) ++ ": " ++ quoted (snd m)) members)
  ++ "}".

(** What [handle_read_resource] can be given as [uri]: a text, when it is
    called directly, or the URL object (a pydantic [AnyUrl]) that the MCP
    library builds from the request and passes to the handler;
    [url_text] is the [str()] of that object. *)
Inductive uri_value : Type :=
| UriText (s : string)
| UriObject (url_text : string).

(** [uri == "weather://current"]: a URL object is not equal to a text. *)
Definition uri_equals (uri : uri_value) (s : string) : bool :=
  match uri with
  | UriText t => String.eqb t s
  | UriObject _ => false
  end.

(** [f"{uri}"] *)
Definition uri_str (uri : uri_value) : string :=
  match uri with
  | UriText t => t
  | UriObject t => t
  end.

Definition handle_read_resource (uri : uri_value) : result string :=
  if uri_equals uri current_uri
  then Return (json_dumps
                 [("description", "Current weather resource");
                  ("usage", "Use the get_weather tool to fetch current weather data");
                  ("example", "get_weather(location='New York')")])
  else Raise (ValueError ("Unknown resource: " ++ uri_str uri)).

Definition location_schema : json :=
  JObject [("type", JString "string");
           ("description", JString "City name, state/country (e.g., 'New York, NY' or 'London, UK')")].

Definition units_schema (description : string) : json :=
  JObject [("type", JString "string");
           ("enum", JArray [JString "metric"; JString "imperial"; JString "kelvin"]);
           ("default", JString "metric");
           ("description", JString description)].

Definition input_schema (units_description : string) : json :=
  JObject [("type", JString "object");
           ("properties",
            JObject [("location", location_schema);
                     ("units", units_schema units_description)]);
           ("required", JArray [JString "location"])].

Definition handle_list_tools : list Tool :=
  [{| tool_name := "get_weather";
      tool_description := "Get current weather information for a specific location";
      inputSchema := input_schema "Temperature units (metric=Celsius, imperial=Fahrenheit, kelvin=Kelvin)" |};
   {| tool_name := "get_forecast";
      tool_description := "Get 5-day weather forecast for a specific location";
      inputSchema := input_schema "Temperature units" |}].

End ServerCatalog.

Import ServerCatalog.

(** What a schema says under [properties.<property>.<key>]. *)
Definition schema_entry (schema : json) (property key : string) : option json :=
  match schema with
  | JObject members =>
      match member "properties" members with
      | Some (JObject properties) =>
          match member property properties with
          | Some (JObject entry) => member key entry
          | _ => None
          end
      | _ => None
      end
  | _ => None
  end.

(** * The launcher *)

Module Launcher.
Import PyStr LLMClient ClientSession ClientTools WeatherServer.

(** What a round of the launcher ends with: a printed text, or the message
    of an exception that ends the program. *)
Inductive shown : Type :=
| Printed (s : string)
| Stopped (message : string).

Section Run.

Variable environ : string -> option string.
Variable _analyze_with_openai : string -> string -> string -> string -> option string.
Variable _analyze_with_hf : string -> string -> string -> string -> option string.
Variable _analyze_with_ollama : string -> string -> string -> string -> option string.
Variable session : option (string -> dict string -> call_outcome).

(** The branch of [main] that shows the current weather. [main] is a
    coroutine, so the synchronous analysis finds a running event loop. *)
Definition show_weather (location units : string) : shown :=
  match get_weather session location units with
  | NotConnected => Stopped "Not connected to MCP server"
  | Text weather_text =>
      match analyze_weather_with_llm environ _analyze_with_openai
              _analyze_with_hf _analyze_with_ollama true
              weather_text ("Weather for " ++ location) with
      | Return analysis =>
          Printed (weather_text ++ nl ++ nl ++ "🤖 Analysis: " ++ analysis)
      | Raise e => Stopped (str_exc e)
      end
  end.

End Run.

End Launcher.

Import Launcher.

(** * The handlers as the MCP server hosts them *)

Module McpHost.
Import PyStr WeatherServer.

(** [CallToolResult]: the content of the answer and the flag that marks it
    as an error. *)
Record CallToolResult : Type := {
  content : list TextContent;
  isError : bool
}.

(** What the decorator [@self.server.call_tool()] answers to a call-tool
    request. The decorator belongs to the MCP library
    ([mcp.server.lowlevel.Server.call_tool]), not to the files under
    [src/]: it awaits the handler inside [try] and sends its content back
    as a result, and for an exception [e] it sends back a result flagged as
    an error whose one text block is [str(e)]. *)
Definition call_tool_request
           (handler : string -> dict string -> result (list TextContent))
           (name : string) (arguments : dict string) : CallToolResult :=
  match handler name arguments with
  | Return blocks => {| content := blocks; isError := false |}
  | Raise e => {| content := text_content (str_exc e); isError := true |}
  end.

End McpHost.

Import McpHost.

(** ** The canonical forecast text *)

(** The line of a forecast day as the specification words it:
    [<mark> <date>: <temp><unit_symbol>, <Description>, Humidity: <int>%]. *)
Definition canonical_day_line (unit_symbol : string)
           (day : string * forecast_item) : string :=
  "📅 " ++ fst day ++ ": " ++ str_num (fi_temp (snd day)) ++ unit_symbol ++
  ", " ++ title (fi_description (snd day)) ++
  ", Humidity: " ++ str_int (fi_humidity (snd day)) ++ "%".

(** The title line: [5-Day Weather Forecast for <City>, <Country>:]. *)
Definition canonical_title_line (data : forecast_payload) : string :=
  "5-Day Weather Forecast for " ++ fc_city_name data ++ ", " ++
  fc_city_country data ++ ":".

(** Each of [lines] followed by a line break. *)
Fixpoint line_block (lines : list string) : string :=
  match lines with
  | [] => EmptyString
  | l :: rest => l ++ nl ++ line_block rest
  end.

(** The title line, an empty line, and one line for each day. *)
Definition canonical_forecast_text (data : forecast_payload)
           (unit_symbol : string) (days : list (string * forecast_item)) : string :=
  canonical_title_line data ++ nl ++ nl ++
  line_block (map (canonical_day_line unit_symbol) days).

(** ** The numbers of a weather payload *)

Definition same_float (x y : spec_float) : bool :=
  match x, y with
  | S754_zero a, S754_zero b => Bool.eqb a b
  | S754_infinity a, S754_infinity b => Bool.eqb a b
  | S754_nan, S754_nan => true
  | S754_finite a m e, S754_finite b n f =>
      Bool.eqb a b && Pos.eqb m n && Z.eqb e f
  | _, _ => false
  end.

(** The float that a JSON number with two decimals is read as:
    [hundredths 537] is what [5.37] gives. *)
Definition hundredths (k : Z) : pynum :=
  PyFloat (float_of_decimal (k <? 0)%Z (Z.abs k) (-2)).

(** [reads_back], as a computation. *)
Definition reads_back_check (n : pynum) : bool :=
  numeral_text (str_num n) &&
  match float (str_num n) with
  | Return x => same_float x (to_float n)
  | Raise _ => false
  end.

Definition from_to (lo : Z) (count : nat) : list Z :=
  map (fun i => (lo + Z.of_nat i)%Z) (seq 0 count).

(** A number as the weather service sends it for a temperature or a wind
    speed: an integer, or a number with up to two decimals between -20.00
    and 50.00. *)
Definition weather_number (n : pynum) : Prop :=
  (exists z, n = PyInt z) \/
  (exists k, (-2000 <= k <= 5000)%Z /\ n = hundredths k).

(** Neither [nan] nor an infinity. *)
Definition finite_number (n : pynum) : bool :=
  match n with
  | PyInt _ => true
  | PyFloat (S754_zero _) => true
  | PyFloat (S754_finite _ _ _) => true
  | PyFloat _ => false
  end.

(** The characters of a text are ASCII. *)
Definition ascii_text (s : string) : bool :=
  all_chars (fun c => (nat_of_ascii c <? 128)%nat) s.

Definition oslo_weather : weather_payload :=
  {| wd_name := "Oslo"; wd_country := "NO";
     wd_temp := hundredths 537; wd_feels_like := hundredths 210;
     wd_description := "light snow"; wd_humidity := 60;
     wd_wind_speed := hundredths 360; wd_pressure := 1008;
     wd_visibility := Some 10000%Z |}.

(** A payload of the ordinary kind: the names and the description do not
    contain a line break or one of the labels that the parser looks for, the
    description is ASCII, temperature, feels-like and wind speed are
    integers or numbers with up to two decimals between -20.00 and 50.00,
    humidity and visibility print in at most 4300 digits, and a visibility
    is not negative. *)
Definition ordinary_payload (data : weather_payload) : Prop :=
  plain_texts data /\
  ascii_text (wd_description data) = true /\
  weather_number (wd_temp data) /\
  weather_number (wd_feels_like data) /\
  weather_number (wd_wind_speed data) /\
  plain_integers data.

(** The fields that hold the values of a payload. *)
Definition payload_fields (data : weather_payload) : fields :=
  {| temp := Some (to_float (wd_temp data));
     feels := Some (to_float (wd_feels_like data));
     desc := lower (strip (title (wd_description data)));
     hum := Some (wd_humidity data);
     wind := Some (to_float (wd_wind_speed data));
     vis := wd_visibility data |}.

(** * Properties *)

(** ** Unit mapping *)

(** C8: for metric, imperial and kelvin the unit symbol is the degree sign
    with C, the degree sign with F, and K; the wind label is m/s for metric
    and kelvin and mph for imperial; the provider receives units=metric or
    units=imperial, and no units parameter exactly for kelvin. *)
Theorem unit_mapping_table :
  (unit_symbol "metric" = "°C" /\
   unit_symbol "imperial" = "°F" /\
   unit_symbol "kelvin" = "K") /\
  (wind_unit "metric" = "m/s" /\
   wind_unit "kelvin" = "m/s" /\
   wind_unit "imperial" = "mph") /\
  (forall location key,
     request_params location key "metric" =
       [("q", location); ("appid", Some key); ("units", Some "metric")] /\
     request_params location key "imperial" =
       [("q", location); ("appid", Some key); ("units", Some "imperial")] /\
     request_params location key "kelvin" =
       [("q", location); ("appid", Some key)]) /\
  (forall location key units,
     In units ["metric"; "imperial"; "kelvin"] ->
     (dict_get (request_params location key units) "units" = None <->
      units = "kelvin")).
Proof.
  split; [repeat split|]. split; [repeat split|].
  split; [intros location key; repeat split|].
  intros location key units Hin. split.
  - intros Hnone. destruct Hin as [<- | [<- | [<- | []]]];
      try reflexivity; discriminate Hnone.
  - intros ->. reflexivity.
Qed.

Lemma unit_mapping_table_witness :
  dict_get (request_params (Some "Paris") "k" "imperial") "units" = None <->
  "imperial" = "kelvin".
Proof.
  apply unit_mapping_table. simpl. auto.
Defined.

Lemma eqb_false_of_neq (a b : string) : a <> b -> String.eqb a b = false.
Proof. intros H. apply String.eqb_neq. exact H. Qed.

Lemma truthy_of_nonempty (s : string) : s <> EmptyString -> truthy s = true.
Proof. destruct s; [congruence | reflexivity]. Qed.

Lemma request_params_units (location : option string) (key units : string) :
  units <> "kelvin" -> units <> EmptyString ->
  request_params location key units =
    [("q", location); ("appid", Some key); ("units", Some units)].
Proof.
  intros Hk He. unfold request_params, api_units.
  rewrite (eqb_false_of_neq _ _ Hk), (truthy_of_nonempty _ He). reflexivity.
Qed.

(** C10, refuted as stated: the empty string differs from "kelvin" and is
    not forwarded; the request carries no units parameter. *)
Lemma empty_units_not_forwarded :
  EmptyString <> "kelvin" /\
  dict_get (request_params (Some "Paris") "k" EmptyString) "units" = None /\
  ~ (forall units,
       units <> "kelvin" ->
       forall location key,
         dict_get (request_params location key units) "units"
           = Some (Some units)).
Proof.
  split; [discriminate|]. split; [reflexivity|].
  intros Hall.
  specialize (Hall EmptyString ltac:(discriminate) (Some "Paris") "k").
  discriminate Hall.
Qed.

(** C10, amended: the handlers do not validate units.  Every non-empty
    units string other than "kelvin" is forwarded verbatim as the units
    parameter, while "kelvin" and the empty string send no units
    parameter; every units other than "metric" and "imperial" is shown
    with the symbol K, every units other than "metric" and "kelvin" with
    the wind label mph; and with a key configured and a successful
    upstream answer the handler returns the formatted report for that
    units value. *)
Theorem units_not_validated (units : string) :
  (units <> "kelvin" -> units <> EmptyString ->
   forall location key,
     dict_get (request_params location key units) "units" = Some (Some units)) /\
  (units = "kelvin" \/ units = EmptyString ->
   forall location key,
     dict_get (request_params location key units) "units" = None) /\
  (units <> "metric" -> units <> "imperial" -> unit_symbol units = "K") /\
  (units <> "metric" -> units <> "kelvin" -> wind_unit units = "mph") /\
  (forall key gw arguments data,
     truthy key = true ->
     dict_get arguments "units" = Some units ->
     gw (base_url ++ "/weather")
        (request_params (dict_get arguments "location") key units) = HttpOk data ->
     _get_current_weather (Some key) gw arguments =
       text_content (formatted_response data units)) /\
  (forall key gf arguments data out,
     truthy key = true ->
     dict_get arguments "units" = Some units ->
     gf (base_url ++ "/forecast")
        (request_params (dict_get arguments "location") key units) = HttpOk data ->
     forecast_text data units = Return out ->
     _get_weather_forecast (Some key) gf arguments = text_content out).
Proof.
  repeat split.
  - intros Hk He location key.
    rewrite (request_params_units location key units Hk He). reflexivity.
  - intros [-> | ->] location key; reflexivity.
  - intros Hm Hi. unfold unit_symbol.
    rewrite (eqb_false_of_neq _ _ Hm), (eqb_false_of_neq _ _ Hi). reflexivity.
  - intros Hm Hk. unfold wind_unit.
    rewrite (eqb_false_of_neq _ _ Hm), (eqb_false_of_neq _ _ Hk). reflexivity.
  - intros key gw arguments data Hkey Hu Hget.
    unfold _get_current_weather, arg_units. rewrite Hu, Hkey. cbn [negb].
    rewrite Hget. reflexivity.
  - intros key gf arguments data out Hkey Hu Hget Htext.
    unfold _get_weather_forecast, arg_units. rewrite Hu, Hkey. cbn [negb].
    rewrite Hget, Htext. reflexivity.
Qed.

Lemma units_not_validated_witness :
  dict_get (request_params (Some "Paris") "k" "celsius") "units"
    = Some (Some "celsius") /\
  unit_symbol "celsius" = "K" /\
  wind_unit "celsius" = "mph" /\
  _get_current_weather (Some "k") (fun _ _ => HttpOk sample_weather)
                       [("location", "Paris"); ("units", "celsius")]
    = text_content (formatted_response sample_weather "celsius").
Proof.
  destruct (units_not_validated "celsius") as (Hfwd & _ & Hsym & Hwind & Hcur & _).
  split; [apply Hfwd; discriminate|].
  split; [apply Hsym; discriminate|].
  split; [apply Hwind; discriminate|].
  apply Hcur; reflexivity.
Defined.

(** ** Tool dispatch *)

(** The two known tools answer with content in every case: a missing key
    and every upstream failure become text. *)
Lemma known_tools_return_content
      (api_key : option string)
      (gw : string -> dict (option string) -> http_outcome weather_payload)
      (gf : string -> dict (option string) -> http_outcome forecast_payload)
      (arguments : dict string) :
  (exists t, handle_call_tool api_key gw gf "get_weather" arguments
             = Return (text_content t)) /\
  (exists t, handle_call_tool api_key gw gf "get_forecast" arguments
             = Return (text_content t)).
Proof.
  split.
  - unfold handle_call_tool, _get_current_weather. cbn [String.eqb Ascii.eqb Bool.eqb].
    destruct api_key as [key|]; [|eexists; reflexivity].
    destruct (truthy key); cbn [negb]; [|eexists; reflexivity].
    destruct (gw _ _) as [data|code body|message]; try (eexists; reflexivity).
    destruct (code =? 404)%Z; eexists; reflexivity.
  - unfold handle_call_tool, _get_weather_forecast. cbn [String.eqb Ascii.eqb Bool.eqb].
    destruct api_key as [key|]; [|eexists; reflexivity].
    destruct (truthy key); cbn [negb]; [|eexists; reflexivity].
    destruct (gf _ _) as [data|code body|message]; try (eexists; reflexivity).
    + destruct (forecast_text _ _); eexists; reflexivity.
    + destruct (code =? 404)%Z; eexists; reflexivity.
Qed.

Lemma unknown_tool_value_error
      (api_key : option string)
      (gw : string -> dict (option string) -> http_outcome weather_payload)
      (gf : string -> dict (option string) -> http_outcome forecast_payload)
      (name : string) (arguments : dict string) :
  name <> "get_weather" -> name <> "get_forecast" ->
  handle_call_tool api_key gw gf name arguments
    = Raise (ValueError ("Unknown tool: " ++ name)).
Proof.
  intros Hw Hf. unfold handle_call_tool.
  rewrite (eqb_false_of_neq _ _ Hw), (eqb_false_of_neq _ _ Hf). reflexivity.
Qed.

(** C5: for every tool name other than get_weather and get_forecast,
    whatever the arguments, the key and the upstream, the handler raises
    ValueError with the message "Unknown tool: <name>", and the service,
    that is the handler as the MCP server hosts it, answers the request
    with a result: it is flagged as an error and its content is one text
    block with that message. The error reaches the caller in-band, as
    result content, and not as an exception. *)
Theorem unknown_tool_answered_in_band
        (api_key : option string)
        (gw : string -> dict (option string) -> http_outcome weather_payload)
        (gf : string -> dict (option string) -> http_outcome forecast_payload)
        (name : string) (arguments : dict string) :
  name <> "get_weather" -> name <> "get_forecast" ->
  handle_call_tool api_key gw gf name arguments
    = Raise (ValueError ("Unknown tool: " ++ name)) /\
  call_tool_request (handle_call_tool api_key gw gf) name arguments
    = {| content := [{| type := "text"; text := "Unknown tool: " ++ name |}];
         isError := true |}.
Proof.
  intros Hw Hf.
  pose proof (unknown_tool_value_error api_key gw gf name arguments Hw Hf) as H.
  split; [exact H|]. unfold call_tool_request. rewrite H. reflexivity.
Qed.

Lemma unknown_tool_answered_in_band_witness :
  handle_call_tool (Some "k") unreachable unreachable
                   "get_humidity" [("location", "Paris")]
    = Raise (ValueError "Unknown tool: get_humidity") /\
  call_tool_request (handle_call_tool (Some "k") unreachable unreachable)
                    "get_humidity" [("location", "Paris")]
    = {| content := [{| type := "text"; text := "Unknown tool: get_humidity" |}];
         isError := true |}.
Proof.
  apply (unknown_tool_answered_in_band (Some "k") unreachable unreachable
           "get_humidity" [("location", "Paris")]);
    discriminate.
Defined.

(** ** The rule engine on concrete reports *)

(** C9: the rule-based analysis gives the same result for any two user
    queries on the same report. *)
Theorem rule_engine_ignores_query (weather_data q1 q2 : string) :
  _rule_based_analysis weather_data q1 = _rule_based_analysis weather_data q2.
Proof. reflexivity. Qed.

Lemma sample_report_formatted :
  formatted_response sample_weather "metric" = sample_report.
Proof. vm_compute. reflexivity. Qed.

(** C7: on the report for 5 degrees, feels like 2, light rain, 85 %
    humidity, wind 12 m/s and visibility 2500 m, the analysis is exactly
    the chilly, feels-colder, rain, humid, breezy and low-visibility tips
    followed by the summary "Light rain.", in that order; the feels-like
    difference is exactly -3. *)
Theorem sample_report_tips (user_query : string) :
  _rule_based_analysis sample_report user_query =
    Return (join nl [tip_chilly; tip_feels_colder; tip_rain; tip_humid;
                     tip_breezy; tip_low_visibility; tip_summary "light rain"]) /\
  tip_summary "light rain" = "ℹ️ Conditions: Light rain." /\
  fsub (of_Z 2) (of_Z 5) = of_Z (-3) /\
  feels_tips (Some (of_Z 5)) (Some (of_Z 2)) = [tip_feels_colder].
Proof.
  repeat split; vm_compute; reflexivity.
Qed.

(** C1, at the failing input: the kelvin rendering of a reading gives back
    humidity, wind speed and visibility but neither temperature nor
    feels-like, while the metric and imperial renderings of the same
    reading give back all five. *)
Theorem kelvin_report_loses_temperature :
  (exists f, parse_report (formatted_response kelvin_weather "kelvin") = Return f /\
             temp f = None /\ feels f = None /\
             hum f = Some (wd_humidity kelvin_weather) /\
             wind f = Some (to_float (wd_wind_speed kelvin_weather)) /\
             vis f = wd_visibility kelvin_weather) /\
  (exists f, parse_report (formatted_response kelvin_weather "metric") = Return f /\
             recovers kelvin_weather f) /\
  (exists f, parse_report (formatted_response kelvin_weather "imperial") = Return f /\
             recovers kelvin_weather f) /\
  float "278.15K" = Raise (float_error "278.15K").
Proof.
  repeat split; try (eexists; split; [vm_compute; reflexivity|]);
    repeat split; vm_compute; reflexivity.
Qed.

(** ** The cascade *)

Lemma cascade_unconfigured
      (environ : string -> option string)
      (openai hf ollama : string -> string -> string -> string -> option string)
      (weather_data user_query : string) :
  ustrip (getenv environ "OPENAI_API_KEY" EmptyString) = EmptyString ->
  ustrip (getenv environ "HF_API_TOKEN" EmptyString) = EmptyString ->
  rstrip_chars "/" (getenv environ "OLLAMA_HOST" "http://localhost:11434")
    = EmptyString ->
  analyze_weather_with_llm_async environ openai hf ollama weather_data user_query
    = _rule_based_analysis weather_data user_query.
Proof.
  intros Hk Ht Hh. unfold analyze_weather_with_llm_async.
  rewrite Hk, Ht, Hh. reflexivity.
Qed.

(** C2: with the OpenAI key unset or empty, the Hugging Face token unset or
    empty and the local-model host set to the empty string, the cascade
    returns exactly what the rule-based analysis returns on the same report
    and query, whatever the providers would have answered. *)
Theorem cascade_falls_back_to_rules
        (environ : string -> option string)
        (openai hf ollama : string -> string -> string -> string -> option string)
        (weather_data user_query : string) :
  getenv environ "OPENAI_API_KEY" EmptyString = EmptyString ->
  getenv environ "HF_API_TOKEN" EmptyString = EmptyString ->
  environ "OLLAMA_HOST" = Some EmptyString ->
  analyze_weather_with_llm_async environ openai hf ollama weather_data user_query
    = _rule_based_analysis weather_data user_query.
Proof.
  intros Hk Ht Hh. apply cascade_unconfigured.
  - rewrite Hk. reflexivity.
  - rewrite Ht. reflexivity.
  - unfold getenv. rewrite Hh. reflexivity.
Qed.

Lemma cascade_falls_back_to_rules_witness :
  analyze_weather_with_llm_async bare_environ chatty chatty chatty
                                 sample_report "Should I wear a jacket?"
    = _rule_based_analysis sample_report "Should I wear a jacket?".
Proof.
  apply (cascade_falls_back_to_rules bare_environ chatty chatty chatty);
    reflexivity.
Defined.

(** With the local host left at its default the local provider is asked
    first, so an unset variable does not count as unconfigured. *)
Lemma cascade_default_host_asks_local :
  analyze_weather_with_llm_async (fun _ => None) chatty chatty chatty
                                 sample_report "q"
    = Return "Take a coat.".
Proof. vm_compute. reflexivity. Qed.

(** ** Choice of the representative entry *)

Lemma find_is_head_of_filter {A : Type} (p : A -> bool) (l : list A) :
  find p l = hd_error (filter p l).
Proof.
  induction l as [|a l IH]; simpl; [reflexivity|].
  destruct (p a); [reflexivity | exact IH].
Qed.

Lemma filter_nil_iff {A : Type} (p : A -> bool) (l : list A) :
  filter p l = [] <-> forall a, In a l -> p a = false.
Proof.
  induction l as [|a l IH]; simpl.
  - split; [intros _ ? [] | reflexivity].
  - destruct (p a) eqn:Hpa; split.
    + discriminate.
    + intros H. specialize (H a (or_introl eq_refl)). congruence.
    + intros H b [<- | Hb]; [exact Hpa | apply IH; assumption].
    + intros H. apply IH. intros b Hb. apply H. right. exact Hb.
Qed.

Lemma middle_index_in_range {A : Type} (l : list A) :
  l <> [] -> (List.length l / 2 < List.length l)%nat.
Proof.
  intros Hne. destruct l as [|a l]; [congruence|].
  apply Nat.div_lt; simpl; lia.
Qed.

(** What [pick_representative] returns on a non-empty list: the first noon
    entry when there is one, the middle entry otherwise. *)
Lemma pick_representative_spec (entries : list forecast_item) :
  entries <> [] ->
  exists r,
    pick_representative entries = Return r /\ In r entries /\
    (forall e, In e entries -> is_noon e = true ->
               is_noon r = true /\ find is_noon entries = Some r) /\
    ((forall e, In e entries -> is_noon e = false) ->
     nth_error entries (List.length entries / 2) = Some r).
Proof.
  intros Hne. unfold pick_representative.
  destruct (filter is_noon entries) as [|n rest] eqn:Hfilter.
  - pose proof (proj1 (filter_nil_iff _ _) Hfilter) as Hnone.
    destruct (nth_error entries (List.length entries / 2)) as [r|] eqn:Hnth.
    + exists r. unfold index. rewrite Hnth.
      split; [reflexivity|]. split; [eapply nth_error_In; eassumption|].
      split; [|reflexivity].
      intros e He Hnoon. rewrite (Hnone e He) in Hnoon. discriminate.
    + apply nth_error_None in Hnth.
      pose proof (middle_index_in_range entries Hne). lia.
  - assert (Hin : In n (filter is_noon entries)) by (rewrite Hfilter; left; reflexivity).
    apply filter_In in Hin. destruct Hin as [Hin Hnoon].
    exists n. split; [reflexivity|]. split; [exact Hin|]. split.
    + intros _ _ _. split; [exact Hnoon|].
      rewrite find_is_head_of_filter, Hfilter. reflexivity.
    + intros Hnone. rewrite (Hnone n Hin) in Hnoon. discriminate.
Qed.

(** C3: on a non-empty list of entries, [pick_representative] returns the
    first entry whose timestamp ends in 12:00:00 when there is one, and
    otherwise the entry at index [len // 2]; for three entries without a
    noon entry that is the entry at index 1. *)
Theorem pick_representative_choice (entries : list forecast_item) :
  entries <> [] ->
  ((exists e, In e entries /\ is_noon e = true) ->
   exists r, pick_representative entries = Return r /\
             In r entries /\
             endswith "12:00:00" (dt_txt_of r) = true /\
             find is_noon entries = Some r) /\
  ((forall e, In e entries -> is_noon e = false) ->
   exists r, pick_representative entries = Return r /\
             nth_error entries (List.length entries / 2) = Some r) /\
  (forall a b c,
     entries = [a; b; c] ->
     is_noon a = false -> is_noon b = false -> is_noon c = false ->
     pick_representative entries = Return b).
Proof.
  intros Hne.
  destruct (pick_representative_spec entries Hne) as (r & Hpick & Hin & Hnoon & Hmid).
  split; [|split].
  - intros (e & He & Hen). destruct (Hnoon e He Hen) as [Hr Hfind].
    exists r. repeat split; assumption.
  - intros Hnone. exists r. split; [exact Hpick | apply Hmid; exact Hnone].
  - intros a b c -> Ha Hb Hc. unfold pick_representative. simpl.
    rewrite Ha, Hb, Hc. reflexivity.
Qed.

Lemma pick_representative_choice_witness :
  (exists r, pick_representative [morning_item; noon_item; evening_item] = Return r /\
             In r [morning_item; noon_item; evening_item] /\
             endswith "12:00:00" (dt_txt_of r) = true /\
             find is_noon [morning_item; noon_item; evening_item] = Some r) /\
  pick_representative [night_item; morning_item; evening_item] = Return morning_item.
Proof.
  split.
  - apply (pick_representative_choice [morning_item; noon_item; evening_item]).
    + discriminate.
    + exists noon_item. split; [simpl; auto | reflexivity].
  - apply (proj2 (proj2 (pick_representative_choice
                             [night_item; morning_item; evening_item]
                             ltac:(discriminate)))
                   night_item morning_item evening_item);
      reflexivity.
Defined.

(** ** Totality of the rule engine *)

Lemma split_go_nonempty (sep : string) (s : string) :
  forall budget skip cur, split_go sep budget skip cur s <> [].
Proof.
  induction s as [|c r IH]; intros budget skip cur; cbn [split_go].
  - discriminate.
  - destruct skip as [|k]; [|apply IH].
    destruct budget as [[|n]|].
    + discriminate.
    + destruct (prefix sep (String c r)); [discriminate | apply IH].
    + destruct (prefix sep (String c r)); [discriminate | apply IH].
Qed.

Lemma index_last_nonempty {A : Type} (l : list A) :
  l <> [] -> exists a, index_last l = Return a.
Proof.
  destruct l as [|a r]; [congruence|]. intros _. eexists. reflexivity.
Qed.

Lemma parse_desc_total (cline : string) :
  exists d, parse_desc cline = Return d.
Proof.
  unfold parse_desc.
  destruct (index_last_nonempty (split_max ":" 1 cline)) as [d Hd].
  - apply split_go_nonempty.
  - rewrite Hd. eexists. reflexivity.
Qed.

Lemma parse_report_total (weather_data : string) :
  exists f, parse_report weather_data = Return f.
Proof.
  unfold parse_report.
  destruct (parse_desc_total (get (split nl weather_data) "Conditions:")) as [d Hd].
  rewrite Hd. eexists. reflexivity.
Qed.


Ltac case_ifs :=
  repeat match goal with
         | |- context [if ?b then _ else _] => destruct b
         end.

(** Closes [In t [a; ..; z] -> In t l] when every element is in [l]. *)
Ltac in_cases :=
  let H := fresh "Hin" in
  intros H; simpl in H;
  repeat (destruct H as [<- | H]; [simpl; auto 9|]);
  destruct H.

Lemma clothing_tips_texts (x : option spec_float) (t : string) :
  In t (clothing_tips x) ->
  In t [tip_very_cold; tip_chilly; tip_hot; tip_warm; tip_mild].
Proof.
  unfold clothing_tips. destruct x as [v|]; [|intros []].
  case_ifs; in_cases.
Qed.

Lemma feels_tips_texts (x y : option spec_float) (t : string) :
  In t (feels_tips x y) -> In t feels_tip_texts.
Proof.
  unfold feels_tips. destruct x as [v|]; [destruct y as [w|]|]; try (intros []).
  case_ifs; in_cases.
Qed.

Lemma precipitation_tips_texts (d t : string) :
  In t (precipitation_tips d) -> In t [tip_rain; tip_snow].
Proof.
  unfold precipitation_tips. case_ifs; in_cases.
Qed.

Lemma humidity_tips_texts (x : option Z) (t : string) :
  In t (humidity_tips x) -> In t humidity_tip_texts.
Proof.
  unfold humidity_tips. destruct x as [v|]; [|intros []].
  case_ifs; in_cases.
Qed.

Lemma wind_tips_texts (x : option spec_float) (t : string) :
  In t (wind_tips x) -> In t wind_tip_texts.
Proof.
  unfold wind_tips. destruct x as [v|]; [|intros []].
  case_ifs; in_cases.
Qed.

Lemma visibility_tips_texts (x : option Z) (t : string) :
  In t (visibility_tips x) -> In t visibility_tip_texts.
Proof.
  unfold visibility_tips. destruct x as [v|]; [|intros []].
  case_ifs; in_cases.
Qed.

Lemma prefix_append (s r : string) : prefix s (s ++ r) = true.
Proof.
  induction s as [|a s IH]; simpl.
  - destruct r; reflexivity.
  - destruct (ascii_dec a a) as [_|Hne]; [exact IH | congruence].
Qed.

Lemma summary_tips_texts (d t : string) :
  In t (summary_tips d) -> is_summary t = true.
Proof.
  unfold summary_tips. case_ifs; [|intros []].
  intros [<- | []]. apply prefix_append.
Qed.

Lemma fixed_tips_distinct : NoDup fixed_tip_texts.
Proof.
  unfold fixed_tip_texts.
  repeat (constructor;
          [intros Hin; simpl in Hin;
           repeat (destruct Hin as [Hin | Hin];
                   [apply String.eqb_eq in Hin; vm_compute in Hin; discriminate Hin|]);
           exact Hin|]).
  constructor.
Qed.

Lemma fixed_tips_not_summary (t : string) :
  In t fixed_tip_texts -> is_summary t = false.
Proof.
  unfold fixed_tip_texts. simpl.
  intros H. repeat (destruct H as [<- | H]; [reflexivity|]). destruct H.
Qed.

Ltac by_cases_on H :=
  simpl in H; repeat (destruct H as [<- | H]; [vm_compute; reflexivity|]); destruct H.

Lemma clothing_rule (t : string) : In t clothing_tip_texts -> tip_rule t = 1.
Proof. intros H. by_cases_on H. Qed.

Lemma feels_rule (t : string) : In t feels_tip_texts -> tip_rule t = 2.
Proof. intros H. by_cases_on H. Qed.

Lemma precipitation_rule (t : string) :
  In t precipitation_tip_texts -> tip_rule t = 3.
Proof. intros H. by_cases_on H. Qed.

Lemma humidity_rule (t : string) : In t humidity_tip_texts -> tip_rule t = 4.
Proof. intros H. by_cases_on H. Qed.

Lemma wind_rule (t : string) : In t wind_tip_texts -> tip_rule t = 5.
Proof. intros H. by_cases_on H. Qed.

Lemma visibility_rule (t : string) : In t visibility_tip_texts -> tip_rule t = 6.
Proof. intros H. by_cases_on H. Qed.

Lemma temperature_rule (t : string) :
  In t temperature_tip_texts -> tip_rule t = 1 \/ tip_rule t = 2.
Proof.
  intros H. simpl in H.
  repeat (destruct H as [<- | H]; [vm_compute; auto|]). destruct H.
Qed.

Lemma ruled_tips_are_fixed (t : string) : tip_rule t <> 0 -> In t fixed_tip_texts.
Proof.
  unfold tip_rule. intros H.
  repeat match type of H with
         | (if existsb ?p ?l then _ else _) <> 0 =>
             destruct (existsb p l) eqn:Hex;
             [apply existsb_exists in Hex; destruct Hex as (x & Hx & Heq);
              apply String.eqb_eq in Heq; subst x; clear H;
              simpl in Hx; simpl; intuition
             |clear Hex]
         end.
  congruence.
Qed.

(** Where a tip of the final list comes from: the rule that produced it
    and the fields that rule needed. *)
Lemma tips_of_origin (f : fields) (t : string) :
  In t (tips_of f) ->
  (tip_rule t = 1 /\ temp f <> None) \/
  (tip_rule t = 2 /\ temp f <> None /\ feels f <> None) \/
  tip_rule t = 3 \/
  (tip_rule t = 4 /\ hum f <> None) \/
  (tip_rule t = 5 /\ wind f <> None) \/
  (tip_rule t = 6 /\ vis f <> None) \/
  is_summary t = true.
Proof.
  unfold tips_of. intros H.
  repeat (apply in_app_or in H; destruct H as [H | H]).
  - left. split; [apply clothing_rule, clothing_tips_texts with (x := temp f), H|].
    intros Hnone. rewrite Hnone in H. destruct H.
  - right; left. split; [apply feels_rule, feels_tips_texts with (1 := H)|].
    split; intros Hnone; rewrite Hnone in H;
      [|destruct (temp f)]; destruct H.
  - right; right; left. apply precipitation_rule, precipitation_tips_texts with (1 := H).
  - right; right; right; left.
    split; [apply humidity_rule, humidity_tips_texts with (1 := H)|].
    intros Hnone. rewrite Hnone in H. destruct H.
  - do 4 right; left.
    split; [apply wind_rule, wind_tips_texts with (1 := H)|].
    intros Hnone. rewrite Hnone in H. destruct H.
  - do 5 right; left.
    split; [apply visibility_rule, visibility_tips_texts with (1 := H)|].
    intros Hnone. rewrite Hnone in H. destruct H.
  - do 6 right. apply summary_tips_texts with (1 := H).
Qed.

Lemma summary_has_no_rule (t : string) : is_summary t = true -> tip_rule t = 0.
Proof.
  intros Hs. destruct (Nat.eq_dec (tip_rule t) 0) as [H0 | Hn]; [exact H0|].
  apply ruled_tips_are_fixed, fixed_tips_not_summary in Hn. congruence.
Qed.

(** A tip whose rule is [n] is absent when the origin analysis leaves no
    way for rule [n] to have fired. *)
Ltac absent_by_origin Hin :=
  apply tips_of_origin in Hin;
  repeat match goal with
         | H : _ \/ _ |- _ => destruct H
         | H : _ /\ _ |- _ => destruct H
         | H : is_summary _ = true |- _ => apply summary_has_no_rule in H
         end; congruence.

(** C6: for every report text and every query the rule-based analysis
    returns, without raising: the parsing yields a record of fields, the
    answer is the tips derived from it joined by line breaks, and the tips
    of a rule are absent whenever a field the rule needs was not obtained.
    On the empty report and on a report with labels but no usable values
    the answer is empty; on a report with only conditions and humidity
    usable it is the tips for those. *)
Theorem rule_engine_total :
  (forall weather_data user_query : string,
     exists f,
       parse_report weather_data = Return f /\
       _rule_based_analysis weather_data user_query
         = Return (join nl (fromkeys (tips_of f))) /\
       (temp f = None ->
        forall t, In t temperature_tip_texts -> ~ In t (tips_of f)) /\
       (feels f = None ->
        forall t, In t feels_tip_texts -> ~ In t (tips_of f)) /\
       (hum f = None ->
        forall t, In t humidity_tip_texts -> ~ In t (tips_of f)) /\
       (wind f = None ->
        forall t, In t wind_tip_texts -> ~ In t (tips_of f)) /\
       (vis f = None ->
        forall t, In t visibility_tip_texts -> ~ In t (tips_of f))) /\
  (forall user_query,
     _rule_based_analysis EmptyString user_query = Return EmptyString) /\
  (forall user_query,
     _rule_based_analysis garbled_report user_query = Return EmptyString) /\
  (forall user_query,
     _rule_based_analysis partial_report user_query
       = Return (join nl [tip_snow; tip_dry; tip_summary "snow"])).
Proof.
  split; [|repeat split; intros; vm_compute; reflexivity].
  intros weather_data user_query.
  destruct (parse_report_total weather_data) as [f Hf].
  exists f. split; [exact Hf|].
  split; [unfold _rule_based_analysis; rewrite Hf; reflexivity|].
  repeat split; intros Hnone t Ht Hin.
  - apply temperature_rule in Ht. absent_by_origin Hin.
  - apply feels_rule in Ht. absent_by_origin Hin.
  - apply humidity_rule in Ht. absent_by_origin Hin.
  - apply wind_rule in Ht. absent_by_origin Hin.
  - apply visibility_rule in Ht. absent_by_origin Hin.
Qed.

Lemma rule_engine_total_witness :
  exists f,
    parse_report garbled_report = Return f /\
    _rule_based_analysis garbled_report "Should I wear a jacket?"
      = Return (join nl (fromkeys (tips_of f))) /\
    ~ In tip_chilly (tips_of f) /\
    ~ In tip_low_visibility (tips_of f).
Proof.
  destruct (proj1 rule_engine_total garbled_report "Should I wear a jacket?")
    as (f & Hparse & Hout & Htemp & _ & _ & _ & Hvis).
  exists f. split; [exact Hparse|]. split; [exact Hout|].
  assert (Hf : Return f = Return
                 {| temp := None; feels := None; desc := EmptyString;
                    hum := None; wind := None; vis := None |})
    by (rewrite <- Hparse; vm_compute; reflexivity).
  injection Hf as ->.
  split.
  - apply Htemp; [reflexivity | simpl; auto].
  - apply Hvis; [reflexivity | simpl; auto].
Defined.

(** ** The order of [sorted] *)

Lemma ascii_compare_refl (a : ascii) : Ascii.compare a a = Eq.
Proof. unfold Ascii.compare. apply N.compare_refl. Qed.

Lemma ascii_compare_lt_trans (a b c : ascii) :
  Ascii.compare a b = Lt -> Ascii.compare b c = Lt -> Ascii.compare a c = Lt.
Proof.
  unfold Ascii.compare. rewrite !N.compare_lt_iff. apply N.lt_trans.
Qed.

Lemma string_compare_refl (s : string) : String.compare s s = Eq.
Proof.
  induction s as [|a s IH]; simpl; [reflexivity|].
  rewrite ascii_compare_refl. exact IH.
Qed.

Lemma string_compare_lt_trans (s1 : string) :
  forall s2 s3,
    String.compare s1 s2 = Lt -> String.compare s2 s3 = Lt ->
    String.compare s1 s3 = Lt.
Proof.
  induction s1 as [|a s1 IH]; intros [|b s2] [|c s3]; simpl;
    try discriminate; try reflexivity.
  destruct (Ascii.compare a b) eqn:Hab; try discriminate;
    destruct (Ascii.compare b c) eqn:Hbc; try discriminate; intros H12 H23.
  - apply Ascii.compare_eq_iff in Hab, Hbc. subst.
    rewrite ascii_compare_refl. eapply IH; eassumption.
  - apply Ascii.compare_eq_iff in Hab. subst. rewrite Hbc. reflexivity.
  - apply Ascii.compare_eq_iff in Hbc. subst. rewrite Hab. reflexivity.
  - rewrite (ascii_compare_lt_trans a b c Hab Hbc). reflexivity.
Qed.

Lemma str_le_cases (a b : string) : str_le a b <-> str_lt a b \/ a = b.
Proof.
  unfold str_le, str_lt, String.leb, String.ltb. split.
  - destruct (String.compare a b) eqn:Hc; intros H; try discriminate.
    + right. apply String.compare_eq_iff. exact Hc.
    + left. reflexivity.
  - intros [H | ->].
    + destruct (String.compare a b); try discriminate; reflexivity.
    + rewrite string_compare_refl. reflexivity.
Qed.

Lemma str_lt_trans (a b c : string) : str_lt a b -> str_lt b c -> str_lt a c.
Proof.
  unfold str_lt, String.ltb. intros Hab Hbc.
  destruct (String.compare a b) eqn:H1; try discriminate.
  destruct (String.compare b c) eqn:H2; try discriminate.
  rewrite (string_compare_lt_trans a b c H1 H2). reflexivity.
Qed.

Lemma str_le_trans (a b c : string) : str_le a b -> str_le b c -> str_le a c.
Proof.
  rewrite !str_le_cases. intros [Hab | ->] [Hbc | ->]; auto.
  left. eapply str_lt_trans; eassumption.
Qed.

Lemma str_le_total (a b : string) : str_le a b \/ str_le b a.
Proof. apply String.leb_total. Qed.

Lemma str_le_of_not (a b : string) : String.leb a b = false -> str_le b a.
Proof.
  intros H. destruct (str_le_total a b) as [Hab | Hba]; [|exact Hba].
  unfold str_le in Hab. congruence.
Qed.

Lemma insert_sorted_perm (k : string) (l : list string) :
  Permutation (insert_sorted k l) (k :: l).
Proof.
  induction l as [|x r IH]; simpl; [reflexivity|].
  destruct (String.leb k x); [reflexivity|].
  rewrite IH. apply perm_swap.
Qed.

Lemma sorted_perm (l : list string) : Permutation (sorted l) l.
Proof.
  induction l as [|k r IH]; simpl; [reflexivity|].
  rewrite insert_sorted_perm, IH. reflexivity.
Qed.

Lemma insert_sorted_ascending (k : string) (l : list string) :
  StronglySorted str_le l -> StronglySorted str_le (insert_sorted k l).
Proof.
  induction 1 as [|x r Hr IH Hx]; simpl.
  - repeat constructor.
  - destruct (String.leb k x) eqn:Hkx.
    + constructor; [constructor; assumption|].
      constructor; [exact Hkx|].
      eapply Forall_impl; [|exact Hx].
      intros y Hxy. eapply str_le_trans; eassumption.
    + constructor; [exact IH|].
      eapply Permutation_Forall; [symmetry; apply insert_sorted_perm|].
      constructor; [apply str_le_of_not; exact Hkx | exact Hx].
Qed.

Lemma sorted_ascending (l : list string) : StronglySorted str_le (sorted l).
Proof.
  induction l as [|k r IH]; simpl; [constructor|].
  apply insert_sorted_ascending. exact IH.
Qed.

Lemma ascending_strict (l : list string) :
  NoDup l -> StronglySorted str_le l -> StronglySorted str_lt l.
Proof.
  induction 2 as [|x r Hr IH Hx]; [constructor|].
  inversion H as [|? ? Hnotin Hnodup]; subst.
  constructor; [apply IH; exact Hnodup|].
  rewrite Forall_forall in *. intros y Hy.
  destruct (proj1 (str_le_cases x y) (Hx y Hy)) as [Hlt | ->];
    [exact Hlt | contradiction].
Qed.

Lemma sorted_strict (l : list string) :
  NoDup l -> StronglySorted str_lt (sorted l).
Proof.
  intros Hnd. apply ascending_strict; [|apply sorted_ascending].
  eapply Permutation_NoDup; [symmetry; apply sorted_perm | exact Hnd].
Qed.

(** ** Grouping by date *)

Lemma prefix_blank (c : ascii) (r : string) :
  prefix " " (String c r) = Ascii.eqb c " ".
Proof.
  cbn [prefix]. destruct (ascii_dec " " c) as [<- | Hne].
  - destruct r; reflexivity.
  - symmetry. apply Ascii.eqb_neq. congruence.
Qed.

Lemma split_blank_head (s : string) :
  forall cur,
    nth_error (split_go " " None 0 cur s) 0
      = Some (rev_onto cur (before_blank s)).
Proof.
  induction s as [|c r IH]; intros cur; cbn [split_go before_blank].
  - reflexivity.
  - rewrite prefix_blank. destruct (Ascii.eqb c " ").
    + reflexivity.
    + rewrite IH. reflexivity.
Qed.

Lemma before_blank_without_blank (s : string) :
  contains " " s = false -> before_blank s = s.
Proof.
  induction s as [|c r IH]; [reflexivity|].
  cbn [contains before_blank]. rewrite prefix_blank.
  destruct (Ascii.eqb c " "); [discriminate|].
  simpl. intros H. rewrite (IH H). reflexivity.
Qed.

Lemma date_of_total (item : forecast_item) :
  date_of item = Return (date_str item).
Proof.
  unfold date_of, date_str.
  destruct (contains " " (dt_txt_of item)) eqn:Hblank.
  - unfold index, split. rewrite split_blank_head. reflexivity.
  - rewrite (before_blank_without_blank _ Hblank). reflexivity.
Qed.

Lemma dict_get_setdefault_append (k : string) (e : forecast_item)
      (d : dict (list forecast_item)) (k' : string) :
  dict_get (setdefault_append k e d) k' =
    if String.eqb k k'
    then Some (match dict_get d k with
               | Some v => (v ++ [e])%list
               | None => [e]
               end)
    else dict_get d k'.
Proof.
  induction d as [|[k0 v] r IH]; simpl.
  - reflexivity.
  - destruct (String.eqb_spec k0 k) as [-> | Hne]; simpl.
    + destruct (String.eqb k k'); reflexivity.
    + rewrite IH. destruct (String.eqb_spec k k') as [Heq | Hkk'].
      * subst k'. rewrite (eqb_false_of_neq _ _ Hne). reflexivity.
      * reflexivity.
Qed.

Lemma keys_setdefault_append (k : string) (e : forecast_item)
      (d : dict (list forecast_item)) :
  map fst (setdefault_append k e d) =
    if in_dec string_dec k (map fst d) then map fst d
    else (map fst d ++ [k])%list.
Proof.
  induction d as [|[k0 v] r IH]; simpl; [reflexivity|].
  destruct (String.eqb_spec k0 k) as [-> | Hne]; simpl.
  - destruct (string_dec k k); [reflexivity | congruence].
  - rewrite IH. destruct (string_dec k0 k); [congruence|].
    destruct (in_dec string_dec k (map fst r)); reflexivity.
Qed.

Lemma key_iff_dict_get {V : Type} (d : dict V) (k : string) :
  In k (map fst d) <-> dict_get d k <> None.
Proof.
  induction d as [|[k0 v] r IH]; simpl.
  - split; [intros [] | congruence].
  - destruct (String.eqb_spec k0 k) as [-> | Hne].
    + split; [discriminate | auto].
    + rewrite <- IH. split; [intros [? | ?]; [contradiction | assumption] | auto].
Qed.

Lemma nonempty_none_iff {A : Type} (l : list A) : nonempty l = None <-> l = [].
Proof. destruct l; simpl; split; congruence. Qed.

Lemma entries_of_snoc (k : string) (seen : list forecast_item) (e : forecast_item) :
  entries_of k (seen ++ [e]) =
    (entries_of k seen ++ (if String.eqb (date_str e) k then [e] else []))%list.
Proof. unfold entries_of. rewrite filter_app. reflexivity. Qed.

Lemma grouped_step (seen : list forecast_item) (d : dict (list forecast_item))
      (e : forecast_item) :
  grouped seen d ->
  grouped (seen ++ [e]) (setdefault_append (date_str e) e d).
Proof.
  intros [Hnd Hget]. split.
  - rewrite keys_setdefault_append.
    destruct (in_dec string_dec (date_str e) (map fst d)) as [Hin | Hout];
      [exact Hnd|].
    apply NoDup_app; [exact Hnd | repeat constructor; intros [] |].
    intros x Hx [<- | []]. contradiction.
  - intros k. rewrite dict_get_setdefault_append, entries_of_snoc.
    destruct (String.eqb_spec (date_str e) k) as [<- | Hne].
    + rewrite Hget.
      destruct (entries_of (date_str e) seen) as [|a l]; reflexivity.
    + rewrite app_nil_r. apply Hget.
Qed.

Lemma group_by_date_grouped (items : list forecast_item) :
  forall seen d,
    grouped seen d ->
    exists d', group_by_date items d = Return d' /\ grouped (seen ++ items) d'.
Proof.
  induction items as [|e rest IH]; intros seen d Hg; simpl.
  - exists d. rewrite app_nil_r. split; [reflexivity | exact Hg].
  - rewrite date_of_total. simpl.
    destruct (IH (seen ++ [e])%list _ (grouped_step seen d e Hg)) as (d' & Hrun & Hg').
    exists d'. split; [exact Hrun|].
    rewrite <- app_assoc in Hg'. exact Hg'.
Qed.

Lemma grouped_nil : grouped [] [].
Proof. split; [constructor | reflexivity]. Qed.

Lemma entries_of_nonempty_iff (k : string) (items : list forecast_item) :
  entries_of k items <> [] <-> In k (map date_str items).
Proof.
  unfold entries_of. rewrite in_map_iff. split.
  - intros Hne. destruct (filter (has_date k) items) as [|e l] eqn:Hf; [congruence|].
    assert (Hin : In e (filter (has_date k) items)) by (rewrite Hf; left; reflexivity).
    apply filter_In in Hin. destruct Hin as [Hin Hd].
    exists e. split; [apply String.eqb_eq; exact Hd | exact Hin].
  - intros (e & Hd & Hin) Hnil.
    assert (Hf : In e (filter (has_date k) items)).
    { apply filter_In. split; [exact Hin | apply String.eqb_eq; exact Hd]. }
    rewrite Hnil in Hf. destruct Hf.
Qed.

Lemma grouped_keys (items : list forecast_item) (d : dict (list forecast_item)) :
  grouped items d -> Permutation (map fst d) (distinct_dates items).
Proof.
  intros [Hnd Hget]. apply NoDup_Permutation; [exact Hnd | apply NoDup_nodup|].
  intros k. unfold distinct_dates. rewrite nodup_In, key_iff_dict_get, Hget.
  rewrite <- entries_of_nonempty_iff.
  split; intros H Hn; apply H; apply nonempty_none_iff; exact Hn.
Qed.

Lemma grouped_lookup (items : list forecast_item) (d : dict (list forecast_item))
      (k : string) :
  grouped items d -> In k (map fst d) ->
  dict_index d k = Return (entries_of k items) /\ entries_of k items <> [].
Proof.
  intros [Hnd Hget] Hin. apply key_iff_dict_get in Hin.
  unfold dict_index. rewrite Hget in *.
  destruct (entries_of k items); simpl in *; [congruence|].
  split; [reflexivity | discriminate].
Qed.

(** ** The reduced forecast *)

Lemma append_assoc (a b c : string) : (a ++ b) ++ c = a ++ (b ++ c).
Proof.
  induction a as [|x a IH]; simpl; [reflexivity|]. rewrite IH. reflexivity.
Qed.

Lemma entries_of_member (k : string) (items : list forecast_item)
      (e : forecast_item) :
  In e (entries_of k items) <-> In e items /\ date_str e = k.
Proof.
  unfold entries_of. rewrite filter_In. unfold has_date.
  rewrite String.eqb_eq. reflexivity.
Qed.

Lemma grouped_representative (items : list forecast_item)
      (d : dict (list forecast_item)) (k : string) :
  grouped items d -> In k (map fst d) ->
  exists entries r,
    dict_index d k = Return entries /\
    pick_representative entries = Return r /\
    represents items k r.
Proof.
  intros Hg Hk. destruct (grouped_lookup items d k Hg Hk) as [Hidx Hne].
  destruct (pick_representative_spec _ Hne) as (r & Hpick & Hin & Hnoon & _).
  exists (entries_of k items), r. split; [exact Hidx|]. split; [exact Hpick|].
  apply entries_of_member in Hin. destruct Hin as [Hin Hdate].
  repeat split; try assumption.
  - apply (Hnoon e); [apply entries_of_member; split; assumption | assumption].
  - apply (Hnoon e); [apply entries_of_member; split; assumption | assumption].
Qed.

Lemma append_days_spec (items : list forecast_item)
      (d : dict (list forecast_item)) (us : string) :
  grouped items d ->
  forall dates text0,
    (forall k, In k dates -> In k (map fst d)) ->
    exists days,
      append_days d us dates text0 = Return (text0 ++ day_lines us days) /\
      map fst days = dates /\
      Forall (fun day => represents items (fst day) (snd day)) days.
Proof.
  intros Hg. induction dates as [|date rest IH]; intros text0 Hsub.
  - exists []. simpl. split; [|split; [reflexivity | constructor]].
    f_equal. induction text0 as [|c t IHt]; simpl; [reflexivity | congruence].
  - destruct (grouped_representative items d date Hg (Hsub date (or_introl eq_refl)))
      as (entries & r & Hidx & Hpick & Hrep).
    destruct (IH (text0 ++ forecast_line us date r)
                 (fun k Hk => Hsub k (or_intror Hk)))
      as (days & Hrun & Hdates & Hall).
    exists ((date, r) :: days). cbn [append_days bind].
    rewrite Hidx. cbn [bind]. rewrite Hpick. cbn [bind].
    rewrite Hrun. split; [|split].
    + cbn [day_lines]. rewrite append_assoc. reflexivity.
    + simpl. rewrite Hdates. reflexivity.
    + constructor; [exact Hrep | exact Hall].
Qed.


(** The text of [forecast_text] for a payload with [n] distinct dates: the
    title, then one line for each of the first [min 5 n] dates in ascending
    order, each with its representative. *)
Lemma forecast_text_spec (data : forecast_payload) (units : string)
      (items : list forecast_item) :
  fc_list data = Some items ->
  exists days later,
    forecast_text data units
      = Return (forecast_title data ++ day_lines (unit_symbol units) days) /\
    List.length days = Nat.min 5 (List.length (distinct_dates items)) /\
    Permutation (map fst days ++ later) (distinct_dates items) /\
    StronglySorted str_lt (map fst days ++ later) /\
    Forall (fun day => represents items (fst day) (snd day)) days.
Proof.
  intros Hlist. unfold forecast_text. rewrite Hlist.
  destruct (group_by_date_grouped items [] [] grouped_nil) as (d & Hrun & Hg).
  simpl in Hg. rewrite Hrun. cbn [bind].
  pose proof (grouped_keys items d Hg) as Hkeys.
  assert (Hsorted : Permutation (sorted (map fst d)) (distinct_dates items)).
  { rewrite sorted_perm. exact Hkeys. }
  destruct (append_days_spec items d (unit_symbol units) Hg
              (firstn 5 (sorted (map fst d))) (forecast_title data))
    as (days & Happ & Hdates & Hall).
  { intros k Hk. eapply Permutation_in; [apply sorted_perm|].
    rewrite <- (firstn_skipn 5). apply in_or_app. left. exact Hk. }
  exists days, (skipn 5 (sorted (map fst d))).
  split; [exact Happ|]. split; [|split; [|split]].
  - rewrite <- (length_map fst days), Hdates, length_firstn.
    rewrite (Permutation_length Hsorted). reflexivity.
  - rewrite Hdates, firstn_skipn. exact Hsorted.
  - rewrite Hdates, firstn_skipn. apply sorted_strict. apply Hg.
  - exact Hall.
Qed.

(** * Further properties of the code *)

(** ** Strings: reversal, membership, search *)

Lemma append_nil_r (s : string) : s ++ EmptyString = s.
Proof. induction s as [|c s IH]; simpl; [reflexivity | rewrite IH; reflexivity]. Qed.

Lemma rev_onto_append (s : string) :
  forall acc, rev_onto s acc = rev s ++ acc.
Proof.
  unfold rev. induction s as [|c s IH]; intros acc; simpl; [reflexivity|].
  rewrite (IH (String c acc)), (IH (String c EmptyString)), append_assoc.
  reflexivity.
Qed.

Lemma rev_cons (c : ascii) (s : string) :
  rev (String c s) = rev s ++ String c EmptyString.
Proof. unfold rev at 1. simpl. apply rev_onto_append. Qed.

Lemma rev_append (a b : string) : rev (a ++ b) = rev b ++ rev a.
Proof.
  induction a as [|c a IH]; simpl.
  - rewrite append_nil_r. reflexivity.
  - rewrite !rev_cons, IH, append_assoc. reflexivity.
Qed.

Lemma rev_involutive (s : string) : rev (rev s) = s.
Proof.
  induction s as [|c s IH]; [reflexivity|].
  rewrite rev_cons, rev_append, IH. reflexivity.
Qed.

Lemma mem_char_append (c : ascii) (a b : string) :
  mem_char c (a ++ b) = mem_char c a || mem_char c b.
Proof.
  induction a as [|x a IH]; simpl; [reflexivity|].
  rewrite IH, orb_assoc. reflexivity.
Qed.

Lemma mem_char_rev (c : ascii) (s : string) : mem_char c (rev s) = mem_char c s.
Proof.
  induction s as [|x s IH]; [reflexivity|].
  rewrite rev_cons, mem_char_append, IH. simpl.
  rewrite orb_false_r, orb_comm. reflexivity.
Qed.

Lemma all_chars_append (p : ascii -> bool) (a b : string) :
  all_chars p (a ++ b) = all_chars p a && all_chars p b.
Proof.
  induction a as [|x a IH]; simpl; [reflexivity|].
  rewrite IH, andb_assoc. reflexivity.
Qed.

Lemma all_chars_rev (p : ascii -> bool) (s : string) :
  all_chars p (rev s) = all_chars p s.
Proof.
  induction s as [|x s IH]; [reflexivity|].
  rewrite rev_cons, all_chars_append, IH. simpl.
  rewrite andb_true_r, andb_comm. reflexivity.
Qed.

Lemma all_chars_absent (p : ascii -> bool) (c : ascii) (s : string) :
  all_chars p s = true -> p c = false -> mem_char c s = false.
Proof.
  induction s as [|x s IH]; simpl; [reflexivity|].
  intros Hall Hc. apply andb_prop in Hall. destruct Hall as [Hx Hs].
  rewrite (IH Hs Hc), orb_false_r.
  apply Ascii.eqb_neq. intros ->. congruence.
Qed.

Lemma all_chars_weaken (p q : ascii -> bool) (s : string) :
  (forall c, p c = true -> q c = true) ->
  all_chars p s = true -> all_chars q s = true.
Proof.
  intros Hpq. induction s as [|x s IH]; simpl; [reflexivity|].
  intros H. apply andb_prop in H. destruct H as [Hx Hs].
  rewrite (Hpq x Hx), (IH Hs). reflexivity.
Qed.

Lemma prefix_cons (c0 : ascii) (k : string) (x : ascii) (s : string) :
  prefix (String c0 k) (String x s) = Ascii.eqb c0 x && prefix k s.
Proof.
  cbn [prefix]. destruct (ascii_dec c0 x) as [<- | Hne].
  - rewrite Ascii.eqb_refl. reflexivity.
  - rewrite (proj2 (Ascii.eqb_neq c0 x) Hne). reflexivity.
Qed.

Lemma prefix_nil (s : string) : prefix EmptyString s = true.
Proof. destruct s; reflexivity. Qed.

Lemma prefix_chars (k : string) :
  forall s c, prefix k s = true -> mem_char c k = true -> mem_char c s = true.
Proof.
  induction k as [|c0 k IH]; intros s c Hp Hc; [discriminate Hc|].
  destruct s as [|x s]; [discriminate Hp|].
  rewrite prefix_cons in Hp. apply andb_prop in Hp. destruct Hp as [Hx Hk].
  apply Ascii.eqb_eq in Hx. subst x. simpl in *.
  destruct (Ascii.eqb c c0); [reflexivity|]. simpl in *. eapply IH; eassumption.
Qed.

Lemma contains_chars (k s : string) (c : ascii) :
  contains k s = true -> mem_char c k = true -> mem_char c s = true.
Proof.
  induction s as [|x s IH]; cbn [contains]; intros H Hc.
  - rewrite orb_false_r in H. eapply prefix_chars; eassumption.
  - apply orb_prop in H. destruct H as [H | H].
    + eapply prefix_chars; eassumption.
    + simpl. rewrite (IH H Hc), orb_true_r. reflexivity.
Qed.

(** A text that lacks one character of the key does not contain the key. *)
Lemma contains_absent (c : ascii) (k s : string) :
  mem_char c k = true -> mem_char c s = false -> contains k s = false.
Proof.
  intros Hk Hs. destruct (contains k s) eqn:H; [|reflexivity].
  rewrite (contains_chars k s c H Hk) in Hs. discriminate.
Qed.

Lemma contains_prefix (k s : string) : prefix k s = true -> contains k s = true.
Proof. intros H. destruct s; cbn [contains]; rewrite H; reflexivity. Qed.

Lemma contains_append_r (k a s : string) :
  contains k s = true -> contains k (a ++ s) = true.
Proof.
  intros H. induction a as [|x a IH]; [exact H|].
  cbn [append contains]. rewrite IH, orb_true_r. reflexivity.
Qed.

Lemma prefix_append_r (k : string) :
  forall s b, prefix k s = true -> prefix k (s ++ b) = true.
Proof.
  induction k as [|c0 k IH]; intros s b H; [apply prefix_nil|].
  destruct s as [|x s]; [discriminate H|].
  cbn [append]. rewrite prefix_cons in *.
  apply andb_prop in H. destruct H as [Hx Hk].
  rewrite Hx, (IH s b Hk). reflexivity.
Qed.

Lemma contains_append_l (k s b : string) :
  contains k s = true -> contains k (s ++ b) = true.
Proof.
  induction s as [|x s IH]; cbn [contains]; intros H.
  - rewrite orb_false_r in H. apply contains_prefix.
    apply (prefix_append_r k EmptyString b H).
  - apply orb_prop in H. cbn [append contains]. destruct H as [H | H].
    + pose proof (prefix_append_r k (String x s) b H) as Hp.
      cbn [append] in Hp. rewrite Hp. reflexivity.
    + rewrite (IH H), orb_true_r. reflexivity.
Qed.

Lemma contains_middle (k a b : string) : contains k (a ++ k ++ b) = true.
Proof. apply contains_append_r, contains_prefix, prefix_append. Qed.

(** ** Strings: [split], [strip] *)

Lemma split_go_skip (sep : string) (budget : option nat) (t : string) :
  forall cur b,
    split_go sep budget (String.length t) cur (t ++ b)
      = split_go sep budget 0 cur b.
Proof.
  induction t as [|c t IH]; intros cur b; [reflexivity|].
  cbn [String.length append split_go]. apply IH.
Qed.

Lemma split_go_budget_spent (sep cur s : string) :
  split_go sep (Some 0) 0 cur s = [rev_onto cur s].
Proof. destruct s; reflexivity. Qed.

(** Characters other than the first of the separator are collected. *)
Lemma split_go_pass (c0 : ascii) (k : string) (budget : option nat) (a : string) :
  budget <> Some 0 -> mem_char c0 a = false ->
  forall cur s,
    split_go (String c0 k) budget 0 cur (a ++ s)
      = split_go (String c0 k) budget 0 (rev_onto a cur) s.
Proof.
  intros Hb. induction a as [|x a IH]; intros Ha cur s; [reflexivity|].
  simpl in Ha. apply orb_false_elim in Ha. destruct Ha as [Hx Ha].
  cbn [append split_go].
  rewrite prefix_cons, Hx. cbn [andb].
  destruct budget as [[|n]|]; [congruence | apply IH; exact Ha | apply IH; exact Ha].
Qed.

Lemma split_go_hit (c0 : ascii) (k : string) (budget : option nat) (cur b : string) :
  budget <> Some 0 ->
  split_go (String c0 k) budget 0 cur (String c0 k ++ b)
    = rev cur :: split_go (String c0 k) (option_map Nat.pred budget) 0 EmptyString b.
Proof.
  intros Hb. cbn [append split_go].
  pose proof (prefix_append (String c0 k) b) as Hp. cbn [append] in Hp.
  rewrite Hp.
  replace (String.length (String c0 k) - 1) with (String.length k)
    by (cbn [String.length]; lia).
  destruct budget as [[|n]|]; [congruence | |]; rewrite split_go_skip; reflexivity.
Qed.

(** [split] cuts at the first occurrence when the first character of the
    separator does not occur before it. *)
Lemma split_first (c0 : ascii) (k a b : string) :
  mem_char c0 a = false ->
  split (String c0 k) (a ++ String c0 k ++ b) = a :: split (String c0 k) b.
Proof.
  intros Ha. unfold split.
  rewrite split_go_pass by (discriminate || assumption).
  rewrite split_go_hit by discriminate.
  rewrite rev_onto_append, append_nil_r, rev_involutive. reflexivity.
Qed.

Lemma split_absent (c0 : ascii) (k s : string) :
  mem_char c0 s = false -> split (String c0 k) s = [s].
Proof.
  intros Hs. unfold split.
  rewrite <- (append_nil_r s) at 1.
  rewrite split_go_pass by (discriminate || assumption).
  cbn [split_go]. rewrite rev_onto_append, append_nil_r, rev_involutive.
  reflexivity.
Qed.

Lemma split_max_first (c0 : ascii) (k a b : string) :
  mem_char c0 a = false ->
  split_max (String c0 k) 1 (a ++ String c0 k ++ b) = [a; b].
Proof.
  intros Ha. unfold split_max.
  rewrite split_go_pass by (discriminate || assumption).
  rewrite split_go_hit by discriminate.
  cbn [option_map Nat.pred]. rewrite split_go_budget_spent.
  rewrite rev_onto_append, append_nil_r, rev_involutive. reflexivity.
Qed.

Lemma lstrip_by_pass (p : ascii -> bool) (a s : string) :
  all_chars p a = true -> lstrip_by p (a ++ s) = lstrip_by p s.
Proof.
  induction a as [|x a IH]; simpl; [reflexivity|].
  intros H. apply andb_prop in H. destruct H as [Hx Ha].
  rewrite Hx. apply IH. exact Ha.
Qed.

Lemma lstrip_by_stop (p : ascii -> bool) (s : string) :
  starts_outside p s = true -> lstrip_by p s = s.
Proof.
  destruct s as [|c s]; simpl; [discriminate|].
  intros H. apply negb_true_iff in H. rewrite H. reflexivity.
Qed.

Lemma starts_outside_append (p : ascii -> bool) (s b : string) :
  starts_outside p s = true -> starts_outside p (s ++ b) = true.
Proof. destruct s; simpl; [discriminate | auto]. Qed.

Lemma rstrip_by_pass (p : ascii -> bool) (s b : string) :
  all_chars p b = true -> rstrip_by p (s ++ b) = rstrip_by p s.
Proof.
  intros Hb. unfold rstrip_by. rewrite rev_append, lstrip_by_pass; [reflexivity|].
  rewrite all_chars_rev. exact Hb.
Qed.

Lemma rstrip_by_stop (p : ascii -> bool) (s : string) :
  ends_outside p s = true -> rstrip_by p s = s.
Proof.
  intros H. unfold rstrip_by. rewrite lstrip_by_stop by exact H.
  apply rev_involutive.
Qed.

(** Stripping removes exactly the surrounding run of [p] characters. *)
Lemma strip_by_core (p : ascii -> bool) (a m b : string) :
  all_chars p a = true -> all_chars p b = true ->
  starts_outside p m = true -> ends_outside p m = true ->
  strip_by p (a ++ m ++ b) = m.
Proof.
  intros Ha Hb Hs He. unfold strip_by.
  rewrite lstrip_by_pass by exact Ha.
  rewrite lstrip_by_stop by (apply starts_outside_append; exact Hs).
  rewrite rstrip_by_pass by exact Hb.
  apply rstrip_by_stop. exact He.
Qed.

Lemma strip_by_plain (p : ascii -> bool) (m : string) :
  starts_outside p m = true -> ends_outside p m = true -> strip_by p m = m.
Proof.
  intros Hs He.
  pose proof (strip_by_core p EmptyString m EmptyString eq_refl eq_refl Hs He) as H.
  cbn [append] in H. rewrite append_nil_r in H. exact H.
Qed.

Lemma ends_outside_append (p : ascii -> bool) (a s : string) :
  ends_outside p s = true -> ends_outside p (a ++ s) = true.
Proof.
  unfold ends_outside. intros H. rewrite rev_append.
  apply starts_outside_append. exact H.
Qed.

(** A non-empty text over a class [q] disjoint from [p] starts and ends
    outside [p]. *)
Lemma class_starts_outside (p q : ascii -> bool) (s : string) :
  (forall c, q c = true -> p c = false) ->
  truthy s = true -> all_chars q s = true -> starts_outside p s = true.
Proof.
  intros Hqp. destruct s as [|c s]; simpl; [discriminate|].
  intros _ H. apply andb_prop in H. destruct H as [Hc _].
  rewrite (Hqp c Hc). reflexivity.
Qed.

Lemma truthy_rev (s : string) : truthy (rev s) = truthy s.
Proof.
  destruct s as [|c s]; [reflexivity|].
  rewrite rev_cons. destruct (rev s); reflexivity.
Qed.

Lemma class_ends_outside (p q : ascii -> bool) (s : string) :
  (forall c, q c = true -> p c = false) ->
  truthy s = true -> all_chars q s = true -> ends_outside p s = true.
Proof.
  intros Hqp Ht Hall. unfold ends_outside.
  apply (class_starts_outside p q); [exact Hqp | |].
  - rewrite truthy_rev. exact Ht.
  - rewrite all_chars_rev. exact Hall.
Qed.

Lemma split_ws_go_pass (x : string) :
  all_chars (fun c => negb (isspace c)) x = true ->
  forall cur s, split_ws_go cur (x ++ s) = split_ws_go (rev_onto x cur) s.
Proof.
  induction x as [|c x IH]; intros Hx cur s; [reflexivity|].
  simpl in Hx. apply andb_prop in Hx. destruct Hx as [Hc Hx].
  apply negb_true_iff in Hc. cbn [append split_ws_go]. rewrite Hc.
  apply IH. exact Hx.
Qed.

(** The first word of a text that starts with blanks. *)
Lemma split_ws_first_word (w rest : string) :
  truthy w = true -> all_chars (fun c => negb (isspace c)) w = true ->
  exists more, split_ws (" " ++ w ++ " " ++ rest) = w :: more.
Proof.
  intros Ht Hw. unfold split_ws. cbn [append split_ws_go]. 
  change (isspace " ") with true. cbn [truthy].
  rewrite (split_ws_go_pass w Hw). cbn [split_ws_go].
  change (isspace " ") with true. cbv iota.
  rewrite rev_onto_append, append_nil_r, truthy_rev, Ht, rev_involutive.
  eexists. reflexivity.
Qed.

Lemma filter_chars_append (p : ascii -> bool) (a b : string) :
  filter_chars p (a ++ b) = filter_chars p a ++ filter_chars p b.
Proof.
  induction a as [|x a IH]; simpl; [reflexivity|].
  destruct (p x); simpl; rewrite IH; reflexivity.
Qed.

Lemma filter_chars_all (p : ascii -> bool) (s : string) :
  all_chars p s = true -> filter_chars p s = s.
Proof.
  induction s as [|x s IH]; simpl; [reflexivity|].
  intros H. apply andb_prop in H. destruct H as [Hx Hs].
  rewrite Hx, (IH Hs). reflexivity.
Qed.

(** ** Integers as text *)

Lemma digit_is_numeral (c : ascii) : isdigit c = true -> numeral_char c = true.
Proof.
  destruct c as [[|] [|] [|] [|] [|] [|] [|] [|]]; intros H;
    try reflexivity; discriminate H.
Qed.

Lemma numeral_not_space (c : ascii) : numeral_char c = true -> isspace c = false.
Proof.
  destruct c as [[|] [|] [|] [|] [|] [|] [|] [|]]; intros H;
    try reflexivity; discriminate H.
Qed.

Lemma numeral_not_c_space (c : ascii) :
  numeral_char c = true -> c_isspace c = false.
Proof.
  destruct c as [[|] [|] [|] [|] [|] [|] [|] [|]]; intros H;
    try reflexivity; discriminate H.
Qed.

Lemma numeral_not_underscore (c : ascii) :
  numeral_char c = true -> negb (Ascii.eqb c "_") = true.
Proof.
  destruct c as [[|] [|] [|] [|] [|] [|] [|] [|]]; intros H;
    try reflexivity; discriminate H.
Qed.

Lemma digit_lower (c : ascii) : isdigit c = true -> to_lower c = c.
Proof.
  destruct c as [[|] [|] [|] [|] [|] [|] [|] [|]]; intros H;
    try reflexivity; discriminate H.
Qed.

Lemma uint_text_digits (d : Decimal.uint) :
  all_chars isdigit (NilEmpty.string_of_uint d) = true.
Proof. induction d; simpl; auto. Qed.

Lemma digits_value_from_acc (d : Decimal.uint) :
  forall acc,
    digits_value_from (Zpos acc) (NilEmpty.string_of_uint d)
      = Zpos (Pos.of_uint_acc d acc).
Proof.
  induction d; intros acc;
    cbn [NilEmpty.string_of_uint digits_value_from Pos.of_uint_acc];
    try reflexivity;
    match goal with
    | |- digits_value_from (10 * Z.pos ?acc0 + Z.of_nat ?n) _
         = Zpos (Pos.of_uint_acc _ ?a) =>
        let n' := eval vm_compute in (Z.of_nat n) in
        change (Z.of_nat n) with n';
        replace (10 * Z.pos acc0 + n')%Z with (Zpos a) by lia
    end; apply IHd.
Qed.

Lemma digits_value_uint (d : Decimal.uint) :
  digits_value (NilEmpty.string_of_uint d) = Z.of_N (Pos.of_uint d).
Proof.
  unfold digits_value.
  induction d;
    cbn [NilEmpty.string_of_uint digits_value_from Pos.of_uint];
    try reflexivity; try exact IHd;
    match goal with
    | |- digits_value_from ?v _ = Z.of_N (Npos (Pos.of_uint_acc _ ?a)) =>
        let v' := eval vm_compute in v in
        change v with v'; change (Z.of_N (Npos (Pos.of_uint_acc d a)))
                            with (Zpos (Pos.of_uint_acc d a))
    end; apply digits_value_from_acc.
Qed.

(** The text of a positive number: its digits, with their value. *)
Lemma positive_text (p : positive) :
  exists ds,
    NilZero.string_of_uint (Pos.to_uint p) = ds /\
    truthy ds = true /\ all_chars isdigit ds = true /\
    digits_value ds = Zpos p.
Proof.
  exists (NilEmpty.string_of_uint (Pos.to_uint p)).
  pose proof (DecimalPos.Unsigned.to_uint_nonnil p) as Hnn.
  repeat split.
  - destruct (Pos.to_uint p); [congruence | reflexivity ..].
  - destruct (Pos.to_uint p); [congruence | reflexivity ..].
  - apply uint_text_digits.
  - rewrite digits_value_uint, DecimalPos.Unsigned.of_to. reflexivity.
Qed.

(** [str(z)] is an optional minus sign followed by the digits of [|z|]. *)
Lemma str_int_shape (z : Z) :
  exists ds,
    truthy ds = true /\ all_chars isdigit ds = true /\
    digits_value ds = Z.abs z /\
    str_int z = (if (z <? 0)%Z then String "-" ds else ds).
Proof.
  destruct z as [|p|p]; unfold str_int; cbn [Z.to_int NilZero.string_of_int].
  - exists "0". repeat split.
  - destruct (positive_text p) as (ds & -> & Ht & Hd & Hv).
    exists ds. repeat split; assumption.
  - destruct (positive_text p) as (ds & -> & Ht & Hd & Hv).
    exists ds. repeat split; assumption.
Qed.

Lemma str_int_numeral (z : Z) : numeral_text (str_int z) = true.
Proof.
  destruct (str_int_shape z) as (ds & Ht & Hd & _ & ->).
  assert (Hn : all_chars numeral_char ds = true)
    by (eapply all_chars_weaken; [apply digit_is_numeral | exact Hd]).
  unfold numeral_text. destruct (z <? 0)%Z; cbn [truthy all_chars andb].
  - exact Hn.
  - rewrite Ht, Hn. reflexivity.
Qed.

Lemma str_int_digits (z : Z) :
  (0 <= z)%Z -> truthy (str_int z) = true /\ all_chars isdigit (str_int z) = true.
Proof.
  intros Hz. destruct (str_int_shape z) as (ds & Ht & Hd & _ & ->).
  destruct (Z.ltb_spec z 0); [lia|]. split; assumption.
Qed.

Lemma span_digits_all (ds rest : string) :
  all_chars isdigit ds = true -> starts_outside isdigit rest = true \/ rest = EmptyString ->
  span_digits (ds ++ rest) = (ds, rest).
Proof.
  intros Hd Hrest. induction ds as [|c ds IH]; cbn [append].
  - destruct Hrest as [H | ->]; [|reflexivity].
    destruct rest as [|x r]; [discriminate H|]. cbn in *.
    apply negb_true_iff in H. rewrite H. reflexivity.
  - simpl in Hd. apply andb_prop in Hd. destruct Hd as [Hc Hds].
    cbn [span_digits]. rewrite Hc, (IH Hds). reflexivity.
Qed.

Lemma span_digits_whole (ds : string) :
  all_chars isdigit ds = true -> span_digits ds = (ds, EmptyString).
Proof.
  intros Hd. rewrite <- (append_nil_r ds) at 1.
  apply span_digits_all; auto.
Qed.

Lemma drop_underscores_plain (s : string) :
  all_chars (fun c => negb (Ascii.eqb c "_")) s = true ->
  forall prev, Ascii.eqb prev "_" = false -> drop_underscores prev s = Some s.
Proof.
  induction s as [|c s IH]; intros Hs prev Hp; cbn [drop_underscores].
  - rewrite Hp. reflexivity.
  - simpl in Hs. apply andb_prop in Hs. destruct Hs as [Hc Hs].
    apply negb_true_iff in Hc. rewrite Hc, Hp. cbn [andb].
    rewrite (IH Hs c Hc). reflexivity.
Qed.

Lemma split_sign_other (c : ascii) (r : string) :
  c <> "-"%char -> c <> "+"%char -> split_sign (String c r) = (false, String c r).
Proof.
  destruct c as [[|] [|] [|] [|] [|] [|] [|] [|]]; intros Hm Hp;
    try reflexivity; congruence.
Qed.

Lemma split_sign_digits (ds : string) :
  truthy ds = true -> all_chars isdigit ds = true ->
  split_sign ds = (false, ds).
Proof.
  destruct ds as [|c r]; [discriminate|]. intros _ H.
  simpl in H. apply andb_prop in H. destruct H as [Hc _].
  apply split_sign_other; intros ->; discriminate Hc.
Qed.

Lemma numeral_plain_for_strip (s : string) :
  numeral_text s = true -> strip_by c_isspace s = s /\ strip s = s.
Proof.
  unfold numeral_text. intros H. apply andb_prop in H. destruct H as [Ht Hn].
  split.
  - apply strip_by_plain.
    + apply (class_starts_outside _ numeral_char);
        auto using numeral_not_c_space.
    + apply (class_ends_outside _ numeral_char);
        auto using numeral_not_c_space.
  - unfold strip. apply strip_by_plain.
    + apply (class_starts_outside _ numeral_char);
        auto using numeral_not_space.
    + apply (class_ends_outside _ numeral_char);
        auto using numeral_not_space.
Qed.

Lemma numeral_no_underscore (s : string) :
  numeral_text s = true ->
  all_chars (fun c => negb (Ascii.eqb c "_")) s = true.
Proof.
  unfold numeral_text. intros H. apply andb_prop in H. destruct H as [_ Hn].
  eapply all_chars_weaken; [apply numeral_not_underscore | exact Hn].
Qed.

(** [int(str(z))] gives [z] back when the text is within the length limit. *)
Lemma int_of_str_int (z : Z) :
  (String.length (str_int z) <= int_max_str_digits)%nat ->
  int (str_int z) = Return z.
Proof.
  intros Hlen. unfold int.
  rewrite (proj1 (numeral_plain_for_strip _ (str_int_numeral z))).
  destruct (str_int_shape z) as (ds & Ht & Hd & Hv & Hs). rewrite Hs in *.
  assert (Hplain : drop_underscores zero ds = Some ds).
  { apply drop_underscores_plain; [|reflexivity].
    eapply all_chars_weaken; [|exact Hd].
    intros c Hc. apply numeral_not_underscore, digit_is_numeral, Hc. }
  destruct (Z.ltb_spec z 0) as [Hneg | Hpos].
  - cbn [split_sign]. rewrite Hplain, (span_digits_whole ds Hd), Ht.
    cbn [truthy negb andb]. cbn [String.length] in Hlen.
    destruct (Nat.leb_spec (String.length ds) int_max_str_digits); [|lia].
    rewrite Hv. f_equal. lia.
  - rewrite (split_sign_digits ds Ht Hd), Hplain, (span_digits_whole ds Hd), Ht.
    cbn [truthy negb andb].
    destruct (Nat.leb_spec (String.length ds) int_max_str_digits); [|lia].
    rewrite Hv. f_equal. lia.
Qed.

Lemma lower_digits (ds : string) : all_chars isdigit ds = true -> lower ds = ds.
Proof.
  unfold lower. induction ds as [|c ds IH]; simpl; [reflexivity|].
  intros H. apply andb_prop in H. destruct H as [Hc Hds].
  rewrite (digit_lower c Hc), (IH Hds). reflexivity.
Qed.

Lemma digits_not_word (ds : string) :
  truthy ds = true -> all_chars isdigit ds = true ->
  String.eqb ds "inf" = false /\ String.eqb ds "infinity" = false /\
  String.eqb ds "nan" = false.
Proof.
  destruct ds as [|c r]; [discriminate|]. intros _ H.
  simpl in H. apply andb_prop in H. destruct H as [Hc _].
  repeat split; apply String.eqb_neq; intros [= -> _]; discriminate Hc.
Qed.

Lemma parse_decimal_digits (ds : string) :
  truthy ds = true -> all_chars isdigit ds = true ->
  parse_decimal ds = Some (digits_value ds, 0%Z).
Proof.
  intros Ht Hd. unfold parse_decimal.
  rewrite (span_digits_whole ds Hd), append_nil_r, Ht. reflexivity.
Qed.

(** [float(str(z))] is the binary64 value of [z]. *)
Lemma float_of_str_int (z : Z) : float (str_int z) = Return (of_Z z).
Proof.
  unfold float.
  rewrite (drop_underscores_plain _ (numeral_no_underscore _ (str_int_numeral z)))
    by reflexivity.
  rewrite (proj1 (numeral_plain_for_strip _ (str_int_numeral z))).
  destruct (str_int_shape z) as (ds & Ht & Hd & Hv & Hs). rewrite Hs.
  destruct (digits_not_word ds Ht Hd) as (H1 & H2 & H3).
  destruct (Z.ltb_spec z 0) as [Hneg | Hpos].
  - cbn [split_sign]. rewrite (lower_digits ds Hd), H1, H2, H3. cbn [orb].
    rewrite (parse_decimal_digits ds Ht Hd), Hv.
    destruct z as [|p|p]; try lia. cbn [Z.abs].
    unfold float_of_decimal, of_Z, binary_normalize.
    rewrite Z.pow_0_r, Z.mul_1_r. reflexivity.
  - rewrite (split_sign_digits ds Ht Hd), (lower_digits ds Hd), H1, H2, H3.
    cbn [orb]. rewrite (parse_decimal_digits ds Ht Hd), Hv.
    destruct z as [|p|p]; try lia; [reflexivity|]. cbn [Z.abs].
    unfold float_of_decimal, of_Z, binary_normalize.
    rewrite Z.pow_0_r, Z.mul_1_r. reflexivity.
Qed.

Lemma int_reads_back (z : Z) : reads_back (PyInt z).
Proof. split; [apply str_int_numeral | apply float_of_str_int]. Qed.

(** ** The report as lines *)

Ltac reshape :=
  repeat first [rewrite append_assoc | progress cbn [append]]; reflexivity.

Lemma formatted_response_lines (data : weather_payload) (units : string) :
  formatted_response data units = join nl (report_lines data units).
Proof.
  unfold formatted_response, report_lines, title_line, temperature_line,
    conditions_line, humidity_line, wind_line, pressure_line, visibility_line,
    visibility_text.
  cbv zeta. cbn [join]. reshape.
Qed.

Lemma split_join_lines (lines : list string) :
  lines <> [] ->
  Forall (fun l => mem_char newline l = false) lines ->
  split nl (join nl lines) = lines.
Proof.
  induction lines as [|l rest IH]; [congruence|].
  intros _ Hall. inversion Hall as [|? ? Hl Hrest]; subst.
  destruct rest as [|l' rest'].
  - cbn [join]. apply split_absent. exact Hl.
  - change (join nl (l :: l' :: rest')) with (l ++ nl ++ join nl (l' :: rest')).
    unfold nl at 1 2. fold newline.
    rewrite (split_first newline EmptyString l _ Hl). f_equal.
    apply IH; [discriminate | exact Hrest].
Qed.

Lemma numeral_absent (c : ascii) (s : string) :
  numeral_text s = true -> numeral_char c = false -> mem_char c s = false.
Proof.
  unfold numeral_text. intros H Hc. apply andb_prop in H.
  destruct H as [_ Hn]. eapply all_chars_absent; eassumption.
Qed.

Lemma free_of_spec (keys : list string) (l : string) :
  free_of keys l = true ->
  mem_char newline l = false /\
  forall k, In k keys -> contains k l = false.
Proof.
  unfold free_of. intros H. apply andb_prop in H. destruct H as [Hn Hk].
  split; [apply negb_true_iff; exact Hn|].
  intros k Hin. rewrite forallb_forall in Hk.
  apply negb_true_iff. apply Hk. exact Hin.
Qed.

Lemma unit_symbol_cases (units : string) :
  unit_symbol units = "°C" \/ unit_symbol units = "°F" \/
  unit_symbol units = "K".
Proof.
  unfold unit_symbol.
  destruct (String.eqb units "metric"); [auto|].
  destruct (String.eqb units "imperial"); auto.
Qed.

Lemma wind_unit_cases (units : string) :
  wind_unit units = "m/s" \/ wind_unit units = "mph".
Proof. unfold wind_unit. destruct (_ || _); auto. Qed.

Lemma truthy_append_l (a b : string) : truthy a = true -> truthy (a ++ b) = true.
Proof. destruct a; [discriminate | reflexivity]. Qed.

Ltac by_units units :=
  let H := fresh "HU" in
  destruct (unit_symbol_cases units) as [H | [H | H]]; rewrite H.

Ltac by_wind_unit units :=
  let H := fresh "HW" in
  destruct (wind_unit_cases units) as [H | H]; rewrite H.

Section ReportLines.

Variable data : weather_payload.
Variable units : string.
Hypothesis Hplain : plain_texts data.
Hypothesis Htemp : numeral_text (str_num (wd_temp data)) = true.
Hypothesis Hfeels : numeral_text (str_num (wd_feels_like data)) = true.
Hypothesis Hwind : numeral_text (str_num (wd_wind_speed data)) = true.

Lemma temperature_line_absent (c : ascii) :
  numeral_char c = false ->
  mem_char c "🌡️ Temperature: °C°FK (feels like )" = false ->
  mem_char c (temperature_line data units) = false.
Proof.
  intros Hn Hc. unfold temperature_line.
  cbn [mem_char] in Hc.
  repeat (apply orb_false_elim in Hc; destruct Hc as [? Hc]).
  by_units units; rewrite !mem_char_append;
    rewrite !(numeral_absent c (str_num _)) by assumption;
    cbn [mem_char orb];
    repeat match goal with H : Ascii.eqb c _ = false |- _ => rewrite H end;
    reflexivity.
Qed.

Lemma humidity_line_absent (c : ascii) :
  numeral_char c = false -> mem_char c "💧 Humidity: %" = false ->
  mem_char c (humidity_line data) = false.
Proof.
  intros Hn Hc. unfold humidity_line.
  cbn [mem_char] in Hc.
  repeat (apply orb_false_elim in Hc; destruct Hc as [? Hc]).
  rewrite !mem_char_append.
  rewrite (numeral_absent c _ (str_int_numeral _) Hn).
  cbn [mem_char orb].
  repeat match goal with H : Ascii.eqb c _ = false |- _ => rewrite H end.
  reflexivity.
Qed.

Lemma wind_line_absent (c : ascii) :
  numeral_char c = false -> mem_char c "💨 Wind Speed:  m/sph" = false ->
  mem_char c (wind_line data units) = false.
Proof.
  intros Hn Hc. unfold wind_line.
  cbn [mem_char] in Hc.
  repeat (apply orb_false_elim in Hc; destruct Hc as [? Hc]).
  by_wind_unit units; rewrite !mem_char_append;
    rewrite (numeral_absent c _ Hwind Hn);
    cbn [mem_char orb];
    repeat match goal with H : Ascii.eqb c _ = false |- _ => rewrite H end;
    reflexivity.
Qed.

Lemma pressure_line_absent (c : ascii) :
  numeral_char c = false -> mem_char c "🔽 Pressure:  hPa" = false ->
  mem_char c (pressure_line data) = false.
Proof.
  intros Hn Hc. unfold pressure_line.
  cbn [mem_char] in Hc.
  repeat (apply orb_false_elim in Hc; destruct Hc as [? Hc]).
  rewrite !mem_char_append.
  rewrite (numeral_absent c _ (str_int_numeral _) Hn).
  cbn [mem_char orb].
  repeat match goal with H : Ascii.eqb c _ = false |- _ => rewrite H end.
  reflexivity.
Qed.

Lemma visibility_line_absent (c : ascii) :
  numeral_char c = false -> mem_char c "👁️ Visibility: N/A meters" = false ->
  mem_char c (visibility_line data) = false.
Proof.
  intros Hn Hc. unfold visibility_line, visibility_text.
  cbn [mem_char] in Hc.
  repeat (apply orb_false_elim in Hc; destruct Hc as [? Hc]).
  destruct (wd_visibility data) as [v|]; rewrite !mem_char_append;
    rewrite ?(numeral_absent c _ (str_int_numeral _) Hn);
    cbn [mem_char orb];
    repeat match goal with H : Ascii.eqb c _ = false |- _ => rewrite H end;
    reflexivity.
Qed.

Lemma report_lines_split :
  split nl (formatted_response data units) = report_lines data units.
Proof.
  rewrite formatted_response_lines. apply split_join_lines; [discriminate|].
  destruct Hplain as [Htitle Hcond].
  apply free_of_spec in Htitle, Hcond.
  unfold report_lines. repeat constructor.
  - apply Htitle.
  - apply temperature_line_absent; reflexivity.
  - apply Hcond.
  - apply humidity_line_absent; reflexivity.
  - apply wind_line_absent; reflexivity.
  - apply pressure_line_absent; reflexivity.
  - apply visibility_line_absent; reflexivity.
Qed.

Lemma title_has_no (k : string) :
  In k all_labels -> contains k (title_line data) = false.
Proof. destruct Hplain as [Htitle _]. apply (free_of_spec _ _ Htitle). Qed.

Lemma conditions_has_no (k : string) :
  In k later_labels -> contains k (conditions_line data) = false.
Proof. destruct Hplain as [_ Hcond]. apply (free_of_spec _ _ Hcond). Qed.

Lemma get_temperature :
  get (report_lines data units) "Temperature:" = temperature_line data units.
Proof.
  unfold get, report_lines. cbn [find].
  rewrite title_has_no by (simpl; auto).
  replace (contains "Temperature:" (temperature_line data units)) with true;
    [reflexivity|].
  symmetry. unfold temperature_line. apply contains_append_l. reflexivity.
Qed.

Lemma get_conditions :
  get (report_lines data units) "Conditions:" = conditions_line data.
Proof.
  unfold get, report_lines. cbn [find].
  rewrite title_has_no by (simpl; auto).
  rewrite (contains_absent "o" "Conditions:" (temperature_line data units))
    by (reflexivity || apply temperature_line_absent; reflexivity).
  replace (contains "Conditions:" (conditions_line data)) with true;
    [reflexivity|].
  symmetry. unfold conditions_line. apply contains_append_l. reflexivity.
Qed.

Lemma get_humidity :
  get (report_lines data units) "Humidity:" = humidity_line data.
Proof.
  unfold get, report_lines. cbn [find].
  rewrite title_has_no by (simpl; auto).
  rewrite (contains_absent "H" "Humidity:" (temperature_line data units))
    by (reflexivity || apply temperature_line_absent; reflexivity).
  rewrite conditions_has_no by (simpl; auto).
  replace (contains "Humidity:" (humidity_line data)) with true;
    [reflexivity|].
  symmetry. unfold humidity_line. apply contains_append_l. reflexivity.
Qed.

Lemma get_wind :
  get (report_lines data units) "Wind Speed:" = wind_line data units.
Proof.
  unfold get, report_lines. cbn [find].
  rewrite title_has_no by (simpl; auto).
  rewrite (contains_absent "W" "Wind Speed:" (temperature_line data units))
    by (reflexivity || apply temperature_line_absent; reflexivity).
  rewrite conditions_has_no by (simpl; auto).
  rewrite (contains_absent "W" "Wind Speed:" (humidity_line data))
    by (reflexivity || apply humidity_line_absent; reflexivity).
  replace (contains "Wind Speed:" (wind_line data units)) with true;
    [reflexivity|].
  symmetry. unfold wind_line. apply contains_append_l. reflexivity.
Qed.

Lemma get_visibility :
  get (report_lines data units) "Visibility:" = visibility_line data.
Proof.
  unfold get, report_lines. cbn [find].
  rewrite title_has_no by (simpl; auto 6).
  rewrite (contains_absent "V" "Visibility:" (temperature_line data units))
    by (reflexivity || apply temperature_line_absent; reflexivity).
  rewrite conditions_has_no by (simpl; auto).
  rewrite (contains_absent "V" "Visibility:" (humidity_line data))
    by (reflexivity || apply humidity_line_absent; reflexivity).
  rewrite (contains_absent "V" "Visibility:" (wind_line data units))
    by (reflexivity || apply wind_line_absent; reflexivity).
  rewrite (contains_absent "V" "Visibility:" (pressure_line data))
    by (reflexivity || apply pressure_line_absent; reflexivity).
  replace (contains "Visibility:" (visibility_line data)) with true;
    [reflexivity|].
  symmetry. unfold visibility_line. apply contains_append_l. reflexivity.
Qed.

End ReportLines.

(** ** [float] on a number followed by the kelvin symbol *)






Lemma truthy_append_r (a b : string) : truthy b = true -> truthy (a ++ b) = true.
Proof. destruct a; [auto | reflexivity]. Qed.






(** ** Reading the fields off the report lines *)

Lemma strip_by_core_left (p : ascii -> bool) (a m : string) :
  all_chars p a = true ->
  starts_outside p m = true -> ends_outside p m = true ->
  strip_by p (a ++ m) = m.
Proof.
  intros Ha Hs He.
  pose proof (strip_by_core p a m EmptyString Ha eq_refl Hs He) as H.
  rewrite append_nil_r in H. exact H.
Qed.

Lemma numeral_outside_percent (c : ascii) :
  numeral_char c = true -> mem_char c "% " = false.
Proof.
  destruct c as [[|] [|] [|] [|] [|] [|] [|] [|]]; intros H;
    try reflexivity; discriminate H.
Qed.

Lemma numeral_parts (s : string) :
  numeral_text s = true -> truthy s = true /\ all_chars numeral_char s = true.
Proof. unfold numeral_text. intros H. apply andb_prop in H. exact H. Qed.

Lemma index_second {A : Type} (a b : A) (l : list A) :
  index (a :: b :: l) 1 = Return b.
Proof. reflexivity. Qed.

Lemma index_first {A : Type} (a : A) (l : list A) : index (a :: l) 0 = Return a.
Proof. reflexivity. Qed.

Section FieldParsing.

Variable data : weather_payload.
Variable units : string.
Hypothesis Htemp : numeral_text (str_num (wd_temp data)) = true.
Hypothesis Hfeels : numeral_text (str_num (wd_feels_like data)) = true.
Hypothesis Hwind : numeral_text (str_num (wd_wind_speed data)) = true.

Ltac absent_u :=
  let H := fresh "HU" in
  destruct (unit_symbol_cases units) as [H | [H | H]]; rewrite ?H;
  rewrite ?mem_char_append;
  rewrite ?(numeral_absent _ _ Htemp) by reflexivity;
  rewrite ?(numeral_absent _ _ Hfeels) by reflexivity;
  reflexivity.

Lemma symbol_ends_outside (p : ascii -> bool) :
  p "C"%char = false -> p "F"%char = false -> p "K"%char = false ->
  ends_outside p (unit_symbol units) = true.
Proof.
  intros HC HF HK. unfold ends_outside.
  destruct (unit_symbol_cases units) as [H | [H | H]]; rewrite H; cbn;
    rewrite ?HC, ?HF, ?HK; reflexivity.
Qed.

Lemma number_with_symbol_outside (p : ascii -> bool) (n : pynum) :
  numeral_text (str_num n) = true ->
  (forall c, numeral_char c = true -> p c = false) ->
  p "C"%char = false -> p "F"%char = false -> p "K"%char = false ->
  starts_outside p (str_num n ++ unit_symbol units) = true /\
  ends_outside p (str_num n ++ unit_symbol units) = true.
Proof.
  intros Hn Hp HC HF HK. destruct (numeral_parts _ Hn) as [Ht Hall]. split.
  - apply starts_outside_append.
    apply (class_starts_outside p numeral_char); assumption.
  - apply ends_outside_append, symbol_ends_outside; assumption.
Qed.

(** The temperature token that reaches [float]: the text between the label
    and the parenthesis, cut before the first degree sign. *)
Lemma parse_temp_line :
  parse_temp (temperature_line data units) =
    attempt (p3 <- index (split "°" (str_num (wd_temp data) ++ unit_symbol units)) 0 ;;
             t <- float p3 ;;
             Return (Some t))%py.
Proof.
  unfold parse_temp.
  replace (truthy (temperature_line data units)) with true
    by (symmetry; apply truthy_append_l; reflexivity).
  assert (Hshape : temperature_line data units =
            temperature_mark ++ "Temperature:" ++
            (" " ++ str_num (wd_temp data) ++ unit_symbol units ++
             " (feels like " ++ str_num (wd_feels_like data) ++
             unit_symbol units ++ ")")) by reflexivity.
  rewrite Hshape, split_first by reflexivity.
  rewrite split_absent by absent_u.
  rewrite index_second. cbn [bind].
  assert (Hparen : " " ++ str_num (wd_temp data) ++ unit_symbol units ++
                   " (feels like " ++ str_num (wd_feels_like data) ++
                   unit_symbol units ++ ")" =
                   (" " ++ (str_num (wd_temp data) ++ unit_symbol units) ++ " ") ++ "(" ++
                   ("feels like " ++ str_num (wd_feels_like data) ++
                    unit_symbol units ++ ")")) by reshape.
  rewrite Hparen, split_first by absent_u.
  rewrite index_first. cbn [bind]. unfold strip.
  destruct (number_with_symbol_outside isspace (wd_temp data) Htemp
              numeral_not_space eq_refl eq_refl eq_refl) as [Hs He].
  rewrite strip_by_core by (reflexivity || assumption).
  reflexivity.
Qed.

Lemma parse_feels_line :
  parse_feels (temperature_line data units) =
    attempt (p2 <- index (split "°" (str_num (wd_feels_like data) ++ unit_symbol units)) 0 ;;
             f <- float p2 ;;
             Return (Some f))%py.
Proof.
  unfold parse_feels.
  replace (truthy (temperature_line data units)) with true
    by (symmetry; apply truthy_append_l; reflexivity).
  assert (Hparen : temperature_line data units =
            (temperature_mark ++ "Temperature: " ++ str_num (wd_temp data) ++
             unit_symbol units ++ " ") ++ "(" ++
            ("feels like " ++ str_num (wd_feels_like data) ++
             unit_symbol units ++ ")"))
    by (unfold temperature_line, temperature_mark; reshape).
  replace (contains "(" (temperature_line data units)) with true
    by (symmetry; rewrite Hparen; apply contains_middle).
  cbn [andb].
  assert (Hshape : temperature_line data units =
            (temperature_mark ++ "Temperature: " ++ str_num (wd_temp data) ++
             unit_symbol units ++ " (") ++ "feels like" ++
            (" " ++ (str_num (wd_feels_like data) ++ unit_symbol units) ++ ")"))
    by (unfold temperature_line, temperature_mark; reshape).
  rewrite Hshape, split_first by absent_u.
  rewrite split_absent by absent_u.
  cbn [index_last last bind]. unfold rstrip_chars, strip.
  destruct (number_with_symbol_outside isspace (wd_feels_like data) Hfeels
              numeral_not_space eq_refl eq_refl eq_refl) as [Hs He].
  rewrite <- append_assoc, rstrip_by_pass by reflexivity.
  rewrite rstrip_by_stop.
  - rewrite strip_by_core_left by (reflexivity || assumption). reflexivity.
  - apply ends_outside_append, ends_outside_append, symbol_ends_outside;
      reflexivity.
Qed.

Lemma split_degree_symbol (n : pynum) (tail : string) :
  numeral_text (str_num n) = true ->
  split "°" (str_num n ++ "°" ++ tail)
    = str_num n :: split "°" tail.
Proof.
  intros Hn. apply split_first. apply (numeral_absent _ _ Hn). reflexivity.
Qed.


Lemma degree_symbol_shape :
  unit_symbol units = "°C" \/ unit_symbol units = "°F" ->
  exists tail, unit_symbol units = "°" ++ tail.
Proof. intros [-> | ->]; eexists; reflexivity. Qed.

Lemma parse_temp_degrees :
  unit_symbol units = "°C" \/ unit_symbol units = "°F" ->
  float (str_num (wd_temp data)) = Return (to_float (wd_temp data)) ->
  parse_temp (temperature_line data units) = Some (to_float (wd_temp data)).
Proof.
  intros HU Hfloat. rewrite parse_temp_line.
  destruct (degree_symbol_shape HU) as [tail ->].
  rewrite (split_degree_symbol _ _ Htemp), index_first. cbn [bind].
  rewrite Hfloat. reflexivity.
Qed.

Lemma parse_feels_degrees :
  unit_symbol units = "°C" \/ unit_symbol units = "°F" ->
  float (str_num (wd_feels_like data)) = Return (to_float (wd_feels_like data)) ->
  parse_feels (temperature_line data units)
    = Some (to_float (wd_feels_like data)).
Proof.
  intros HU Hfloat. rewrite parse_feels_line.
  destruct (degree_symbol_shape HU) as [tail ->].
  rewrite (split_degree_symbol _ _ Hfeels), index_first. cbn [bind].
  rewrite Hfloat. reflexivity.
Qed.


Lemma parse_hum_line :
  (String.length (str_int (wd_humidity data)) <= int_max_str_digits)%nat ->
  parse_hum (humidity_line data) = Some (wd_humidity data).
Proof.
  intros Hlen. unfold parse_hum.
  replace (truthy (humidity_line data)) with true
    by (symmetry; apply truthy_append_l; reflexivity).
  assert (Hshape : humidity_line data =
            humidity_label ++ ":" ++ (" " ++ str_int (wd_humidity data) ++ "%"))
    by reflexivity.
  rewrite Hshape, split_first by reflexivity.
  rewrite split_absent
    by (rewrite ?mem_char_append,
          (numeral_absent _ _ (str_int_numeral _)) by reflexivity;
        reflexivity).
  rewrite index_second. cbn [bind]. unfold strip_chars.
  destruct (numeral_parts _ (str_int_numeral (wd_humidity data))) as [Ht Hall].
  rewrite strip_by_core.
  - rewrite (int_of_str_int _ Hlen). reflexivity.
  - reflexivity.
  - reflexivity.
  - apply (class_starts_outside _ numeral_char);
      auto using numeral_outside_percent.
  - apply (class_ends_outside _ numeral_char);
      auto using numeral_outside_percent.
Qed.

Lemma parse_wind_line :
  float (str_num (wd_wind_speed data)) = Return (to_float (wd_wind_speed data)) ->
  parse_wind (wind_line data units) = Some (to_float (wd_wind_speed data)).
Proof.
  intros Hfloat. unfold parse_wind.
  replace (truthy (wind_line data units)) with true
    by (symmetry; apply truthy_append_l; reflexivity).
  assert (Hshape : wind_line data units =
            wind_label ++ ":" ++
            (" " ++ str_num (wd_wind_speed data) ++ " " ++ wind_unit units))
    by reflexivity.
  rewrite Hshape, split_first by reflexivity.
  rewrite split_absent
    by (destruct (wind_unit_cases units) as [HW | HW]; rewrite HW;
        rewrite ?mem_char_append, (numeral_absent _ _ Hwind) by reflexivity;
        reflexivity).
  rewrite index_second. cbn [bind].
  destruct (numeral_parts _ Hwind) as [Ht Hall].
  destruct (split_ws_first_word (str_num (wd_wind_speed data)) (wind_unit units) Ht)
    as [more ->].
  - eapply all_chars_weaken; [|exact Hall].
    intros c Hc. rewrite (numeral_not_space c Hc). reflexivity.
  - rewrite index_first. cbn [bind]. rewrite Hfloat. reflexivity.
Qed.

Lemma filter_chars_none (p : ascii -> bool) (s : string) :
  all_chars (fun c => negb (p c)) s = true -> filter_chars p s = EmptyString.
Proof.
  induction s as [|x s IH]; simpl; [reflexivity|].
  intros H. apply andb_prop in H. destruct H as [Hx Hs].
  apply negb_true_iff in Hx. rewrite Hx. apply IH. exact Hs.
Qed.

Lemma parse_vis_line :
  match wd_visibility data with
  | Some v => (0 <= v)%Z /\
              (String.length (str_int v) <= int_max_str_digits)%nat
  | None => True
  end ->
  parse_vis (visibility_line data) = wd_visibility data.
Proof.
  unfold visibility_line, visibility_text.
  destruct (wd_visibility data) as [v|]; [|intros _; vm_compute; reflexivity].
  intros [Hpos Hlen]. unfold parse_vis.
  rewrite truthy_append_l by reflexivity.
  destruct (str_int_digits v Hpos) as [Ht Hd].
  rewrite !filter_chars_append.
  rewrite (filter_chars_none isdigit) by reflexivity.
  rewrite (filter_chars_all isdigit _ Hd).
  rewrite (filter_chars_none isdigit) by reflexivity.
  cbn [append]. rewrite append_nil_r, (int_of_str_int v Hlen). reflexivity.
Qed.

Lemma parse_desc_line :
  parse_desc (conditions_line data)
    = Return (lower (strip (title (wd_description data)))).
Proof.
  unfold parse_desc.
  assert (Hshape : conditions_line data =
            conditions_label ++ ":" ++ (" " ++ title (wd_description data)))
    by reflexivity.
  rewrite Hshape, split_max_first by reflexivity.
  cbn [index_last last bind]. unfold strip, strip_by.
  rewrite lstrip_by_pass by reflexivity. reflexivity.
Qed.

End FieldParsing.

(** ** Round trip of the current-weather report *)

Lemma degree_units (units : string) :
  units = "metric" \/ units = "imperial" ->
  unit_symbol units = "°C" \/ unit_symbol units = "°F".
Proof. intros [-> | ->]; [left | right]; reflexivity. Qed.


(** The parser on a formatted report, field by field. *)
Lemma parse_formatted_report (data : weather_payload) (units : string) :
  plain_texts data ->
  numeral_text (str_num (wd_temp data)) = true ->
  numeral_text (str_num (wd_feels_like data)) = true ->
  numeral_text (str_num (wd_wind_speed data)) = true ->
  parse_report (formatted_response data units) =
    Return {| temp := parse_temp (temperature_line data units);
              feels := parse_feels (temperature_line data units);
              desc := lower (strip (title (wd_description data)));
              hum := parse_hum (humidity_line data);
              wind := parse_wind (wind_line data units);
              vis := parse_vis (visibility_line data) |}.
Proof.
  intros Hplain Ht Hf Hw. unfold parse_report.
  rewrite (report_lines_split data units Hplain Ht Hf Hw).
  rewrite (get_temperature data units Hplain).
  rewrite (get_conditions data units Hplain Ht Hf).
  rewrite (get_humidity data units Hplain Ht Hf).
  rewrite (get_wind data units Hplain Ht Hf).
  rewrite (get_visibility data units Hplain Ht Hf Hw).
  rewrite parse_desc_line. reflexivity.
Qed.

(** ** The tips: order, duplicates, wind *)

Lemma summary_position (d : string) : tip_position (tip_summary d) = 14.
Proof.
  unfold tip_position, is_summary, tip_summary.
  rewrite prefix_append. reflexivity.
Qed.

Lemma ordered_chain (lo mid hi : nat) (l1 l2 : list string) :
  StronglySorted before_tip l1 -> placed lo mid l1 ->
  StronglySorted before_tip l2 -> placed mid hi l2 ->
  (lo <= mid)%nat -> (mid <= hi)%nat ->
  StronglySorted before_tip (l1 ++ l2) /\ placed lo hi (l1 ++ l2).
Proof.
  intros Hs1 Hp1 Hs2 Hp2 Hlm Hmh. unfold placed in *.
  rewrite Forall_forall in Hp1, Hp2. split.
  - induction Hs1 as [|x l1 Hs1 IH Hx]; [exact Hs2|].
    cbn [app]. constructor.
    + apply IH. intros t Ht. apply Hp1. right. exact Ht.
    + apply Forall_app. split; [exact Hx|].
      apply Forall_forall. intros t Ht. unfold before_tip.
      specialize (Hp1 x (or_introl eq_refl)). specialize (Hp2 t Ht). lia.
  - apply Forall_forall. intros t Ht. apply in_app_or in Ht.
    destruct Ht as [Ht | Ht]; [specialize (Hp1 t Ht) | specialize (Hp2 t Ht)]; lia.
Qed.

Ltac group_ordered :=
  case_ifs; split;
  repeat first [ constructor
               | progress (unfold before_tip)
               | rewrite summary_position
               | (vm_compute; lia) ].

Lemma clothing_ordered (x : option spec_float) :
  StronglySorted before_tip (clothing_tips x) /\ placed 0 5 (clothing_tips x).
Proof. unfold clothing_tips, placed. destruct x; group_ordered. Qed.

Lemma feels_ordered (x y : option spec_float) :
  StronglySorted before_tip (feels_tips x y) /\ placed 5 7 (feels_tips x y).
Proof. unfold feels_tips, placed. destruct x, y; group_ordered. Qed.

Lemma precipitation_ordered (d : string) :
  StronglySorted before_tip (precipitation_tips d) /\
  placed 7 9 (precipitation_tips d).
Proof. unfold precipitation_tips, placed. group_ordered. Qed.

Lemma humidity_ordered (x : option Z) :
  StronglySorted before_tip (humidity_tips x) /\ placed 9 11 (humidity_tips x).
Proof. unfold humidity_tips, placed. destruct x; group_ordered. Qed.

Lemma wind_ordered (x : option spec_float) :
  StronglySorted before_tip (wind_tips x) /\ placed 11 13 (wind_tips x).
Proof. unfold wind_tips, placed. destruct x; cbn [app]; group_ordered. Qed.

Lemma visibility_ordered (x : option Z) :
  StronglySorted before_tip (visibility_tips x) /\
  placed 13 14 (visibility_tips x).
Proof. unfold visibility_tips, placed. destruct x; group_ordered. Qed.

Lemma summary_ordered (d : string) :
  StronglySorted before_tip (summary_tips d) /\ placed 14 15 (summary_tips d).
Proof.
  unfold summary_tips, placed. destruct (truthy d); split.
  - repeat constructor.
  - constructor; [rewrite summary_position; lia | constructor].
  - constructor.
  - constructor.
Qed.

Lemma tips_ordered (f : fields) : StronglySorted before_tip (tips_of f).
Proof.
  unfold tips_of.
  destruct (clothing_ordered (temp f)) as [S1 P1].
  destruct (feels_ordered (temp f) (feels f)) as [S2 P2].
  destruct (precipitation_ordered (desc f)) as [S3 P3].
  destruct (humidity_ordered (hum f)) as [S4 P4].
  destruct (wind_ordered (wind f)) as [S5 P5].
  destruct (visibility_ordered (vis f)) as [S6 P6].
  destruct (summary_ordered (desc f)) as [S7 P7].
  destruct (ordered_chain 13 14 15 _ _ S6 P6 S7 P7) as [S67 P67]; [lia | lia|].
  destruct (ordered_chain 11 13 15 _ _ S5 P5 S67 P67) as [S57 P57]; [lia | lia|].
  destruct (ordered_chain 9 11 15 _ _ S4 P4 S57 P57) as [S47 P47]; [lia | lia|].
  destruct (ordered_chain 7 9 15 _ _ S3 P3 S47 P47) as [S37 P37]; [lia | lia|].
  destruct (ordered_chain 5 7 15 _ _ S2 P2 S37 P37) as [S27 P27]; [lia | lia|].
  destruct (ordered_chain 0 5 15 _ _ S1 P1 S27 P27) as [S17 P17]; [lia | lia|].
  exact S17.
Qed.

Lemma ordered_nodup (l : list string) : StronglySorted before_tip l -> NoDup l.
Proof.
  induction 1 as [|x l Hs IH Hx]; constructor; [|exact IH].
  intros Hin. rewrite Forall_forall in Hx. specialize (Hx x Hin).
  unfold before_tip in Hx. lia.
Qed.

Lemma fromkeys_go_nodup (l : list string) :
  forall seen,
    NoDup l -> (forall x, In x l -> ~ In x seen) -> fromkeys_go seen l = l.
Proof.
  induction l as [|x l IH]; intros seen Hnd Hseen; [reflexivity|].
  inversion Hnd as [|? ? Hx Hl]; subst. cbn [fromkeys_go].
  destruct (existsb (String.eqb x) seen) eqn:Hex.
  - apply existsb_exists in Hex. destruct Hex as (y & Hy & Heq).
    apply String.eqb_eq in Heq. subst y.
    exfalso. apply (Hseen x); [left; reflexivity | exact Hy].
  - f_equal. apply IH; [exact Hl|].
    intros y Hy [<- | Hin]; [contradiction|].
    apply (Hseen y); [right; exact Hy | exact Hin].
Qed.

Lemma tips_count (f : fields) : (List.length (tips_of f) <= 8)%nat.
Proof.
  unfold tips_of, clothing_tips, feels_tips, precipitation_tips,
    humidity_tips, wind_tips, visibility_tips, summary_tips.
  rewrite !length_app.
  destruct (temp f), (feels f), (hum f), (wind f), (vis f);
    case_ifs; cbn [List.length app]; lia.
Qed.

(** X3: the rules never produce the same tip twice, so dropping duplicates
    changes nothing: the answer is the tips as derived, joined by line
    breaks, in the fixed order of the rules and at most eight of them. *)
Theorem tips_need_no_dedup (weather_data user_query : string) :
  exists f,
    parse_report weather_data = Return f /\
    fromkeys (tips_of f) = tips_of f /\
    _rule_based_analysis weather_data user_query
      = Return (join nl (tips_of f)) /\
    StronglySorted before_tip (tips_of f) /\
    (List.length (tips_of f) <= 8)%nat.
Proof.
  destruct (parse_report_total weather_data) as [f Hf]. exists f.
  assert (Hid : fromkeys (tips_of f) = tips_of f).
  { apply fromkeys_go_nodup; [apply ordered_nodup, tips_ordered | intros x _ []]. }
  split; [exact Hf|]. split; [exact Hid|].
  split; [unfold _rule_based_analysis; rewrite Hf; cbn [bind]; rewrite Hid; reflexivity|].
  split; [apply tips_ordered | apply tips_count].
Qed.

(** The order of binary64 against the two wind thresholds. *)
Lemma at_least_17_is_at_least_10 (w : spec_float) :
  fge w (of_Z 17) = true -> fge w (of_Z 10) = true.
Proof.
  unfold fge. 
  change (of_Z 17) with (S754_finite false 4785074604081152 (-48)).
  change (of_Z 10) with (S754_finite false 5629499534213120 (-49)).
  unfold SFleb, SFcompare.
  destruct w as [s | s | | s m e]; try (destruct s); try discriminate;
    try reflexivity.
  destruct (Z.compare_spec (-48) e) as [He | He | He];
    destruct (Z.compare_spec (-49) e) as [He' | He' | He'];
    try lia; try discriminate; reflexivity.
Qed.

(** X4: the strong-wind caution never appears alone: whenever it is among
    the tips, the breezy tip is there too, right before it. *)
Theorem strong_wind_comes_with_breezy (f : fields) :
  In tip_strong_wind (tips_of f) ->
  wind_tips (wind f) = [tip_breezy; tip_strong_wind] /\
  In tip_breezy (tips_of f).
Proof.
  intros Hin.
  assert (Hw : In tip_strong_wind (wind_tips (wind f))).
  { unfold tips_of in Hin.
    repeat (apply in_app_or in Hin; destruct Hin as [Hin | Hin]);
      try exact Hin; exfalso.
    - apply clothing_tips_texts, clothing_rule in Hin. discriminate Hin.
    - apply feels_tips_texts, feels_rule in Hin. discriminate Hin.
    - apply precipitation_tips_texts, precipitation_rule in Hin. discriminate Hin.
    - apply humidity_tips_texts, humidity_rule in Hin. discriminate Hin.
    - apply visibility_tips_texts, visibility_rule in Hin. discriminate Hin.
    - apply summary_tips_texts in Hin. discriminate Hin. }
  assert (Heq : wind_tips (wind f) = [tip_breezy; tip_strong_wind]).
  { unfold wind_tips in *. destruct (wind f) as [w|]; [|destruct Hw].
    destruct (fge w (of_Z 17)) eqn:H17.
    - rewrite (at_least_17_is_at_least_10 w H17). reflexivity.
    - rewrite app_nil_r in Hw. destruct (fge w (of_Z 10)); [|destruct Hw].
      destruct Hw as [Hw | []]. apply String.eqb_eq in Hw.
      vm_compute in Hw. discriminate Hw. }
  split; [exact Heq|].
  unfold tips_of. rewrite Heq.
  rewrite !in_app_iff. do 4 right. left. left. reflexivity.
Qed.

Lemma strong_wind_comes_with_breezy_witness :
  wind_tips (Some (of_Z 20)) = [tip_breezy; tip_strong_wind] /\
  In tip_breezy
     (tips_of {| temp := None; feels := None; desc := EmptyString; hum := None;
                 wind := Some (of_Z 20); vis := None |}).
Proof.
  apply (strong_wind_comes_with_breezy
           {| temp := None; feels := None; desc := EmptyString; hum := None;
              wind := Some (of_Z 20); vis := None |}).
  vm_compute. auto.
Defined.

(** ** Reports without the labels *)

Lemma split_piece_inside (s : string) :
  forall cur l,
    In l (split_go nl None 0 cur s) -> exists a b, rev_onto cur s = a ++ l ++ b.
Proof.
  induction s as [|c r IH]; intros cur l Hin.
  - cbn in Hin. destruct Hin as [<- | []].
    exists EmptyString, EmptyString. cbn [rev_onto append].
    rewrite append_nil_r. reflexivity.
  - cbn [split_go] in Hin. destruct (prefix nl (String c r)) eqn:Hp.
    + destruct Hin as [<- | Hin].
      * exists EmptyString, (String c r). rewrite rev_onto_append. reflexivity.
      * change (String.length nl - 1) with 0 in Hin. cbn [option_map] in Hin.
        apply IH in Hin. destruct Hin as (a & b & Hab). cbn [rev_onto] in Hab.
        exists (rev cur ++ String c a), b.
        rewrite rev_onto_append, Hab,
          (append_assoc (rev cur) (String c a) (l ++ b)). reflexivity.
    + apply IH in Hin. cbn [rev_onto]. exact Hin.
Qed.

Lemma line_inside (s l : string) :
  In l (split nl s) -> exists a b, s = a ++ l ++ b.
Proof. intros Hin. apply split_piece_inside in Hin. exact Hin. Qed.

Lemma get_absent (k s : string) :
  contains k s = false -> get (split nl s) k = EmptyString.
Proof.
  intros Hk. unfold get. destruct (find (contains k) (split nl s)) as [l|] eqn:Hf;
    [|reflexivity].
  apply find_some in Hf. destruct Hf as [Hin Hc].
  apply line_inside in Hin. destruct Hin as (a & b & ->).
  rewrite (contains_append_r k a _ (contains_append_l k l b Hc)) in Hk.
  discriminate Hk.
Qed.

(** X5: a text that contains none of the five labels gives no advice at all:
    no value is read from it, the description is empty and the answer is the
    empty string. The server's error texts are such texts. *)
Theorem unlabelled_report_gives_nothing (weather_data user_query : string) :
  (forall k, In k all_labels -> contains k weather_data = false) ->
  parse_report weather_data
    = Return {| temp := None; feels := None; desc := EmptyString;
                hum := None; wind := None; vis := None |} /\
  _rule_based_analysis weather_data user_query = Return EmptyString.
Proof.
  intros Hk.
  assert (Hp : parse_report weather_data
               = Return {| temp := None; feels := None; desc := EmptyString;
                           hum := None; wind := None; vis := None |}).
  { unfold parse_report.
    rewrite !get_absent by (apply Hk; cbn; tauto). reflexivity. }
  split; [exact Hp|].
  unfold _rule_based_analysis. rewrite Hp. reflexivity.
Qed.

Lemma unlabelled_report_gives_nothing_witness :
  parse_report "Error: OPENWEATHER_API_KEY environment variable not set"
    = Return {| temp := None; feels := None; desc := EmptyString;
                hum := None; wind := None; vis := None |} /\
  _rule_based_analysis "Error: OPENWEATHER_API_KEY environment variable not set"
                       "what should I wear?" = Return EmptyString.
Proof.
  apply (unlabelled_report_gives_nothing
           "Error: OPENWEATHER_API_KEY environment variable not set"
           "what should I wear?").
  intros k Hin. cbn [all_labels In] in Hin.
  repeat (destruct Hin as [<- | Hin]; [vm_compute; reflexivity|]).
  destruct Hin.
Defined.

(** ** The cascade *)

Lemma cascade_search
      (environ : string -> option string)
      (openai hf ollama : string -> string -> string -> string -> option string)
      (weather_data user_query : string) :
  analyze_weather_with_llm_async environ openai hf ollama weather_data user_query
  = match first_answer (tiers environ openai hf ollama weather_data user_query) with
    | Some a => Return a
    | None => _rule_based_analysis weather_data user_query
    end.
Proof.
  unfold analyze_weather_with_llm_async, tiers, openai_tier, hf_tier, ollama_tier,
    or_else.
  cbn [first_answer configured answer].
  repeat match goal with
         | |- context [if truthy ?s then _ else _] => destruct (truthy s)
         | |- context [match ?o with Some _ => _ | None => _ end] =>
             match type of o with option string => destruct o end
         end; reflexivity.
Qed.

(** X6: the cascade is a search through an ordered list: it returns the
    first non-empty answer among the configured providers, asked in the
    order OpenAI, Hugging Face, Ollama, and the rule-based analysis when
    there is none. *)
Theorem cascade_is_first_answer
        (environ : string -> option string)
        (openai hf ollama : string -> string -> string -> string -> option string)
        (weather_data user_query : string) :
  analyze_weather_with_llm_async environ openai hf ollama weather_data user_query
  = match first_answer (tiers environ openai hf ollama weather_data user_query) with
    | Some a => Return a
    | None => _rule_based_analysis weather_data user_query
    end.
Proof. apply cascade_search. Qed.

Lemma rules_total (weather_data user_query : string) :
  exists s, _rule_based_analysis weather_data user_query = Return s.
Proof.
  destruct (parse_report_total weather_data) as [f Hf].
  unfold _rule_based_analysis. rewrite Hf. cbn [bind]. eexists. reflexivity.
Qed.

(** X7: the analysis never fails. The cascade always returns a text, which
    is the rule-based analysis or a non-empty answer of one of the
    providers; the synchronous entry point returns the rule-based analysis
    when an event loop is running and the cascade's result otherwise, its
    handler for a failed cascade being dead code. *)
Theorem analysis_always_answers
        (environ : string -> option string)
        (openai hf ollama : string -> string -> string -> string -> option string)
        (weather_data user_query : string) :
  (exists s,
      analyze_weather_with_llm_async environ openai hf ollama
                                     weather_data user_query = Return s /\
      (_rule_based_analysis weather_data user_query = Return s \/
       truthy s = true /\
       exists t, In t (tiers environ openai hf ollama weather_data user_query) /\
                 configured t = true /\ answer t = Some s)) /\
  analyze_weather_with_llm environ openai hf ollama true weather_data user_query
    = _rule_based_analysis weather_data user_query /\
  analyze_weather_with_llm environ openai hf ollama false weather_data user_query
    = analyze_weather_with_llm_async environ openai hf ollama
                                     weather_data user_query.
Proof.
  assert (Hfirst : forall l a, first_answer l = Some a ->
            truthy a = true /\
            exists t, In t l /\ configured t = true /\ answer t = Some a).
  { induction l as [|t l IH]; intros a Ha; [discriminate Ha|].
    cbn [first_answer] in Ha.
    assert (Hrest : first_answer l = Some a ->
              truthy a = true /\
              exists t', In t' (t :: l) /\ configured t' = true /\ answer t' = Some a).
    { intros H. destruct (IH a H) as (Ht & t' & Hin & Hc & Hans).
      split; [exact Ht|]. exists t'. split; [right; exact Hin | split; assumption]. }
    destruct (configured t) eqn:Hc; [|exact (Hrest Ha)].
    destruct (answer t) as [b|] eqn:Hb; [|exact (Hrest Ha)].
    destruct (truthy b) eqn:Htb; [|exact (Hrest Ha)].
    injection Ha as <-. split; [exact Htb|].
    exists t. split; [left; reflexivity | split; assumption]. }
  assert (Hcascade : exists s,
      analyze_weather_with_llm_async environ openai hf ollama
                                     weather_data user_query = Return s /\
      (_rule_based_analysis weather_data user_query = Return s \/
       truthy s = true /\
       exists t, In t (tiers environ openai hf ollama weather_data user_query) /\
                 configured t = true /\ answer t = Some s)).
  { rewrite cascade_search.
    destruct (first_answer _) as [a|] eqn:Ha.
    - exists a. split; [reflexivity|]. right. exact (Hfirst _ _ Ha).
    - destruct (rules_total weather_data user_query) as [s Hs].
      exists s. split; [exact Hs | left; exact Hs]. }
  split; [exact Hcascade|]. split; [reflexivity|].
  unfold analyze_weather_with_llm. destruct Hcascade as (s & Hs & _).
  rewrite Hs. reflexivity.
Qed.

(** ** What stripping leaves *)

Lemma lstrip_by_split (p : ascii -> bool) (s : string) :
  exists a, s = a ++ lstrip_by p s /\ all_chars p a = true.
Proof.
  induction s as [|c r IH].
  - exists EmptyString. split; reflexivity.
  - cbn [lstrip_by]. destruct (p c) eqn:Hc.
    + destruct IH as (a & Ha & Hall). exists (String c a).
      cbn [append all_chars]. rewrite Hc, Hall, <- Ha. split; reflexivity.
    + exists EmptyString. split; reflexivity.
Qed.

Lemma lstrip_by_shape (p : ascii -> bool) (s : string) :
  lstrip_by p s = EmptyString \/ starts_outside p (lstrip_by p s) = true.
Proof.
  induction s as [|c r IH]; [left; reflexivity|].
  cbn [lstrip_by]. destruct (p c) eqn:Hc; [exact IH|].
  right. cbn [starts_outside]. rewrite Hc. reflexivity.
Qed.

Lemma rstrip_by_split (p : ascii -> bool) (s : string) :
  exists b, s = rstrip_by p s ++ b /\ all_chars p b = true.
Proof.
  destruct (lstrip_by_split p (rev s)) as (a & Ha & Hall).
  exists (rev a). split; [|rewrite all_chars_rev; exact Hall].
  unfold rstrip_by. rewrite <- rev_append, <- Ha, rev_involutive. reflexivity.
Qed.

Lemma rstrip_by_shape (p : ascii -> bool) (s : string) :
  rstrip_by p s = EmptyString \/ ends_outside p (rstrip_by p s) = true.
Proof.
  unfold rstrip_by, ends_outside.
  destruct (lstrip_by_shape p (rev s)) as [H | H].
  - left. rewrite H. reflexivity.
  - right. rewrite rev_involutive. exact H.
Qed.

Lemma rstrip_by_keeps_start (p : ascii -> bool) (s : string) :
  starts_outside p s = true -> starts_outside p (rstrip_by p s) = true.
Proof.
  intros Hs. destruct (rstrip_by_split p s) as (b & Hb & Hall).
  destruct (rstrip_by p s) as [|c r].
  - cbn [append] in Hb. subst b. destruct s as [|c r]; [discriminate Hs|].
    cbn [starts_outside] in Hs. cbn [all_chars] in Hall.
    destruct (p c); discriminate.
  - rewrite Hb in Hs. exact Hs.
Qed.

Lemma strip_by_shape (p : ascii -> bool) (s : string) :
  strip_by p s = EmptyString \/
  starts_outside p (strip_by p s) = true /\ ends_outside p (strip_by p s) = true.
Proof.
  unfold strip_by. destruct (lstrip_by_shape p s) as [H | H].
  - left. rewrite H. reflexivity.
  - pose proof (rstrip_by_keeps_start p _ H) as Hk.
    destruct (rstrip_by_shape p (lstrip_by p s)) as [He | He].
    + rewrite He in Hk. discriminate Hk.
    + right. split; assumption.
Qed.

Lemma strip_by_idempotent (p : ascii -> bool) (s : string) :
  strip_by p (strip_by p s) = strip_by p s.
Proof.
  destruct (strip_by_shape p s) as [H | [Hs He]].
  - rewrite H. reflexivity.
  - apply strip_by_plain; assumption.
Qed.

Lemma strip_by_split (p : ascii -> bool) (s : string) :
  exists a b, s = a ++ strip_by p s ++ b /\
              all_chars p a = true /\ all_chars p b = true.
Proof.
  destruct (lstrip_by_split p s) as (a & Ha & Halla).
  destruct (rstrip_by_split p (lstrip_by p s)) as (b & Hb & Hallb).
  exists a, b. split; [|split; assumption].
  unfold strip_by. rewrite <- Hb. exact Ha.
Qed.

Lemma strip_by_keeps_absent (p : ascii -> bool) (c : ascii) (s : string) :
  mem_char c s = false -> mem_char c (strip_by p s) = false.
Proof.
  intros Hc. destruct (strip_by_split p s) as (a & b & Hs & _ & _).
  rewrite Hs, !mem_char_append in Hc.
  apply Bool.orb_false_iff in Hc. destruct Hc as [_ Hc].
  apply Bool.orb_false_iff in Hc. exact (proj1 Hc).
Qed.

Lemma rstrip_by_idempotent (p : ascii -> bool) (s : string) :
  rstrip_by p (rstrip_by p s) = rstrip_by p s.
Proof.
  destruct (rstrip_by_shape p s) as [H | H].
  - rewrite H. reflexivity.
  - apply rstrip_by_stop. exact H.
Qed.

(** ** Stripping whitespace beyond ASCII *)

Lemma after_space_none (s : string) :
  after_space s = None -> s = EmptyString \/ starts_outside isspace s = true.
Proof.
  destruct s as [|b1 r1]; [left; reflexivity|].
  cbn [after_space starts_outside]. destruct (isspace b1); [discriminate|].
  right. reflexivity.
Qed.

Lemma before_space_none (t : string) :
  before_space t = None -> t = EmptyString \/ starts_outside isspace t = true.
Proof.
  destruct t as [|b1 r1]; [left; reflexivity|].
  cbn [before_space starts_outside]. destruct (isspace b1); [discriminate|].
  right. reflexivity.
Qed.

Lemma after_space_suffix (s r : string) :
  after_space s = Some r -> exists p, s = p ++ r /\ truthy p = true.
Proof.
  destruct s as [|b1 [|b2 [|b3 r3]]]; cbn [after_space]; try discriminate.
  - destruct (isspace b1); [|discriminate]. intros H. injection H as <-.
    exists (String b1 EmptyString). split; reflexivity.
  - destruct (isspace b1).
    + intros H. injection H as <-. exists (String b1 EmptyString). split; reflexivity.
    + destruct (space2 b1 b2); [|discriminate]. intros H. injection H as <-.
      exists (String b1 (String b2 EmptyString)). split; reflexivity.
  - destruct (isspace b1).
    + intros H. injection H as <-. exists (String b1 EmptyString). split; reflexivity.
    + destruct (space2 b1 b2).
      * intros H. injection H as <-.
        exists (String b1 (String b2 EmptyString)). split; reflexivity.
      * destruct (space3 b1 b2 b3); [|discriminate]. intros H. injection H as <-.
        exists (String b1 (String b2 (String b3 EmptyString))). split; reflexivity.
Qed.

Lemma before_space_suffix (t r : string) :
  before_space t = Some r -> exists p, t = p ++ r /\ truthy p = true.
Proof.
  destruct t as [|b1 [|b2 [|b3 r3]]]; cbn [before_space]; try discriminate.
  - destruct (isspace b1); [|discriminate]. intros H. injection H as <-.
    exists (String b1 EmptyString). split; reflexivity.
  - destruct (isspace b1).
    + intros H. injection H as <-. exists (String b1 EmptyString). split; reflexivity.
    + destruct (space2 b2 b1); [|discriminate]. intros H. injection H as <-.
      exists (String b1 (String b2 EmptyString)). split; reflexivity.
  - destruct (isspace b1).
    + intros H. injection H as <-. exists (String b1 EmptyString). split; reflexivity.
    + destruct (space2 b2 b1).
      * intros H. injection H as <-.
        exists (String b1 (String b2 EmptyString)). split; reflexivity.
      * destruct (space3 b3 b2 b1); [|discriminate]. intros H. injection H as <-.
        exists (String b1 (String b2 (String b3 EmptyString))). split; reflexivity.
Qed.

Lemma length_append (a b : string) :
  String.length (a ++ b) = (String.length a + String.length b)%nat.
Proof. induction a as [|c a IH]; [reflexivity|]. cbn. rewrite IH. reflexivity. Qed.

Section StripWith.

Variable step : string -> option string.
Hypothesis step_suffix :
  forall s r, step s = Some r -> exists p, s = p ++ r /\ truthy p = true.

Lemma strip_with_done :
  forall fuel s, (String.length s <= fuel)%nat -> step (strip_with step fuel s) = None.
Proof.
  induction fuel as [|fuel IH]; intros s Hlen; cbn [strip_with].
  - destruct (step s) as [r|] eqn:E; [|reflexivity].
    destruct (step_suffix s r E) as (p & -> & Hp). rewrite length_append in Hlen.
    destruct p; [discriminate Hp | cbn in Hlen; lia].
  - destruct (step s) as [r|] eqn:E; [|exact E].
    apply IH. destruct (step_suffix s r E) as (p & -> & Hp).
    rewrite length_append in Hlen. destruct p; [discriminate Hp | cbn in Hlen; lia].
Qed.

Lemma strip_with_suffix :
  forall fuel s, exists p, s = p ++ strip_with step fuel s.
Proof.
  induction fuel as [|fuel IH]; intros s; cbn [strip_with].
  - exists EmptyString. reflexivity.
  - destruct (step s) as [r|] eqn:E; [|exists EmptyString; reflexivity].
    destruct (step_suffix s r E) as (p & -> & _).
    destruct (IH r) as (q & Hq). exists (p ++ q).
    rewrite append_assoc, <- Hq. reflexivity.
Qed.

End StripWith.

(** What [ustrip] leaves has no whitespace of [isspace] at either end. *)
Lemma ustrip_clean (s : string) : truthy (ustrip s) = true -> clean (ustrip s).
Proof.
  unfold ustrip, urstrip.
  set (x := ulstrip s).
  set (t := strip_with before_space (String.length (rev x)) (rev x)).
  intros Htr. split; [exact Htr|].
  assert (Hx : after_space x = None).
  { unfold x, ulstrip. apply (strip_with_done after_space after_space_suffix). lia. }
  assert (Ht : before_space t = None).
  { unfold t. apply (strip_with_done before_space before_space_suffix). lia. }
  destruct (strip_with_suffix before_space before_space_suffix
              (String.length (rev x)) (rev x)) as (p & Hp).
  fold t in Hp.
  assert (Hxt : x = rev t ++ rev p).
  { rewrite <- (rev_involutive x), Hp, rev_append. reflexivity. }
  unfold strip. apply strip_by_plain.
  - destruct (rev t) as [|c r] eqn:Hr; [discriminate Htr|].
    destruct (after_space_none x Hx) as [Hempty | Hstart].
    + rewrite Hxt in Hempty. discriminate Hempty.
    + rewrite Hxt in Hstart. exact Hstart.
  - unfold ends_outside. rewrite rev_involutive.
    destruct (before_space_none t Ht) as [Hempty | Hstart]; [|exact Hstart].
    rewrite Hempty in Htr. discriminate Htr.
Qed.

(** ** The providers *)

Lemma text_answer_spec (msg : json) (s : string) :
  text_answer msg = Some s <->
  exists content, msg = JString content /\ truthy (ustrip content) = true /\
                  s = ustrip content.
Proof.
  split.
  - intros H. destruct msg; try discriminate H. cbn [text_answer] in H.
    destruct (truthy (ustrip s0)) eqn:Ht; [|discriminate H].
    injection H as <-. exists s0. auto.
  - intros (content & -> & Ht & ->). cbn [text_answer]. rewrite Ht. reflexivity.
Qed.

Lemma text_answer_clean (msg : json) (s : string) :
  text_answer msg = Some s -> clean s.
Proof.
  intros H. apply text_answer_spec in H. destruct H as (content & _ & Ht & ->).
  apply ustrip_clean. exact Ht.
Qed.

Lemma get_or_spec (v : json) (key : string) (default x : json) :
  get_or v key default = Some x <->
  exists members, v = JObject members /\
    x = match member key members with Some y => y | None => default end.
Proof.
  split.
  - intros H. destruct v; try discriminate H. cbn [get_or] in H.
    injection H as <-. eexists. split; reflexivity.
  - intros (members & -> & ->). reflexivity.
Qed.

Lemma content_of_message (message : json) (s : string) :
  (msg <-? get_or message "content" JNull ;; text_answer msg) = Some s <->
  exists fields content,
    message = JObject fields /\
    member "content" fields = Some (JString content) /\
    truthy (ustrip content) = true /\ s = ustrip content.
Proof.
  split.
  - intros H. destruct (get_or message "content" JNull) as [msg|] eqn:Hg;
      [|discriminate H].
    apply get_or_spec in Hg. destruct Hg as (fields & -> & Hmsg).
    apply text_answer_spec in H. destruct H as (content & -> & Ht & ->).
    exists fields, content. split; [reflexivity|]. split; [|auto].
    destruct (member "content" fields); [congruence | discriminate Hmsg].
  - intros (fields & content & -> & Hm & Ht & ->).
    cbn [get_or]. rewrite Hm. cbn [text_answer]. rewrite Ht. reflexivity.
Qed.

Lemma content_of_reply (data : json) (s : string) :
  (message <-? get_or data "message" (JObject []) ;;
   msg <-? get_or message "content" JNull ;; text_answer msg) = Some s <->
  exists members fields content,
    data = JObject members /\
    member "message" members = Some (JObject fields) /\
    member "content" fields = Some (JString content) /\
    truthy (ustrip content) = true /\ s = ustrip content.
Proof.
  split.
  - intros H. destruct (get_or data "message" (JObject [])) as [message|] eqn:Hg;
      [|discriminate H].
    apply get_or_spec in Hg. destruct Hg as (members & -> & Hmsg).
    apply content_of_message in H.
    destruct H as (fields & content & -> & Hm & Ht & ->).
    exists members, fields, content. split; [reflexivity|]. split; [|auto].
    destruct (member "message" members) as [y|]; [congruence|].
    injection Hmsg as ->. discriminate Hm.
  - intros (members & fields & content & -> & Hm & Hc & Ht & ->).
    cbn [get_or]. rewrite Hm.
    apply content_of_message. exists fields, content. auto.
Qed.

(** X8: the OpenAI provider answers exactly when the request returns with a
    status below 400 and a JSON object whose [choices] is an array that
    starts with an object whose [message] is an object whose [content] is a
    text with something other than blanks in it; the answer is that text
    stripped. Every other outcome gives [None]. *)
Theorem openai_answer_shape
        (http_post : string -> json -> list (string * string) -> option response)
        (api_key model weather_data user_query s : string) :
  _analyze_with_openai http_post api_key model weather_data user_query = Some s <->
  exists resp members first rest fields content,
    http_post openai_url (openai_payload model weather_data user_query)
              (auth_headers api_key) = Some resp /\
    (status_code resp < 400)%Z /\
    json_body resp = Some (JObject members) /\
    member "choices" members = Some (JArray (JObject first :: rest)) /\
    member "message" first = Some (JObject fields) /\
    member "content" fields = Some (JString content) /\
    truthy (ustrip content) = true /\ s = ustrip content.
Proof.
  unfold _analyze_with_openai. split.
  - intros H.
    destruct (http_post _ _ _) as [resp|]; [|discriminate H].
    destruct (400 <=? status_code resp)%Z eqn:Hs; [discriminate H|].
    apply Z.leb_gt in Hs.
    destruct (json_body resp) as [data|] eqn:Hb; [|discriminate H].
    destruct (get_or data "choices" (JArray [])) as [choices|] eqn:Hc;
      [|discriminate H].
    apply get_or_spec in Hc. destruct Hc as (members & -> & Hc).
    destruct (is_true choices) eqn:Ht; [|discriminate H]. cbn [negb] in H.
    destruct (item0 choices) as [first|] eqn:Hi; [|discriminate H].
    apply content_of_reply in H.
    destruct H as (fm & fields & content & -> & Hm & Hcont & Htr & ->).
    destruct choices as [| | | t | items | ms]; try discriminate Hi.
    + destruct t; discriminate Hi.
    + destruct items as [|x rest]; [discriminate Hi|]. injection Hi as ->.
      assert (Hch : member "choices" members = Some (JArray (JObject fm :: rest))).
      { destruct (member "choices" members); [congruence | discriminate Hc]. }
      exists resp, members, fm, rest, fields, content. auto 10.
  - intros (resp & members & first & rest & fields & content &
            -> & Hs & -> & Hc & Hm & Hcont & Ht & ->).
    apply Z.leb_gt in Hs. rewrite Hs. cbn [get_or]. rewrite Hc.
    cbn [is_true negb item0].
    apply content_of_reply. exists first, fields, content. auto.
Qed.

(** X9: the Hugging Face provider answers exactly when the request returns
    with a status below 400 and a JSON array that starts with an object
    whose [generated_text] is a text with something other than blanks in it;
    the answer is that text stripped. An error object, an empty array or any
    other outcome gives [None]. *)
Theorem hf_answer_shape
        (http_post : string -> json -> list (string * string) -> option response)
        (api_token model weather_data user_query s : string) :
  _analyze_with_hf http_post api_token model weather_data user_query = Some s <->
  exists resp first rest text,
    http_post (hf_url model) (hf_payload weather_data user_query)
              (auth_headers api_token) = Some resp /\
    (status_code resp < 400)%Z /\
    json_body resp = Some (JArray (JObject first :: rest)) /\
    member "generated_text" first = Some (JString text) /\
    truthy (ustrip text) = true /\ s = ustrip text.
Proof.
  unfold _analyze_with_hf. split.
  - intros H.
    destruct (http_post _ _ _) as [resp|]; [|discriminate H].
    destruct (400 <=? status_code resp)%Z eqn:Hs; [discriminate H|].
    apply Z.leb_gt in Hs.
    destruct (json_body resp) as [data|] eqn:Hb; [|discriminate H].
    destruct data as [| | | | items |]; try discriminate H.
    destruct items as [|x rest]; [discriminate H|]. cbn [item0] in H.
    destruct (get_or x "generated_text" JNull) as [gen|] eqn:Hg; [|discriminate H].
    apply get_or_spec in Hg. destruct Hg as (first & -> & Hg).
    apply text_answer_spec in H. destruct H as (text & -> & Ht & ->).
    assert (Hgen : member "generated_text" first = Some (JString text)).
    { destruct (member "generated_text" first); [congruence | discriminate Hg]. }
    exists resp, first, rest, text. auto 10.
  - intros (resp & first & rest & text & -> & Hs & -> & Hg & Ht & ->).
    apply Z.leb_gt in Hs. rewrite Hs. cbn [item0 get_or]. rewrite Hg.
    cbn [text_answer]. rewrite Ht. reflexivity.
Qed.

(** X10: the Ollama provider answers exactly when the health check returns
    (with whatever status), the chat request returns with a status that
    does not make [raise_for_status] raise, and the body is a JSON object
    whose [message] is an object whose [content] is a text with something
    other than blanks in it; the answer is that text stripped. When the
    health check fails the chat request has no influence. *)
Theorem ollama_answer_shape
        (http_get : string -> option response)
        (http_post : string -> json -> list (string * string) -> option response)
        (host model weather_data user_query s : string) :
  (_analyze_with_ollama http_get http_post host model weather_data user_query
     = Some s <->
   exists ping resp members fields content,
     http_get (host ++ "/api/tags") = Some ping /\
     http_post (host ++ "/api/chat") (ollama_payload model weather_data user_query) []
       = Some resp /\
     raises_for_status resp = false /\
     json_body resp = Some (JObject members) /\
     member "message" members = Some (JObject fields) /\
     member "content" fields = Some (JString content) /\
     truthy (ustrip content) = true /\ s = ustrip content).
Proof.
  unfold _analyze_with_ollama. split.
  - intros H.
    destruct (http_get _) as [ping|]; [|discriminate H].
    destruct (http_post _ _ _) as [resp|]; [|discriminate H].
    destruct (raises_for_status resp) eqn:Hr; [discriminate H|].
    destruct (json_body resp) as [data|] eqn:Hb; [|discriminate H].
    apply content_of_reply in H.
    destruct H as (members & fields & content & -> & Hm & Hc & Ht & ->).
    exists ping, resp, members, fields, content. auto 10.
  - intros (ping & resp & members & fields & content &
            Hg & Hp & Hr & Hb & Hm & Hc & Ht & ->).
    rewrite Hg, Hp, Hr, Hb.
    apply content_of_reply. exists members, fields, content. auto.
Qed.

(** X11: whatever the servers send, an answer of a provider is never empty
    and has no blank at either end, so the cascade's test of the answer
    never rejects what a provider returns. *)
Theorem provider_answers_are_clean
        (http_get : string -> option response)
        (http_post : string -> json -> list (string * string) -> option response)
        (credential model weather_data user_query s : string) :
  In (Some s)
     [_analyze_with_openai http_post credential model weather_data user_query;
      _analyze_with_hf http_post credential model weather_data user_query;
      _analyze_with_ollama http_get http_post credential model
                           weather_data user_query] ->
  clean s /\
  forall next, or_else (Some s) next = Return s.
Proof.
  intros Hin.
  assert (Hclean : clean s).
  { destruct Hin as [H | [H | [H | []]]].
    - unfold _analyze_with_openai in H.
      repeat match type of H with
             | match ?x with _ => _ end = Some _ =>
                 destruct x; try discriminate H
             | (if ?b then _ else _) = Some _ => destruct b; try discriminate H
             end;
        exact (text_answer_clean _ _ H).
    - unfold _analyze_with_hf in H.
      repeat match type of H with
             | match ?x with _ => _ end = Some _ =>
                 destruct x; try discriminate H
             | (if ?b then _ else _) = Some _ => destruct b; try discriminate H
             end;
        exact (text_answer_clean _ _ H).
    - unfold _analyze_with_ollama in H.
      repeat match type of H with
             | match ?x with _ => _ end = Some _ =>
                 destruct x; try discriminate H
             | (if ?b then _ else _) = Some _ => destruct b; try discriminate H
             end;
        exact (text_answer_clean _ _ H). }
  split; [exact Hclean|].
  intros next. unfold or_else. rewrite (proj1 Hclean). reflexivity.
Qed.

Lemma provider_answers_are_clean_witness :
  clean "Take a coat." /\
  forall next, or_else (Some "Take a coat.") next = Return "Take a coat.".
Proof.
  apply (provider_answers_are_clean
           (fun _ => Some (ok_response JNull))
           (fun _ _ _ => Some (ok_response openai_reply))
           "sk-test" "gpt-4o-mini" sample_report "q" "Take a coat.").
  left. vm_compute. reflexivity.
Defined.

(** ** The favourites *)

Lemma split_piece_free (c0 : ascii) (s : string) :
  forall cur l,
    mem_char c0 cur = false ->
    In l (split_go (String c0 EmptyString) None 0 cur s) ->
    mem_char c0 l = false.
Proof.
  induction s as [|c r IH]; intros cur l Hcur Hin.
  - cbn in Hin. destruct Hin as [<- | []].
    change (rev_onto cur EmptyString) with (rev cur).
    rewrite mem_char_rev. exact Hcur.
  - cbn [split_go] in Hin.
    destruct (prefix (String c0 EmptyString) (String c r)) eqn:Hp.
    + cbn [String.length Nat.sub option_map] in Hin.
      destruct Hin as [<- | Hin]; [rewrite mem_char_rev; exact Hcur|].
      apply (IH EmptyString l); [reflexivity | exact Hin].
    + apply (IH (String c cur) l); [|exact Hin].
      cbn [mem_char]. rewrite Hcur, Bool.orb_false_r.
      cbn [prefix] in Hp. destruct (ascii_dec c0 c) as [-> | Hne].
      * destruct r; discriminate Hp.
      * apply Ascii.eqb_neq. exact Hne.
Qed.

(** X12: a favourite read from the environment is never empty, has no
    blank at either end and contains no comma (so a name like the built-in
    [London, UK] cannot be configured); the list the chat works with, with
    the built-in names as fallback, is never empty and has no empty name. *)
Theorem favorites_are_clean (environ : string -> option string) (x : string) :
  In x (_get_favorite_locations environ) ->
  clean x /\ mem_char comma x = false /\
  In x (chat_favorites environ) /\
  forall y, In y (chat_favorites environ) -> truthy y = true.
Proof.
  assert (Hitems : forall y, In y (_get_favorite_locations environ) ->
                     clean y /\ mem_char comma y = false).
  { intros y Hy. unfold _get_favorite_locations in Hy.
    destruct (truthy (strip (getenv environ "FAVORITE_LOCATIONS" EmptyString)));
      [|destruct Hy].
    apply in_map_iff in Hy. destruct Hy as (item & <- & Hin).
    apply filter_In in Hin. destruct Hin as [Hin Ht].
    split; [split; [exact Ht | apply strip_by_idempotent]|].
    apply strip_by_keeps_absent.
    unfold split in Hin.
    eapply (split_piece_free comma); [|exact Hin]. reflexivity. }
  intros Hx. destruct (Hitems x Hx) as [Hc Hcomma].
  split; [exact Hc|]. split; [exact Hcomma|].
  unfold chat_favorites.
  destruct (_get_favorite_locations environ) as [|f fs] eqn:Hf; [destruct Hx|].
  split; [exact Hx|]. intros y Hy. apply (Hitems y Hy).
Qed.

Lemma favorites_are_clean_witness :
  clean "Oslo" /\ mem_char comma "Oslo" = false /\
  In "Oslo" (chat_favorites favorites_environ) /\
  forall y, In y (chat_favorites favorites_environ) -> truthy y = true.
Proof.
  apply (favorites_are_clean favorites_environ "Oslo").
  vm_compute. left. reflexivity.
Defined.

(** ** The menu *)

Lemma index_in {A : Type} (l : list A) (i : nat) (a : A) :
  index l i = Return a -> In a l.
Proof.
  unfold index. destruct (nth_error l i) eqn:Hn; [|discriminate].
  intros H. injection H as <-. eapply nth_error_In. exact Hn.
Qed.

Lemma index_within {A : Type} (l : list A) (i : nat) :
  (i < List.length l)%nat -> exists a, index l i = Return a /\ nth_error l i = Some a.
Proof.
  intros Hi. unfold index. destruct (nth_error l i) eqn:Hn.
  - eexists. split; reflexivity.
  - apply nth_error_None in Hn. lia.
Qed.

(** X13: the menu never hands back an empty location. With favourites that
    are not empty texts, a chosen location is one of the favourites or a
    typed text without blanks around it, and it is never empty: in the chat
    loop an empty result always means that the user said goodbye. *)
Theorem menu_choice_is_a_location
        (favorites inputs : list string) (location : string) :
  (forall f, In f favorites -> truthy f = true) ->
  _choose_location_from_menu favorites inputs = Chosen location ->
  truthy location = true /\ (In location favorites \/ clean location).
Proof.
  intros Hfav.
  assert (Hstep : forall n inputs, (List.length inputs <= n)%nat ->
            _choose_location_from_menu favorites inputs = Chosen location ->
            truthy location = true /\ (In location favorites \/ clean location)).
  { induction n as [|n IH]; intros ins Hlen H.
    - destruct ins; [discriminate H | cbn in Hlen; lia].
    - destruct ins as [|line rest]; [discriminate H|].
      cbn [List.length] in Hlen. cbn [_choose_location_from_menu] in H.
      destruct (in_words (lower (strip line)) ["quit"; "exit"; "bye"]);
        [discriminate H|].
      destruct (str_isdigit (strip line)).
      + destruct (int (strip line)) as [num|e]; [|discriminate H].
        destruct (num =? 0)%Z.
        * destruct rest as [|line2 rest2]; [discriminate H|].
          cbn [List.length] in Hlen.
          destruct (truthy (strip line2)) eqn:Ht.
          -- injection H as <-. split; [exact Ht|]. right.
             split; [exact Ht | apply strip_by_idempotent].
          -- apply (IH rest2); [lia | exact H].
        * destruct ((1 <=? num)%Z && (num <=? Z.of_nat (List.length favorites))%Z).
          -- destruct (index favorites (Z.to_nat (num - 1))) as [loc|e] eqn:Hi;
               [|discriminate H].
             injection H as <-. apply index_in in Hi.
             split; [apply Hfav; exact Hi | left; exact Hi].
          -- apply (IH rest); [lia | exact H].
      + destruct (truthy (strip line)) eqn:Ht.
        * injection H as <-. split; [exact Ht|]. right.
          split; [exact Ht | apply strip_by_idempotent].
        * apply (IH rest); [lia | exact H]. }
  intros H. exact (Hstep (List.length inputs) inputs (le_n _) H).
Qed.

Lemma menu_choice_is_a_location_witness :
  truthy "Tokyo, JP" = true /\
  (In "Tokyo, JP" default_favorites \/ clean "Tokyo, JP").
Proof.
  apply (menu_choice_is_a_location default_favorites
           [EmptyString; "9"; " 3 "] "Tokyo, JP").
  - intros f Hf. cbn in Hf.
    repeat (destruct Hf as [<- | Hf]; [reflexivity|]). destruct Hf.
  - vm_compute. reflexivity.
Defined.

Lemma int_of_digits (ds : string) :
  str_isdigit ds = true ->
  (String.length ds <= int_max_str_digits)%nat ->
  int ds = Return (digits_value ds).
Proof.
  unfold str_isdigit. intros H Hlen. apply andb_prop in H. destruct H as [Ht Hd].
  assert (Hnum : numeral_text ds = true).
  { unfold numeral_text. rewrite Ht. cbn [andb].
    eapply all_chars_weaken; [|exact Hd]. intros c Hc. apply digit_is_numeral, Hc. }
  unfold int. rewrite (proj1 (numeral_plain_for_strip _ Hnum)).
  rewrite (split_sign_digits ds Ht Hd).
  rewrite (drop_underscores_plain ds (numeral_no_underscore ds Hnum) zero eq_refl).
  rewrite (span_digits_whole ds Hd), Ht. cbn [truthy negb andb].
  destruct (Nat.leb_spec (String.length ds) int_max_str_digits); [reflexivity | lia].
Qed.

(** X14: typing the number shown next to a favourite selects that
    favourite: for [1 <= k <= len(favorites)] the line that is [str(k)],
    with or without blanks around it, makes the menu return the favourite
    at position [k - 1], whatever else would be typed afterwards. *)
Theorem menu_number_selects_favorite
        (favorites rest : list string) (k : Z) (before after : string) :
  (1 <= k <= Z.of_nat (List.length favorites))%Z ->
  (String.length (str_int k) <= int_max_str_digits)%nat ->
  all_chars isspace before = true -> all_chars isspace after = true ->
  exists location,
    nth_error favorites (Z.to_nat (k - 1)) = Some location /\
    _choose_location_from_menu favorites
      ((before ++ str_int k ++ after) :: rest) = Chosen location.
Proof.
  intros Hk Hlen Hb Ha.
  destruct (str_int_digits k ltac:(lia)) as [Ht Hd].
  assert (Hnum : numeral_text (str_int k) = true) by apply str_int_numeral.
  assert (Hstrip : strip (before ++ str_int k ++ after) = str_int k).
  { unfold strip. apply strip_by_core; [exact Hb | exact Ha | |].
    - apply (class_starts_outside _ numeral_char); auto using numeral_not_space.
      unfold numeral_text in Hnum. apply andb_prop in Hnum. apply Hnum.
    - apply (class_ends_outside _ numeral_char); auto using numeral_not_space.
      unfold numeral_text in Hnum. apply andb_prop in Hnum. apply Hnum. }
  destruct (index_within favorites (Z.to_nat (k - 1)) ltac:(lia)) as (loc & Hi & Hn).
  exists loc. split; [exact Hn|].
  cbn [_choose_location_from_menu]. rewrite Hstrip.
  rewrite (lower_digits _ Hd).
  assert (Hw : in_words (str_int k) ["quit"; "exit"; "bye"] = false).
  { destruct (str_int k) as [|c r]; [discriminate Ht|].
    cbn [all_chars] in Hd. apply andb_prop in Hd. destruct Hd as [Hc _].
    unfold in_words. cbn [existsb String.eqb].
    destruct (Ascii.eqb c "q") eqn:E1;
      [apply Ascii.eqb_eq in E1; subst c; discriminate Hc|].
    destruct (Ascii.eqb c "e") eqn:E2;
      [apply Ascii.eqb_eq in E2; subst c; discriminate Hc|].
    destruct (Ascii.eqb c "b") eqn:E3;
      [apply Ascii.eqb_eq in E3; subst c; discriminate Hc|].
    reflexivity. }
  rewrite Hw.
  assert (Hisd : str_isdigit (str_int k) = true).
  { unfold str_isdigit. rewrite Ht, Hd. reflexivity. }
  rewrite Hisd, (int_of_str_int k Hlen).
  destruct (Z.eqb_spec k 0) as [-> | _]; [lia|].
  destruct (Z.leb_spec 1 k); [|lia].
  destruct (Z.leb_spec k (Z.of_nat (List.length favorites))); [|lia].
  cbn [andb]. rewrite Hi. reflexivity.
Qed.

Lemma menu_number_selects_favorite_witness :
  exists location,
    nth_error default_favorites (Z.to_nat (2 - 1)) = Some location /\
    _choose_location_from_menu default_favorites
      ((" " ++ str_int 2 ++ "  ") :: ["quit"]) = Chosen location.
Proof.
  apply (menu_number_selects_favorite default_favorites ["quit"] 2 " " "  ").
  - cbn. lia.
  - apply Nat.leb_le. vm_compute. reflexivity.
  - reflexivity.
  - reflexivity.
Defined.

Lemma menu_error_origin
        (favorites inputs : list string) (e : pyexc) :
  _choose_location_from_menu favorites inputs = MenuError e ->
  exists line,
    In line inputs /\ str_isdigit (strip line) = true /\
    (int_max_str_digits < String.length (strip line))%nat /\
    int (strip line) = Raise e.
Proof.
  assert (Hstep : forall n inputs, (List.length inputs <= n)%nat ->
            _choose_location_from_menu favorites inputs = MenuError e ->
            exists line,
              In line inputs /\ str_isdigit (strip line) = true /\
              (int_max_str_digits < String.length (strip line))%nat /\
              int (strip line) = Raise e).
  { induction n as [|n IH]; intros ins Hlen H.
    - destruct ins; [discriminate H | cbn in Hlen; lia].
    - destruct ins as [|line rest]; [discriminate H|].
      cbn [List.length] in Hlen. cbn [_choose_location_from_menu] in H.
      assert (Hlater : forall later,
                (List.length later <= n)%nat ->
                (forall l, In l later -> In l (line :: rest)) ->
                _choose_location_from_menu favorites later = MenuError e ->
                exists l, In l (line :: rest) /\ str_isdigit (strip l) = true /\
                  (int_max_str_digits < String.length (strip l))%nat /\
                  int (strip l) = Raise e).
      { intros later Hl Hsub Hm. destruct (IH later Hl Hm) as (l & Hin & Hrest).
        exists l. split; [apply Hsub; exact Hin | exact Hrest]. }
      destruct (in_words (lower (strip line)) ["quit"; "exit"; "bye"]);
        [discriminate H|].
      destruct (str_isdigit (strip line)) eqn:Hd.
      + destruct (int (strip line)) as [num|e'] eqn:Hint.
        * destruct (num =? 0)%Z.
          -- destruct rest as [|line2 rest2]; [discriminate H|].
             cbn [List.length] in Hlen.
             destruct (truthy (strip line2)); [discriminate H|].
             apply (Hlater rest2); [lia | | exact H].
             intros l Hl. right. right. exact Hl.
          -- destruct ((1 <=? num)%Z && (num <=? Z.of_nat (List.length favorites))%Z)
               eqn:Hrange.
             ++ apply andb_prop in Hrange. destruct Hrange as [H1 H2].
                apply Z.leb_le in H1, H2.
                destruct (index_within favorites (Z.to_nat (num - 1)) ltac:(lia))
                  as (loc & Hi & _).
                rewrite Hi in H. discriminate H.
             ++ apply (Hlater rest); [lia | | exact H].
                intros l Hl. right. exact Hl.
        * injection H as <-. exists line. split; [left; reflexivity|].
          split; [exact Hd|]. split; [|exact Hint].
          destruct (Nat.le_gt_cases (String.length (strip line)) int_max_str_digits)
            as [Hle | Hgt]; [|exact Hgt].
          rewrite (int_of_digits _ Hd Hle) in Hint. discriminate Hint.
      + destruct (truthy (strip line)); [discriminate H|].
        apply (Hlater rest); [lia | | exact H].
        intros l Hl. right. exact Hl. }
  intros H. exact (Hstep (List.length inputs) inputs (le_n _) H).
Qed.

Lemma int_of_many_digits (ds : string) :
  str_isdigit ds = true ->
  (int_max_str_digits < String.length ds)%nat ->
  int ds = Raise (digits_error (String.length ds)).
Proof.
  unfold str_isdigit. intros H Hlen. apply andb_prop in H. destruct H as [Ht Hd].
  assert (Hnum : numeral_text ds = true).
  { unfold numeral_text. rewrite Ht. cbn [andb].
    eapply all_chars_weaken; [|exact Hd]. intros c Hc. apply digit_is_numeral, Hc. }
  unfold int. rewrite (proj1 (numeral_plain_for_strip _ Hnum)).
  rewrite (split_sign_digits ds Ht Hd).
  rewrite (drop_underscores_plain ds (numeral_no_underscore ds Hnum) zero eq_refl).
  rewrite (span_digits_whole ds Hd), Ht. cbn [truthy negb andb].
  destruct (Nat.leb_spec (String.length ds) int_max_str_digits); [lia | reflexivity].
Qed.

(** X15: for typed lines of ASCII characters, and apart from the [EOFError]
    that [input] raises when no line is left, the menu can only fail on a
    number of more than 4300 digits: an exception it ends with is the
    [ValueError] of [int] about the limit of 4300 digits, for a typed line
    whose stripped text consists of more than 4300 digits, and never an
    [IndexError] from the list of favourites. *)
Theorem menu_fails_only_on_huge_numbers
        (favorites inputs : list string) (e : pyexc) :
  Forall (fun line => ascii_text line = true) inputs ->
  _choose_location_from_menu favorites inputs = MenuError e ->
  exists line,
    In line inputs /\ str_isdigit (strip line) = true /\
    (int_max_str_digits < String.length (strip line))%nat /\
    e = digits_error (String.length (strip line)).
Proof.
  intros _ H.
  destruct (menu_error_origin favorites inputs e H) as (line & Hin & Hd & Hlen & Hint).
  exists line. split; [exact Hin|]. split; [exact Hd|]. split; [exact Hlen|].
  rewrite (int_of_many_digits _ Hd Hlen) in Hint. injection Hint as <-. reflexivity.
Qed.

Lemma menu_fails_only_on_huge_numbers_witness :
  exists line,
    In line [huge_number] /\ str_isdigit (strip line) = true /\
    (int_max_str_digits < String.length (strip line))%nat /\
    huge_number_error = digits_error (String.length (strip line)).
Proof.
  apply (menu_fails_only_on_huge_numbers default_favorites [huge_number]).
  - constructor; [vm_compute; reflexivity | constructor].
  - vm_compute. reflexivity.
Defined.

(** ** The location in a sentence *)

Lemma location_parts_split (words : list string) :
  exists after,
    words = (location_parts words ++ after)%list /\
    (forall p, In p (location_parts words) -> in_words (lower p) stop_words = false) /\
    (after = [] \/
     exists w rest, after = w :: rest /\ in_words (lower w) stop_words = true).
Proof.
  induction words as [|w rest IH].
  - exists []. split; [reflexivity|]. split; [intros p []|left; reflexivity].
  - cbn [location_parts]. destruct (in_words (lower w) stop_words) eqn:Hw.
    + exists (w :: rest). split; [reflexivity|]. split; [intros p []|].
      right. exists w, rest. split; [reflexivity | exact Hw].
    + destruct IH as (after & Heq & Hparts & Hafter). exists after.
      split; [cbn [app]; rewrite <- Heq; reflexivity|].
      split; [|exact Hafter].
      intros p [<- | Hp]; [exact Hw | apply Hparts; exact Hp].
Qed.

Lemma extract_location_words (text location : string) :
  _extract_location text = Some location ->
  exists before word parts after,
    split_ws text = (before ++ word :: parts ++ after)%list /\
    in_words (lower word) prepositions = true /\
    parts <> [] /\
    (forall p, In p parts -> in_words (lower p) stop_words = false) /\
    (after = [] \/
     exists w rest, after = w :: rest /\ in_words (lower w) stop_words = true) /\
    location = rstrip_chars "?.,!" (join " " parts) /\
    (location = EmptyString \/ ends_outside closing_mark location = true).
Proof.
  unfold _extract_location. generalize (split_ws text). intros words.
  induction words as [|word rest IH]; intros H; [discriminate H|].
  assert (Hlater : scan_words rest = Some location ->
            exists before word' parts after,
              word :: rest = (before ++ word' :: parts ++ after)%list /\
              in_words (lower word') prepositions = true /\
              parts <> [] /\
              (forall p, In p parts -> in_words (lower p) stop_words = false) /\
              (after = [] \/
               exists w rest', after = w :: rest' /\
                               in_words (lower w) stop_words = true) /\
              location = rstrip_chars "?.,!" (join " " parts) /\
              (location = EmptyString \/ ends_outside closing_mark location = true)).
  { intros Hs. destruct (IH Hs) as (before & word' & parts & after & Heq & Hrest).
    exists (word :: before), word', parts, after.
    split; [cbn [app]; rewrite Heq; reflexivity | exact Hrest]. }
  cbn [scan_words] in H.
  destruct (in_words (lower word) prepositions) eqn:Hw; [|exact (Hlater H)].
  destruct rest as [|r0 rest']; [discriminate H|]. cbn [andb] in H.
  destruct (location_parts_split (r0 :: rest')) as (after & Heq & Hparts & Hafter).
  destruct (location_parts (r0 :: rest')) as [|p0 ps] eqn:Hlp; [exact (Hlater H)|].
  injection H as <-.
  exists [], word, (p0 :: ps), after.
  split; [cbn [app]; rewrite Heq; reflexivity|].
  split; [exact Hw|]. split; [discriminate|]. split; [exact Hparts|].
  split; [exact Hafter|]. split; [reflexivity|].
  apply rstrip_by_shape.
Qed.

(** X16: in a sentence of ASCII characters, a location that is found is
    made of the words that follow one of the words in, for, at (in any
    case) up to the next of the words weather, forecast, temperature,
    joined by single blanks, with the closing marks [?.,!] removed from its
    end: it does not end in one of them, and it can be the empty text. *)
Theorem extract_location_shape (text location : string) :
  ascii_text text = true ->
  _extract_location text = Some location ->
  exists before word parts after,
    split_ws text = (before ++ word :: parts ++ after)%list /\
    in_words (lower word) prepositions = true /\
    parts <> [] /\
    (forall p, In p parts -> in_words (lower p) stop_words = false) /\
    (after = [] \/
     exists w rest, after = w :: rest /\ in_words (lower w) stop_words = true) /\
    location = rstrip_chars "?.,!" (join " " parts) /\
    (location = EmptyString \/ ends_outside closing_mark location = true).
Proof. intros _. apply extract_location_words. Qed.

Lemma extract_location_shape_witness :
  exists before word parts after,
    split_ws "Will it rain in New York today?"
      = (before ++ word :: parts ++ after)%list /\
    in_words (lower word) prepositions = true /\
    parts <> [] /\
    (forall p, In p parts -> in_words (lower p) stop_words = false) /\
    (after = [] \/
     exists w rest, after = w :: rest /\ in_words (lower w) stop_words = true) /\
    "New York today" = rstrip_chars "?.,!" (join " " parts) /\
    ("New York today" = EmptyString \/
     ends_outside closing_mark "New York today" = true).
Proof.
  apply (extract_location_shape "Will it rain in New York today?" "New York today").
  - reflexivity.
  - vm_compute. reflexivity.
Defined.

(** ** The favourites, from the pieces of the variable *)

Lemma lstrip_by_all (p : ascii -> bool) (b : string) :
  all_chars p b = true -> lstrip_by p b = EmptyString.
Proof.
  induction b as [|c r IH]; [reflexivity|]. cbn [all_chars lstrip_by].
  intros H. apply andb_prop in H. destruct H as [Hc Hr]. rewrite Hc. exact (IH Hr).
Qed.

Lemma strip_by_pass_l (p : ascii -> bool) (a s : string) :
  all_chars p a = true -> strip_by p (a ++ s) = strip_by p s.
Proof. intros Ha. unfold strip_by. rewrite (lstrip_by_pass p a s Ha). reflexivity. Qed.

Lemma strip_by_pass_r (p : ascii -> bool) (s b : string) :
  all_chars p b = true -> strip_by p (s ++ b) = strip_by p s.
Proof.
  intros Hb. unfold strip_by. induction s as [|c r IH].
  - cbn [append]. rewrite (lstrip_by_all p b Hb). reflexivity.
  - cbn [append lstrip_by]. destruct (p c); [exact IH|].
    change (String c (r ++ b)) with (String c r ++ b).
    apply rstrip_by_pass. exact Hb.
Qed.

Lemma class_without (p : ascii -> bool) (c0 : ascii) (a : string) :
  p c0 = false -> all_chars p a = true -> mem_char c0 a = false.
Proof.
  intros Hc0. induction a as [|c r IH]; [reflexivity|].
  cbn [all_chars mem_char]. intros H. apply andb_prop in H. destruct H as [Hc Hr].
  rewrite (IH Hr), Bool.orb_false_r. apply Ascii.eqb_neq. intros ->. congruence.
Qed.

Lemma split_go_from (c0 : ascii) (s : string) :
  forall cur, exists h t,
    split_go (String c0 EmptyString) None 0 EmptyString s = h :: t /\
    split_go (String c0 EmptyString) None 0 cur s = (rev cur ++ h) :: t.
Proof.
  induction s as [|c r IH]; intros cur.
  - exists EmptyString, []. cbn. rewrite append_nil_r. split; reflexivity.
  - cbn [split_go]. destruct (prefix (String c0 EmptyString) (String c r)).
    + eexists EmptyString, _. rewrite append_nil_r. split; reflexivity.
    + destruct (IH (String c EmptyString)) as (h & t & H0 & H1).
      destruct (IH (String c cur)) as (h' & t' & H0' & H2).
      rewrite H0 in H0'. injection H0' as <- <-.
      exists (String c h), t. rewrite H1, H2. split; [reflexivity|].
      rewrite rev_cons, append_assoc. reflexivity.
Qed.

Lemma pieces_pass_l (p : ascii -> bool) (c0 : ascii) (a s : string) :
  p c0 = false -> all_chars p a = true ->
  map (strip_by p) (split (String c0 EmptyString) (a ++ s))
  = map (strip_by p) (split (String c0 EmptyString) s).
Proof.
  intros Hc0 Ha. unfold split.
  rewrite (split_go_pass c0 EmptyString None a ltac:(discriminate)
             (class_without p c0 a Hc0 Ha)).
  destruct (split_go_from c0 s (rev_onto a EmptyString)) as (h & t & H0 & H1).
  rewrite H0, H1. cbn [map]. f_equal.
  change (rev_onto a EmptyString) with (rev a). rewrite rev_involutive.
  apply strip_by_pass_l. exact Ha.
Qed.

Lemma pieces_pass_r (p : ascii -> bool) (c0 : ascii) (b : string) :
  p c0 = false -> all_chars p b = true ->
  forall s cur,
    map (strip_by p) (split_go (String c0 EmptyString) None 0 cur (s ++ b))
    = map (strip_by p) (split_go (String c0 EmptyString) None 0 cur s).
Proof.
  intros Hc0 Hb. induction s as [|c r IH]; intros cur.
  - cbn [append]. rewrite <- (append_nil_r b) at 1.
    rewrite (split_go_pass c0 EmptyString None b ltac:(discriminate)
               (class_without p c0 b Hc0 Hb)).
    cbn [split_go map]. f_equal.
    change (rev_onto (rev_onto b cur) EmptyString) with (rev (rev_onto b cur)).
    rewrite rev_onto_append, rev_append, rev_involutive.
    apply strip_by_pass_r. exact Hb.
  - cbn [append split_go]. rewrite !prefix_cons, !prefix_nil.
    destruct (Ascii.eqb c0 c); cbn [andb].
    + cbn [map]. f_equal. apply IH.
    + apply IH.
Qed.

Lemma pieces_of_stripped (p : ascii -> bool) (c0 : ascii) (s : string) :
  p c0 = false ->
  map (strip_by p) (split (String c0 EmptyString) (strip_by p s))
  = map (strip_by p) (split (String c0 EmptyString) s).
Proof.
  intros Hc0. destruct (strip_by_split p s) as (a & b & Hs & Ha & Hb).
  rewrite Hs at 2.
  rewrite (pieces_pass_l p c0 a _ Hc0 Ha). unfold split.
  rewrite (pieces_pass_r p c0 b Hc0 Hb). reflexivity.
Qed.

Lemma filter_after_strip (l : list string) :
  map strip (filter (fun item => truthy (strip item)) l)
  = filter truthy (map strip l).
Proof.
  induction l as [|x l IH]; [reflexivity|]. cbn [filter map].
  destruct (truthy (strip x)); cbn [map]; rewrite IH; reflexivity.
Qed.

Lemma split_join_commas (pieces : list string) :
  pieces <> [] ->
  Forall (fun x => mem_char comma x = false) pieces ->
  split "," (join "," pieces) = pieces.
Proof.
  induction pieces as [|x rest IH]; [congruence|].
  intros _ Hall. inversion Hall as [|? ? Hx Hrest]; subst.
  destruct rest as [|y rest'].
  - cbn [join]. apply (split_absent comma EmptyString). exact Hx.
  - change (join "," (x :: y :: rest')) with (x ++ "," ++ join "," (y :: rest')).
    rewrite (split_first comma EmptyString x _ Hx). f_equal.
    apply IH; [discriminate | exact Hrest].
Qed.

Lemma favorites_unconditional (environ : string -> option string) :
  _get_favorite_locations environ
  = filter truthy
      (map strip (split "," (getenv environ "FAVORITE_LOCATIONS" EmptyString))).
Proof.
  unfold _get_favorite_locations.
  set (raw := getenv environ "FAVORITE_LOCATIONS" EmptyString).
  rewrite filter_after_strip.
  pose proof (pieces_of_stripped isspace comma raw eq_refl) as Hp.
  unfold comma in Hp. change strip with (strip_by isspace).
  destruct (truthy (strip_by isspace raw)) eqn:Ht.
  - rewrite Hp. reflexivity.
  - rewrite <- Hp.
    destruct (strip_by isspace raw); [reflexivity | discriminate Ht].
Qed.

Lemma favorites_of_pieces
        (environ : string -> option string) (pieces : list string) :
  pieces <> [] ->
  Forall (fun x => mem_char comma x = false) pieces ->
  environ "FAVORITE_LOCATIONS" = Some (join "," pieces) ->
  _get_favorite_locations environ = filter truthy (map strip pieces) /\
  ((forall x, In x pieces -> clean x) -> _get_favorite_locations environ = pieces).
Proof.
  intros Hne Hfree Henv.
  assert (Hfav : _get_favorite_locations environ = filter truthy (map strip pieces)).
  { rewrite favorites_unconditional. unfold getenv. rewrite Henv.
    rewrite (split_join_commas pieces Hne Hfree). reflexivity. }
  split; [exact Hfav|].
  intros Hclean. rewrite Hfav. clear Hfav Henv Hne Hfree.
  induction pieces as [|x rest IH]; [reflexivity|].
  cbn [map filter]. destruct (Hclean x (or_introl eq_refl)) as [Ht Hs].
  rewrite Hs, Ht. f_equal. apply IH. intros y Hy. apply Hclean. right. exact Hy.
Qed.

(** X17: when the value of FAVORITE_LOCATIONS is made of ASCII
    characters, the favourites are its comma-separated pieces with the
    blanks around each piece removed and the pieces that are blank dropped,
    in their order; stripping the whole value first and testing it for
    emptiness change nothing. In particular names that are not empty, have
    no blanks around them and no comma are read back as they were
    written. *)
Theorem favorites_from_pieces
        (environ : string -> option string) (pieces : list string) :
  pieces <> [] ->
  Forall (fun x => mem_char comma x = false) pieces ->
  Forall (fun x => ascii_text x = true) pieces ->
  environ "FAVORITE_LOCATIONS" = Some (join "," pieces) ->
  _get_favorite_locations environ = filter truthy (map strip pieces) /\
  ((forall x, In x pieces -> clean x) -> _get_favorite_locations environ = pieces).
Proof. intros Hne Hfree _ Henv. exact (favorites_of_pieces environ pieces Hne Hfree Henv). Qed.

Lemma favorites_from_pieces_witness :
  _get_favorite_locations favorites_environ
    = filter truthy (map strip [" Oslo "; " Lima"; EmptyString; " "]) /\
  ((forall x, In x [" Oslo "; " Lima"; EmptyString; " "] -> clean x) ->
   _get_favorite_locations favorites_environ = [" Oslo "; " Lima"; EmptyString; " "]).
Proof.
  apply (favorites_from_pieces favorites_environ
           [" Oslo "; " Lima"; EmptyString; " "]).
  - discriminate.
  - repeat constructor.
  - repeat constructor.
  - reflexivity.
Defined.

(** ** From the upstream payload to the advice *)

Lemma fromkeys_tips (f : fields) : fromkeys (tips_of f) = tips_of f.
Proof.
  apply fromkeys_go_nodup; [apply ordered_nodup, tips_ordered | intros x _ []].
Qed.

(** X18: a connected client returns the text of the server's handler: when
    the session delivers what the handlers return, [get_weather] and
    [get_forecast] return exactly the one text of [_get_current_weather] and
    [_get_weather_forecast] for the location and units, and never their own
    placeholder for an empty result. *)
Theorem client_returns_handler_text
        (call_tool : string -> dict string -> call_outcome)
        (api_key : option string)
        (gw : string -> dict (option string) -> http_outcome weather_payload)
        (gf : string -> dict (option string) -> http_outcome forecast_payload)
        (location units : string) :
  delivers call_tool api_key gw gf ->
  (exists t,
      _get_current_weather api_key gw (tool_arguments location units)
        = text_content t /\
      get_weather (Some call_tool) location units = Text t) /\
  (exists t,
      _get_weather_forecast api_key gf (tool_arguments location units)
        = text_content t /\
      get_forecast (Some call_tool) location units = Text t).
Proof.
  intros Hd.
  destruct (known_tools_return_content api_key gw gf (tool_arguments location units))
    as [[tw Hw] [tf Hf]].
  split.
  - exists tw. pose proof (Hd _ _ _ Hw) as Hcall.
    unfold handle_call_tool in Hw. cbn [String.eqb Ascii.eqb Bool.eqb] in Hw.
    injection Hw as Hw. split; [exact Hw|].
    unfold get_weather. rewrite Hcall. reflexivity.
  - exists tf. pose proof (Hd _ _ _ Hf) as Hcall.
    unfold handle_call_tool in Hf. cbn [String.eqb Ascii.eqb Bool.eqb] in Hf.
    injection Hf as Hf. split; [exact Hf|].
    unfold get_forecast. rewrite Hcall. reflexivity.
Qed.

Lemma in_process_delivers
      (api_key : option string)
      (gw : string -> dict (option string) -> http_outcome weather_payload)
      (gf : string -> dict (option string) -> http_outcome forecast_payload) :
  delivers (in_process api_key gw gf) api_key gw gf.
Proof. intros name arguments content H. unfold in_process. rewrite H. reflexivity. Qed.

Lemma client_returns_handler_text_witness :
  (exists t,
      _get_current_weather (Some "k") (one_place sample_weather)
                           (tool_arguments "Oslo" "metric") = text_content t /\
      get_weather (Some (in_process (Some "k") (one_place sample_weather)
                                    (one_place week_forecast)))
                  "Oslo" "metric" = Text t) /\
  (exists t,
      _get_weather_forecast (Some "k") (one_place week_forecast)
                            (tool_arguments "Oslo" "metric") = text_content t /\
      get_forecast (Some (in_process (Some "k") (one_place sample_weather)
                                     (one_place week_forecast)))
                   "Oslo" "metric" = Text t).
Proof.
  apply (client_returns_handler_text
           (in_process (Some "k") (one_place sample_weather) (one_place week_forecast))
           (Some "k") (one_place sample_weather) (one_place week_forecast)
           "Oslo" "metric").
  apply in_process_delivers.
Defined.

(** ** The forecast in general *)

Lemma forecast_text_general (data : forecast_payload) (units : string) :
  exists days later,
    forecast_text data units
      = Return (forecast_title data ++ day_lines (unit_symbol units) days) /\
    List.length days = Nat.min 5 (List.length (distinct_dates (items_of data))) /\
    Permutation (map fst days ++ later) (distinct_dates (items_of data)) /\
    StronglySorted str_lt (map fst days ++ later) /\
    Forall (fun day => represents (items_of data) (fst day) (snd day)) days.
Proof.
  unfold items_of. destruct (fc_list data) as [items|] eqn:Hlist.
  - exact (forecast_text_spec data units items Hlist).
  - exists [], []. unfold forecast_text. rewrite Hlist. cbn.
    rewrite append_nil_r.
    split; [reflexivity|]. split; [reflexivity|]. split; [constructor|].
    split; constructor.
Qed.

(** ** The grouping by date *)

Lemma setdefault_append_concat (k : string) (e : forecast_item)
      (d : dict (list forecast_item)) :
  Permutation (concat (map snd (setdefault_append k e d)))
              (concat (map snd d) ++ [e]).
Proof.
  induction d as [|[k0 v0] r IH]; [reflexivity|].
  cbn [setdefault_append]. destruct (String.eqb k0 k).
  - cbn [map snd concat]. rewrite <- !app_assoc.
    apply Permutation_app_head. apply Permutation_app_comm.
  - cbn [map snd concat]. rewrite <- app_assoc.
    apply Permutation_app_head. exact IH.
Qed.

Lemma group_by_date_concat (items : list forecast_item) :
  forall d d',
    group_by_date items d = Return d' ->
    Permutation (concat (map snd d')) (concat (map snd d) ++ items).
Proof.
  induction items as [|e rest IH]; intros d d' H.
  - cbn in H. injection H as <-. rewrite app_nil_r. reflexivity.
  - cbn [group_by_date] in H. rewrite date_of_total in H. cbn [bind] in H.
    rewrite (IH _ _ H), (setdefault_append_concat (date_str e) e d).
    rewrite <- app_assoc. reflexivity.
Qed.

Lemma in_dict_get {V : Type} (d : dict V) (k : string) (v : V) :
  NoDup (map fst d) -> In (k, v) d -> dict_get d k = Some v.
Proof.
  induction d as [|[k0 v0] r IH]; intros Hnd Hin; [destruct Hin|].
  cbn [map fst] in Hnd. inversion Hnd as [|? ? Hk0 Hr]; subst.
  cbn [dict_get]. destruct Hin as [Heq | Hin].
  - injection Heq as -> ->. rewrite String.eqb_refl. reflexivity.
  - destruct (String.eqb_spec k0 k) as [-> | _].
    + exfalso. apply Hk0. apply (in_map fst) in Hin. exact Hin.
    + exact (IH Hr Hin).
Qed.

(** X21: for entries whose [dt_txt] is a text when it is present (the
    record type of the model; an entry whose [dt_txt] is null is outside
    it), grouping the entries of a forecast by date does not fail and files
    every entry exactly once under its own date: the dates are distinct, the
    group of a date holds exactly the entries of that date in the order of
    the payload and is not empty, so the choice of a representative
    succeeds on every group with one of its entries, and all groups together
    are a rearrangement of the payload's entries. *)
Theorem grouping_files_every_entry (items : list forecast_item) :
  exists by_date,
    group_by_date items [] = Return by_date /\
    NoDup (map fst by_date) /\
    (forall date entries,
        In (date, entries) by_date ->
        entries = entries_of date items /\ entries <> [] /\
        exists r, pick_representative entries = Return r /\ In r entries) /\
    Permutation (concat (map snd by_date)) items.
Proof.
  destruct (group_by_date_grouped items [] [] grouped_nil) as (d & Hrun & Hg).
  cbn [app] in Hg. exists d. split; [exact Hrun|].
  split; [exact (proj1 Hg)|]. split.
  - intros date entries Hin.
    pose proof (in_dict_get d date entries (proj1 Hg) Hin) as Hget.
    rewrite (proj2 Hg date) in Hget. unfold nonempty in Hget.
    destruct (entries_of date items) as [|e0 es] eqn:He; [discriminate Hget|].
    injection Hget as <-. split; [reflexivity|]. split; [discriminate|].
    destruct (pick_representative_spec (e0 :: es) ltac:(discriminate))
      as (r & Hpick & Hr & _).
    exists r. split; assumption.
  - exact (group_by_date_concat items [] d Hrun).
Qed.

(** ** A round of the chat without a key *)

(** X22: without an API key no request is made and the chat has nothing to
    advise on: whatever the upstream would answer, the client shows the
    text about the missing key, for the weather and for the forecast, and
    the rule-based analysis of that text is empty. *)
Theorem chat_round_without_key
        (call_tool : string -> dict string -> call_outcome)
        (api_key : option string)
        (gw : string -> dict (option string) -> http_outcome weather_payload)
        (gf : string -> dict (option string) -> http_outcome forecast_payload)
        (location units user_query : string) :
  api_key = None \/ api_key = Some EmptyString ->
  delivers call_tool api_key gw gf ->
  get_weather (Some call_tool) location units = Text missing_key_text /\
  get_forecast (Some call_tool) location units = Text missing_key_text /\
  _rule_based_analysis missing_key_text user_query = Return EmptyString.
Proof.
  intros Hkey Hd.
  assert (Hw : handle_call_tool api_key gw gf "get_weather"
                 (tool_arguments location units)
               = Return (text_content missing_key_text)).
  { destruct Hkey as [-> | ->]; reflexivity. }
  assert (Hf : handle_call_tool api_key gw gf "get_forecast"
                 (tool_arguments location units)
               = Return (text_content missing_key_text)).
  { destruct Hkey as [-> | ->]; reflexivity. }
  split; [unfold get_weather; rewrite (Hd _ _ _ Hw); reflexivity|].
  split; [unfold get_forecast; rewrite (Hd _ _ _ Hf); reflexivity|].
  vm_compute. reflexivity.
Qed.

Lemma chat_round_without_key_witness :
  get_weather (Some (in_process None (one_place sample_weather)
                                (one_place week_forecast)))
              "Oslo" "metric" = Text missing_key_text /\
  get_forecast (Some (in_process None (one_place sample_weather)
                                 (one_place week_forecast)))
               "Oslo" "metric" = Text missing_key_text /\
  _rule_based_analysis missing_key_text "What to wear?" = Return EmptyString.
Proof.
  apply (chat_round_without_key
           (in_process None (one_place sample_weather) (one_place week_forecast))
           None (one_place sample_weather) (one_place week_forecast)
           "Oslo" "metric" "What to wear?").
  - left. reflexivity.
  - apply in_process_delivers.
Defined.

(** ** The catalogue and the dispatch *)

(** X23: the catalogue and the dispatch. A tool can be called exactly when
    its name is the name of a listed tool, and every listed tool declares
    for [units] the default that the handlers use when the argument is
    missing. A URI given as a text can be read exactly when it is the URI of
    a listed resource; given as the URL object that the MCP library passes
    to the handler, no URI can be read, not even the listed one: the
    comparison with a text fails and the handler raises ValueError with
    "Unknown resource: <uri>". *)
Theorem catalogue_matches_dispatch
        (api_key : option string)
        (gw : string -> dict (option string) -> http_outcome weather_payload)
        (gf : string -> dict (option string) -> http_outcome forecast_payload) :
  (forall n arguments,
      (exists t, In t handle_list_tools /\ tool_name t = n) <->
      (exists content, handle_call_tool api_key gw gf n arguments = Return content)) /\
  (forall t, In t handle_list_tools ->
             schema_entry (inputSchema t) "units" "default"
               = Some (JString (arg_units []))) /\
  (forall u,
      (exists r, In r handle_list_resources /\ uri r = u) <->
      (exists body, handle_read_resource (UriText u) = Return body)) /\
  (forall u,
      handle_read_resource (UriObject u)
        = Raise (ValueError ("Unknown resource: " ++ u))).
Proof.
  split; [|split; [|split]].
  - intros n arguments. split.
    + intros (t & Hin & <-).
      destruct (known_tools_return_content api_key gw gf arguments) as [[tw Hw] [tf Hf]].
      destruct Hin as [<- | [<- | []]]; eexists; [exact Hw | exact Hf].
    + intros (content & H). unfold handle_call_tool in H.
      destruct (String.eqb_spec n "get_weather") as [-> | _].
      * eexists. split; [left; reflexivity | reflexivity].
      * destruct (String.eqb_spec n "get_forecast") as [-> | _]; [|discriminate H].
        eexists. split; [right; left; reflexivity | reflexivity].
  - intros t [<- | [<- | []]]; reflexivity.
  - intros u. split.
    + intros (r & [<- | []] & <-). eexists. reflexivity.
    + intros (body & H). unfold handle_read_resource, uri_equals in H.
      destruct (String.eqb_spec u current_uri) as [-> | _]; [|discriminate H].
      eexists. split; [left; reflexivity | reflexivity].
  - intros u. reflexivity.
Qed.

(** ** Answers that report a failure *)

Lemma starts_with_error (t : string) :
  prefix "Error" t = true -> contains "Error" t = true.
Proof. apply contains_prefix. Qed.

(** X24: the check of the system test, the word Error in the text, finds
    every failure of the server: an answer of the weather handler is the
    formatted report of a payload that the upstream sent, or it contains
    Error; an answer of the forecast handler begins with the forecast title
    of a payload that the upstream sent, or it contains Error. *)
Theorem failure_answers_say_error
        (api_key : option string)
        (gw : string -> dict (option string) -> http_outcome weather_payload)
        (gf : string -> dict (option string) -> http_outcome forecast_payload)
        (arguments : dict string) :
  (exists t,
      _get_current_weather api_key gw arguments = text_content t /\
      ((exists key data,
           api_key = Some key /\ truthy key = true /\
           gw (base_url ++ "/weather")
              (request_params (dict_get arguments "location") key (arg_units arguments))
             = HttpOk data /\
           t = formatted_response data (arg_units arguments)) \/
       contains "Error" t = true)) /\
  (exists t,
      _get_weather_forecast api_key gf arguments = text_content t /\
      ((exists key data,
           api_key = Some key /\ truthy key = true /\
           gf (base_url ++ "/forecast")
              (request_params (dict_get arguments "location") key (arg_units arguments))
             = HttpOk data /\
           prefix (forecast_title data) t = true) \/
       contains "Error" t = true)).
Proof.
  split.
  - unfold _get_current_weather.
    destruct api_key as [key|];
      [|eexists; split; [reflexivity | right; reflexivity]].
    destruct (truthy key) eqn:Hkey; cbn [negb];
      [|eexists; split; [reflexivity | right; reflexivity]].
    destruct (gw _ _) as [data|code body|message] eqn:Hup.
    + eexists. split; [reflexivity|]. left. exists key, data. auto.
    + destruct (code =? 404)%Z; eexists; (split; [reflexivity|]); right;
        apply starts_with_error; reflexivity.
    + eexists. split; [reflexivity|]. right. apply starts_with_error. reflexivity.
  - unfold _get_weather_forecast.
    destruct api_key as [key|];
      [|eexists; split; [reflexivity | right; reflexivity]].
    destruct (truthy key) eqn:Hkey; cbn [negb];
      [|eexists; split; [reflexivity | right; reflexivity]].
    destruct (gf _ _) as [data|code body|message] eqn:Hup.
    + destruct (forecast_text_general data (arg_units arguments))
        as (days & later & Htext & _).
      rewrite Htext. eexists. split; [reflexivity|]. left. exists key, data.
      split; [reflexivity|]. split; [exact Hkey|]. split; [exact Hup|].
      apply prefix_append.
    + destruct (code =? 404)%Z; eexists; (split; [reflexivity|]); right;
        apply starts_with_error; reflexivity.
    + eexists. split; [reflexivity|]. right. apply starts_with_error. reflexivity.
Qed.

(** ** A round of the launcher *)

(** ** The description, through title case and back *)

Lemma to_lower_of_cased (b : bool) (c : ascii) :
  to_lower (if b then to_lower c else to_upper c) = to_lower c.
Proof.
  destruct b; destruct c as [[|] [|] [|] [|] [|] [|] [|] [|]]; reflexivity.
Qed.

Lemma lower_title_from (s : string) :
  forall prev_cased, lower (title_from prev_cased s) = lower s.
Proof.
  induction s as [|c r IH]; intros b; [reflexivity|].
  cbn [title_from]. unfold lower in *. cbn [map_chars].
  rewrite to_lower_of_cased, IH. reflexivity.
Qed.

Lemma isspace_to_lower (c : ascii) : isspace (to_lower c) = isspace c.
Proof. destruct c as [[|] [|] [|] [|] [|] [|] [|] [|]]; reflexivity. Qed.

Lemma lstrip_lower (s : string) :
  lstrip_by isspace (lower s) = lower (lstrip_by isspace s).
Proof.
  induction s as [|c r IH]; [reflexivity|].
  unfold lower in *. cbn [map_chars lstrip_by]. rewrite isspace_to_lower.
  destruct (isspace c); [exact IH | reflexivity].
Qed.

Lemma map_chars_rev_onto (f : ascii -> ascii) (s : string) :
  forall acc,
    map_chars f (rev_onto s acc) = rev_onto (map_chars f s) (map_chars f acc).
Proof.
  induction s as [|c r IH]; intros acc; [reflexivity|].
  cbn [rev_onto map_chars]. rewrite IH. reflexivity.
Qed.

Lemma lower_rev (s : string) : lower (rev s) = rev (lower s).
Proof. unfold lower, rev. rewrite map_chars_rev_onto. reflexivity. Qed.

Lemma strip_lower (s : string) : strip (lower s) = lower (strip s).
Proof.
  unfold strip, strip_by, rstrip_by.
  rewrite lstrip_lower, <- lower_rev, lstrip_lower, <- lower_rev. reflexivity.
Qed.

Lemma lower_strip_title (d : string) :
  lower (strip (title d)) = lower (strip d).
Proof.
  rewrite <- strip_lower. unfold title. rewrite lower_title_from.
  apply strip_lower.
Qed.

(** ** The reduced forecast as canonical text *)

Lemma day_lines_canonical (us : string) (days : list (string * forecast_item)) :
  day_lines us days = line_block (map (canonical_day_line us) days).
Proof.
  induction days as [|[date forecast] rest IH]; [reflexivity|].
  cbn [day_lines map line_block]. rewrite IH.
  unfold forecast_line, canonical_day_line. cbn [fst snd].
  repeat first [rewrite append_assoc | progress cbn [append]]. reflexivity.
Qed.

Lemma forecast_title_canonical (data : forecast_payload) :
  forecast_title data = canonical_title_line data ++ nl ++ nl.
Proof.
  unfold forecast_title, canonical_title_line.
  repeat first [rewrite append_assoc | progress cbn [append]]. reflexivity.
Qed.

Lemma forecast_text_canonical (data : forecast_payload) (us : string)
      (days : list (string * forecast_item)) :
  forecast_title data ++ day_lines us days = canonical_forecast_text data us days.
Proof.
  unfold canonical_forecast_text.
  rewrite forecast_title_canonical, day_lines_canonical, !append_assoc. reflexivity.
Qed.





(** ** Numbers that are read back *)

Lemma same_float_eq (x y : spec_float) : same_float x y = true -> x = y.
Proof.
  destruct x as [a | a | | a m e], y as [b | b | | b n f]; cbn [same_float];
    try discriminate; try reflexivity; intros H.
  - apply Bool.eqb_prop in H. subst. reflexivity.
  - apply Bool.eqb_prop in H. subst. reflexivity.
  - apply andb_prop in H. destruct H as [H He].
    apply andb_prop in H. destruct H as [Hs Hm].
    apply Bool.eqb_prop in Hs. apply Pos.eqb_eq in Hm. apply Z.eqb_eq in He.
    subst. reflexivity.
Qed.

Lemma reads_back_checked (n : pynum) : reads_back_check n = true -> reads_back n.
Proof.
  unfold reads_back_check, reads_back. intros H.
  apply andb_prop in H. destruct H as [Hn Hf]. split; [exact Hn|].
  destruct (float (str_num n)) as [x|e]; [|discriminate Hf].
  apply same_float_eq in Hf. subst. reflexivity.
Qed.

(** Every number of hundredths between -20.00 and 50.00 prints as a
    numeral that [float] reads back as the same value: checked one by
    one. *)
Lemma hundredths_checked :
  forallb (fun k => reads_back_check (hundredths k))
          (from_to (-2000) (Z.to_nat 7001)) = true.
Proof. vm_compute. reflexivity. Qed.

Lemma hundredths_read_back (k : Z) :
  (-2000 <= k <= 5000)%Z -> reads_back (hundredths k).
Proof.
  intros Hk. apply reads_back_checked.
  pose proof hundredths_checked as H. rewrite forallb_forall in H. apply H.
  unfold from_to. apply in_map_iff. exists (Z.to_nat (k + 2000)).
  split; [lia|]. apply in_seq. lia.
Qed.

Lemma weather_number_reads_back (n : pynum) : weather_number n -> reads_back n.
Proof.
  intros [[z ->] | (k & Hk & ->)]; [apply int_reads_back | apply hundredths_read_back, Hk].
Qed.

(** ** Finite numbers print as numerals *)

Lemma all_chars_substring (p : ascii -> bool) (s : string) :
  all_chars p s = true ->
  forall i n, all_chars p (substring i n s) = true.
Proof.
  induction s as [|c r IH]; intros H i n.
  - destruct i, n; reflexivity.
  - cbn [all_chars] in H. apply andb_prop in H. destruct H as [Hc Hr].
    destruct i as [|i].
    + destruct n as [|n]; [reflexivity|].
      cbn [substring all_chars]. rewrite Hc. exact (IH Hr 0%nat n).
    + cbn [substring]. exact (IH Hr i n).
Qed.

Lemma all_chars_zeros (n : nat) : all_chars numeral_char (zeros n) = true.
Proof. induction n as [|n IH]; [reflexivity|]. cbn [zeros all_chars]. exact IH. Qed.

Lemma str_int_numeral_chars (z : Z) : all_chars numeral_char (str_int z) = true.
Proof.
  pose proof (str_int_numeral z) as H. unfold numeral_text in H.
  apply andb_prop in H. exact (proj2 H).
Qed.

Ltac numeral_chars :=
  repeat first
    [ rewrite all_chars_append
    | apply andb_true_intro; split
    | apply all_chars_substring
    | apply str_int_numeral_chars
    | apply all_chars_zeros
    | reflexivity
    | match goal with |- context [if ?b then _ else _] => destruct b end ].

Lemma float_repr_numeral (n : pynum) :
  finite_number n = true -> numeral_text (str_num n) = true.
Proof.
  destruct n as [z | x]; [intros _; apply str_int_numeral|].
  destruct x as [s | s | | s m e]; try discriminate; intros _.
  - destruct s; reflexivity.
  - unfold numeral_text, str_num, float_repr.
    destruct (shortest_digits s m e) as [c k].
    apply andb_true_intro. split.
    + destruct s; [reflexivity|]. cbn [append].
      repeat match goal with |- context [if ?b then _ else _] => destruct b end;
        repeat first [ reflexivity
                     | apply truthy_append_l; reflexivity
                     | apply truthy_append_r ].
    + numeral_chars.
Qed.

(** ** Round trip of the current-weather report, for ordinary payloads *)

Lemma oslo_weather_ordinary : ordinary_payload oslo_weather.
Proof.
  split; [split; vm_compute; reflexivity|].
  split; [reflexivity|].
  split; [right; exists 537%Z; split; [lia | reflexivity]|].
  split; [right; exists 210%Z; split; [lia | reflexivity]|].
  split; [right; exists 360%Z; split; [lia | reflexivity]|].
  split; [apply Nat.leb_le; vm_compute; reflexivity|].
  split; [lia | apply Nat.leb_le; vm_compute; reflexivity].
Qed.

Lemma ordinary_fields (data : weather_payload) (units : string) :
  units = "metric" \/ units = "imperial" ->
  ordinary_payload data ->
  parse_report (formatted_response data units)
    = Return (payload_fields data).
Proof.
  intros Hunits (Hplain & _ & Ht & Hf & Hw & Hhum & Hvis).
  apply weather_number_reads_back in Ht, Hf, Hw.
  destruct Ht as [Ht Htf], Hf as [Hf Hff], Hw as [Hw Hwf].
  apply degree_units in Hunits.
  rewrite (parse_formatted_report data units Hplain Ht Hf Hw).
  rewrite (parse_temp_degrees data units Ht Hf Hunits Htf).
  rewrite (parse_feels_degrees data units Ht Hf Hunits Hff).
  rewrite (parse_hum_line data Hhum).
  rewrite (parse_wind_line data units Hw Hwf).
  rewrite (parse_vis_line data Hvis).
  reflexivity.
Qed.

(** X1: for metric and imperial units and an ordinary payload (names and
    description without line break and without the parser's labels, an
    ASCII description, temperature, feels-like and wind speed integers or
    numbers with up to two decimals between -20.00 and 50.00, humidity and
    visibility of at most 4300 digits, visibility not negative), parsing
    the formatted report gives back temperature, feels-like, humidity, wind
    speed and visibility of the payload, and the description title-cased,
    stripped and lower-cased. That the numbers are read back as the same
    floats is proved, not assumed. *)
Theorem report_round_trip (data : weather_payload) (units : string) :
  units = "metric" \/ units = "imperial" ->
  ordinary_payload data ->
  exists f,
    parse_report (formatted_response data units) = Return f /\
    recovers data f /\
    desc f = lower (strip (title (wd_description data))).
Proof.
  intros Hunits Hord. exists (payload_fields data).
  split; [exact (ordinary_fields data units Hunits Hord)|].
  split; [|reflexivity]. unfold recovers. cbn [temp feels hum wind vis]. repeat split.
Qed.

Lemma report_round_trip_witness :
  exists f,
    parse_report (formatted_response oslo_weather "imperial") = Return f /\
    recovers oslo_weather f /\
    desc f = lower (strip (title (wd_description oslo_weather))).
Proof.
  apply (report_round_trip oslo_weather "imperial").
  - right. reflexivity.
  - exact oslo_weather_ordinary.
Defined.



(** ** A round of the chat and of the launcher, for ordinary payloads *)

Lemma weather_handler_on_payload
      (call_tool : string -> dict string -> call_outcome)
      (key : string)
      (gw : string -> dict (option string) -> http_outcome weather_payload)
      (gf : string -> dict (option string) -> http_outcome forecast_payload)
      (location units : string) (data : weather_payload) :
  truthy key = true ->
  delivers call_tool (Some key) gw gf ->
  gw (base_url ++ "/weather") (request_params (Some location) key units)
    = HttpOk data ->
  get_weather (Some call_tool) location units
    = Text (formatted_response data units).
Proof.
  intros Hkey Hd Hup.
  assert (Hhandler : handle_call_tool (Some key) gw gf "get_weather"
                       (tool_arguments location units)
                     = Return (text_content (formatted_response data units))).
  { unfold handle_call_tool, _get_current_weather.
    cbn [String.eqb Ascii.eqb Bool.eqb].
    rewrite Hkey. cbn [negb].
    change (dict_get (tool_arguments location units) "location")
      with (Some location).
    change (arg_units (tool_arguments location units)) with units.
    rewrite Hup. reflexivity. }
  unfold get_weather. rewrite (Hd _ _ _ Hhandler). reflexivity.
Qed.

Lemma rules_on_ordinary (data : weather_payload) (units user_query : string) :
  units = "metric" \/ units = "imperial" ->
  ordinary_payload data ->
  _rule_based_analysis (formatted_response data units) user_query
  = Return (join nl (tips_of (payload_fields data))).
Proof.
  intros Hunits Hord. unfold _rule_based_analysis.
  rewrite (ordinary_fields data units Hunits Hord). cbn [bind].
  rewrite fromkeys_tips. reflexivity.
Qed.

(** X19: one round of the chat, end to end. Assume a key is set, the
    session delivers what the handler returns, and the upstream answers the
    request for the location in metric units with an ordinary payload
    (names and description without line break and without the parser's
    labels, an ASCII description, temperature, feels-like and wind speed
    integers or numbers with up to two decimals between -20.00 and 50.00,
    humidity and visibility of at most 4300 digits, visibility not
    negative). Then the text the client shows is the formatted report of
    that payload, and the analysis shown with it is the first answer of a
    configured provider or, when there is none, the rule-based tips for the
    fields [f] that hold the payload's own temperature, feels-like,
    humidity, wind speed and visibility and its description title-cased,
    stripped and lower-cased. *)
Theorem chat_round_advice
        (environ : string -> option string)
        (openai hf ollama : string -> string -> string -> string -> option string)
        (call_tool : string -> dict string -> call_outcome)
        (key : string)
        (gw : string -> dict (option string) -> http_outcome weather_payload)
        (gf : string -> dict (option string) -> http_outcome forecast_payload)
        (location : string) (data : weather_payload) :
  truthy key = true ->
  delivers call_tool (Some key) gw gf ->
  gw (base_url ++ "/weather") (request_params (Some location) key "metric")
    = HttpOk data ->
  ordinary_payload data ->
  exists f,
    get_weather (Some call_tool) location "metric"
      = Text (formatted_response data "metric") /\
    recovers data f /\
    desc f = lower (strip (title (wd_description data))) /\
    analyze_weather_with_llm_async environ openai hf ollama
      (formatted_response data "metric") ("Weather for " ++ location)
    = match first_answer (tiers environ openai hf ollama
                                (formatted_response data "metric")
                                ("Weather for " ++ location)) with
      | Some a => Return a
      | None => Return (join nl (tips_of f))
      end.
Proof.
  intros Hkey Hd Hup Hord. exists (payload_fields data).
  split; [exact (weather_handler_on_payload _ _ _ _ _ _ _ Hkey Hd Hup)|].
  split; [|split].
  - unfold recovers. cbn [temp feels hum wind vis]. repeat split.
  - reflexivity.
  - rewrite cascade_search. destruct (first_answer _); [reflexivity|].
    apply rules_on_ordinary; [left; reflexivity | exact Hord].
Qed.

Lemma chat_round_advice_witness :
  exists f,
    get_weather (Some (in_process (Some "k") (one_place oslo_weather)
                                  (one_place week_forecast)))
                "Oslo" "metric"
      = Text (formatted_response oslo_weather "metric") /\
    recovers oslo_weather f /\
    desc f = lower (strip (title (wd_description oslo_weather))) /\
    analyze_weather_with_llm_async bare_environ chatty chatty chatty
      (formatted_response oslo_weather "metric") ("Weather for " ++ "Oslo")
    = match first_answer (tiers bare_environ chatty chatty chatty
                                (formatted_response oslo_weather "metric")
                                ("Weather for " ++ "Oslo")) with
      | Some a => Return a
      | None => Return (join nl (tips_of f))
      end.
Proof.
  apply (chat_round_advice bare_environ chatty chatty chatty
           (in_process (Some "k") (one_place oslo_weather) (one_place week_forecast))
           "k" (one_place oslo_weather) (one_place week_forecast)
           "Oslo" oslo_weather).
  - reflexivity.
  - apply in_process_delivers.
  - reflexivity.
  - exact oslo_weather_ordinary.
Defined.

(** X25: the launcher never consults a provider. Its analysis runs inside
    the coroutine [main], where an event loop is running, so whatever the
    environment and the providers are: when a key is set, the session
    delivers what the handler returns and the upstream answers the request
    for the location in metric or imperial units with an ordinary payload
    (names and description without line break and without the parser's
    labels, an ASCII description, temperature, feels-like and wind speed
    integers or numbers with up to two decimals between -20.00 and 50.00,
    humidity and visibility of at most 4300 digits, visibility not
    negative), the text the launcher prints is the formatted report
    followed by the rule-based tips for the fields [f] that hold the
    payload's own values. *)
Theorem launcher_round
        (environ : string -> option string)
        (openai hf ollama : string -> string -> string -> string -> option string)
        (call_tool : string -> dict string -> call_outcome)
        (key : string)
        (gw : string -> dict (option string) -> http_outcome weather_payload)
        (gf : string -> dict (option string) -> http_outcome forecast_payload)
        (location units : string) (data : weather_payload) :
  units = "metric" \/ units = "imperial" ->
  truthy key = true ->
  delivers call_tool (Some key) gw gf ->
  gw (base_url ++ "/weather") (request_params (Some location) key units)
    = HttpOk data ->
  ordinary_payload data ->
  exists f,
    show_weather environ openai hf ollama (Some call_tool) location units
      = Printed (formatted_response data units ++ nl ++ nl ++
                 "🤖 Analysis: " ++ join nl (tips_of f)) /\
    recovers data f /\
    desc f = lower (strip (title (wd_description data))).
Proof.
  intros Hu Hkey Hd Hup Hord. exists (payload_fields data).
  split; [|split].
  - unfold show_weather.
    rewrite (weather_handler_on_payload _ _ _ _ _ _ _ Hkey Hd Hup).
    unfold analyze_weather_with_llm.
    rewrite (rules_on_ordinary data units _ Hu Hord). reflexivity.
  - unfold recovers. cbn [temp feels hum wind vis]. repeat split.
  - reflexivity.
Qed.

Lemma launcher_round_witness :
  exists f,
    show_weather (fun _ => Some "set") chatty chatty chatty
                 (Some (in_process (Some "k") (one_place oslo_weather)
                                   (one_place week_forecast)))
                 "Oslo" "imperial"
      = Printed (formatted_response oslo_weather "imperial" ++ nl ++ nl ++
                 "🤖 Analysis: " ++ join nl (tips_of f)) /\
    recovers oslo_weather f /\
    desc f = lower (strip (title (wd_description oslo_weather))).
Proof.
  apply (launcher_round (fun _ => Some "set") chatty chatty chatty
           (in_process (Some "k") (one_place oslo_weather) (one_place week_forecast))
           "k" (one_place oslo_weather) (one_place week_forecast)
           "Oslo" "imperial" oslo_weather).
  - right. reflexivity.
  - reflexivity.
  - apply in_process_delivers.
  - reflexivity.
  - exact oslo_weather_ordinary.
Defined.

(** X26: the title case that the server gives the description is undone by
    the parser. For every units value and a payload whose names and
    description have no line break and none of the parser's labels, whose
    description is ASCII and whose temperature, feels-like and wind speed
    are finite numbers, the description that the rule engine reads from the
    handler's report is the payload's description with the blanks around it
    removed and in lower case, so the precipitation tip and the summary for
    the payload's description are among the tips. *)
Theorem description_read_back (data : weather_payload) (units : string) :
  plain_texts data ->
  ascii_text (wd_description data) = true ->
  finite_number (wd_temp data) = true ->
  finite_number (wd_feels_like data) = true ->
  finite_number (wd_wind_speed data) = true ->
  exists f,
    parse_report (formatted_response data units) = Return f /\
    desc f = lower (strip (wd_description data)) /\
    forall t, In t (precipitation_tips (lower (strip (wd_description data))) ++
                    summary_tips (lower (strip (wd_description data)))) ->
              In t (tips_of f).
Proof.
  intros Hplain _ Ht Hf Hw.
  apply float_repr_numeral in Ht, Hf, Hw.
  pose proof (parse_formatted_report data units Hplain Ht Hf Hw) as Hparse.
  eexists. split; [exact Hparse|]. cbn [desc].
  rewrite lower_strip_title. split; [reflexivity|].
  intros t Hin. unfold tips_of. cbn [temp feels desc hum wind vis].
  rewrite !in_app_iff. apply in_app_or in Hin.
  destruct Hin as [Hin | Hin]; [do 2 right; left; exact Hin | do 6 right; exact Hin].
Qed.

Lemma description_read_back_witness :
  exists f,
    parse_report (formatted_response oslo_weather "kelvin") = Return f /\
    desc f = lower (strip (wd_description oslo_weather)) /\
    forall t, In t (precipitation_tips (lower (strip (wd_description oslo_weather))) ++
                    summary_tips (lower (strip (wd_description oslo_weather)))) ->
              In t (tips_of f).
Proof.
  apply (description_read_back oslo_weather "kelvin").
  - split; vm_compute; reflexivity.
  - reflexivity.
  - reflexivity.
  - reflexivity.
  - reflexivity.
Defined.

(** X20: on a well-formed payload the forecast handler does not fail. A
    payload is well-formed when it has what the handler reads, as the
    record types of the model say: the city with name and country, and for
    every entry [main.temp], [main.humidity], a first [weather] item with a
    [description], and a [dt_txt] that is a text when it is present. With a
    key set and an upstream that answers with such a payload, whatever its
    entries are, the answer is the canonical text: the title line, an empty
    line and one line
    [<mark> <date>: <temp><unit_symbol>, <Description>, Humidity: <int>%] for
    each of the earliest dates, five of them or all when the payload has
    fewer (none when the list is missing or empty), in ascending order and
    each with the values of the representative of its date. The handler's
    branch for an exception is not taken for such a payload. *)
Theorem forecast_answer_in_general
        (key : string)
        (gf : string -> dict (option string) -> http_outcome forecast_payload)
        (arguments : dict string) (data : forecast_payload) :
  truthy key = true ->
  gf (base_url ++ "/forecast")
     (request_params (dict_get arguments "location") key (arg_units arguments))
    = HttpOk data ->
  exists days later,
    _get_weather_forecast (Some key) gf arguments
      = [{| type := "text";
            text := canonical_forecast_text data (unit_symbol (arg_units arguments))
                                            days |}] /\
    List.length days = Nat.min 5 (List.length (distinct_dates (items_of data))) /\
    Permutation (map fst days ++ later) (distinct_dates (items_of data)) /\
    StronglySorted str_lt (map fst days ++ later) /\
    Forall (fun day => represents (items_of data) (fst day) (snd day)) days.
Proof.
  intros Hkey Hup.
  destruct (forecast_text_general data (arg_units arguments))
    as (days & later & Htext & Hrest).
  exists days, later. split; [|exact Hrest].
  unfold _get_weather_forecast. rewrite Hkey. cbn [negb].
  rewrite Hup, Htext, forecast_text_canonical. reflexivity.
Qed.

Lemma forecast_answer_in_general_witness :
  exists days later,
    _get_weather_forecast (Some "k") (one_place week_forecast)
                          (tool_arguments "Oslo" "imperial")
      = [{| type := "text";
            text := canonical_forecast_text week_forecast
                      (unit_symbol (arg_units (tool_arguments "Oslo" "imperial")))
                      days |}] /\
    List.length days
      = Nat.min 5 (List.length (distinct_dates (items_of week_forecast))) /\
    Permutation (map fst days ++ later) (distinct_dates (items_of week_forecast)) /\
    StronglySorted str_lt (map fst days ++ later) /\
    Forall (fun day => represents (items_of week_forecast) (fst day) (snd day)) days.
Proof.
  apply (forecast_answer_in_general "k" (one_place week_forecast)
           (tool_arguments "Oslo" "imperial") week_forecast);
    reflexivity.
Defined.
